(** * Validation-and-load subsystem of the ingestion pipeline

    A shallow embedding of [ingestion/validators/__init__.py] and
    [ingestion/loaders/__init__.py].

    - Scalars of a pandas row are a tagged union ([value]); a Python
      [dict] is an insertion-ordered association list with unique keys.
    - Exceptions are values of [exn]; a call that may raise returns a sum
      whose left side is the exception.
    - The libraries the code calls into (pydantic-core's lax conversions,
      its regex engine, [str.lower], the rendering of exceptions, the
      warehouse behind SQLAlchemy) are interfaces ([PyRuntime],
      [Warehouse]); every theorem holds for all their implementations,
      and reference instances make the definitions executable.
    - A cell holds the scalar that was put there: column dtypes and the
      conversions pandas applies when it infers them are not modelled.
    - Logging is not modelled. *)

From Stdlib Require Import List String Ascii ZArith QArith Bool Lia.
Import ListNotations.
Open Scope string_scope.
Open Scope list_scope.

(** ** Scalars *)

(** A Python [float]: not-a-number, an infinity, or a finite number taken
    with its exact value (binary64 representation error is abstracted). *)
Inductive pyfloat : Type :=
| FNaN
| FInf (negative : bool)
| FFin (q : Q).

(** The scalars a pandas cell holds: [None], [pd.NA], [pd.NaT], [bool],
    [int], [float], [str], and a timestamp (as an instant). *)
Inductive value : Type :=
| VNone
| VNA
| VNaT
| VBool (b : bool)
| VInt (z : Z)
| VFloat (f : pyfloat)
| VStr (s : string)
| VTimestamp (t : Z).

(** [pd.isna] on a scalar. The empty string is not a missing value. *)
Definition isna (v : value) : bool :=
  match v with
  | VNone | VNA | VNaT | VFloat FNaN => true
  | _ => false
  end.

(** [k.startswith('_')] *)
Definition startswith_underscore (k : string) : bool :=
  match k with
  | String c _ => Ascii.eqb c "_"%char
  | EmptyString => false
  end.

(** ** Python dicts *)

Definition dict : Type := list (string * value).

Fixpoint dict_get (d : dict) (k : string) : option value :=
  match d with
  | [] => None
  | (k', v) :: d' => if String.eqb k' k then Some v else dict_get d' k
  end.

(** [d[k] = v]: overwrite in place, or append a new key. *)
Fixpoint dict_set (k : string) (v : value) (d : dict) : dict :=
  match d with
  | [] => [(k, v)]
  | (k', v') :: d' =>
      if String.eqb k' k then (k', v) :: d' else (k', v') :: dict_set k v d'
  end.

(** [d.update(other)] *)
Definition dict_update (d other : dict) : dict :=
  fold_left (fun acc kv => dict_set (fst kv) (snd kv) acc) other d.

(** [dict(pairs)] *)
Definition dict_of_pairs (pairs : list (string * value)) : dict :=
  dict_update [] pairs.

Definition keys (d : dict) : list string := map fst d.

(** ** DataFrames *)

(** A frame is an ordered column list and, per row, an index label with
    one cell per column. *)
Record DataFrame : Type := mkDataFrame {
  columns : list string;
  records : list (Z * list value)
}.

(** A row as [iterrows] yields it: the column labels zipped with cells. *)
Definition Series : Type := list (string * value).

Definition len (df : DataFrame) : nat := List.length (records df).

(** [df.empty]: some axis has length zero. *)
Definition empty (df : DataFrame) : bool :=
  match records df, columns df with
  | [], _ => true
  | _, [] => true
  | _, _ => false
  end.

Definition iterrows (df : DataFrame) : list (Z * Series) :=
  map (fun r => (fst r, combine (columns df) (snd r))) (records df).

(** [row.to_dict()] *)
Definition to_dict (row : Series) : dict := dict_of_pairs row.

(** Column labels of [pd.DataFrame(rows)]: the keys of the dicts in order
    of first appearance. *)
Fixpoint add_new (ks : list string) (cols : list string) : list string :=
  match ks with
  | [] => cols
  | k :: ks' =>
      add_new ks' (if existsb (String.eqb k) cols then cols else cols ++ [k])
  end.

Definition union_keys (rows : list dict) : list string :=
  fold_left (fun cols d => add_new (keys d) cols) rows [].

(** A cell of [pd.DataFrame(rows)]: the dict's value, NaN where the key is
    absent. *)
Definition cell (d : dict) (c : string) : value :=
  match dict_get d c with
  | Some v => v
  | None => VFloat FNaN
  end.

Fixpoint range_from (start : Z) (n : nat) : list Z :=
  match n with
  | O => []
  | S n' => start :: range_from (start + 1) n'
  end.

(** The cell of column [c] in the row at position [i]. *)
Definition cell_at (df : DataFrame) (i : nat) (c : string) : option value :=
  match nth_error (map snd (iterrows df)) i with
  | Some row => dict_get (to_dict row) c
  | None => None
  end.

(** [pd.DataFrame(rows)] for a list of dicts, with a fresh RangeIndex. A
    cell holds the scalar of its dict. The dtype that pandas then infers
    for each column (a [None] kept as NaN or NaT in a numeric or datetime
    column, an int kept as a float next to NaN) is not represented: what
    is said of a cell is said of the scalar the code put there. *)
Definition DataFrame_of_dicts (rows : list dict) : DataFrame :=
  let cols := union_keys rows in
  mkDataFrame cols
    (combine (range_from 0 (List.length rows))
             (map (fun d => map (cell d) cols) rows)).

(** ** Exceptions *)

(** [ValueError] and [LoadError] are raised by the code itself; a
    [DBAPIError] is whatever SQLAlchemy raises from the warehouse. *)
Inductive exn : Type :=
| ValueError (msg : string)
| LoadError (msg : string)
| DBAPIError (msg : string).

(** ** Pydantic models *)

Inductive FieldType : Type := TStr | TInt | TFloat | TDatetime.

(** The [Field(...)] constraints the schemas use. *)
Inductive Constraint : Type :=
| min_length (n : nat)
| pattern (re : string)
| gt (bound : Z)
| ge (bound : Z).

(** What an entry of [e.errors()] reports as its input: the field's raw
    value, or the whole input mapping when the field is missing. *)
Inductive ErrorInput : Type :=
| InputValue (v : value)
| InputMapping (d : dict).

(** One entry of [e.errors()]: error type, location (the field name) and
    input. *)
Record ErrorDetail : Type := mkErrorDetail {
  err_type : string;
  err_loc : string;
  err_input : ErrorInput
}.

Record ValidationError : Type := mkValidationError {
  title : string;
  error_list : list ErrorDetail
}.

(** The library behaviour below the code. *)
Class PyRuntime : Type := {
  (** pydantic-core's lax-mode conversion of a value that is not already
      an instance of the annotated type (numeric strings, int to float,
      ...): the converted value or an error type. *)
  lax_convert : FieldType -> value -> string + value;
  (** the regex engine: does the pattern match the text? *)
  re_search : string -> string -> bool;
  (** [str.lower] *)
  str_lower : string -> string;
  (** [str(e.errors())] *)
  str_of_errors : list ErrorDetail -> string;
  (** [str(e)] for a [ValidationError] *)
  str_of_exception : ValidationError -> string
}.

(** A field of a model: annotation, whether it is [Optional[...] = None],
    constraints in declaration order, and the after-validator
    ([@field_validator], run on the value once type and constraints have
    passed). *)
Record FieldInfo : Type := mkField {
  field_name : string;
  annotation : FieldType;
  optional : bool;
  constraints : list Constraint;
  after_validator : option (value -> value)
}.

Record Model : Type := mkModel {
  model_name : string;
  model_fields : list FieldInfo
}.

Definition Qlt_bool (a b : Q) : bool := negb (Qle_bool b a).

Definition float_gt (f : pyfloat) (bound : Z) : bool :=
  match f with
  | FNaN => false
  | FInf negative => negb negative
  | FFin q => Qlt_bool (inject_Z bound) q
  end.

Definition float_ge (f : pyfloat) (bound : Z) : bool :=
  match f with
  | FNaN => false
  | FInf negative => negb negative
  | FFin q => Qle_bool (inject_Z bound) q
  end.

(** Nearest integer to [n/d], ties to the even one. *)
Definition round_half_even (n : Z) (d : positive) : Z :=
  let fl := (n / Zpos d)%Z in
  let r := (n mod Zpos d)%Z in
  if (2 * r <? Zpos d)%Z then fl
  else if (Zpos d <? 2 * r)%Z then (fl + 1)%Z
  else if Z.even fl then fl else (fl + 1)%Z.

(** [round(v, 2)] on a float. *)
Definition round2 (f : pyfloat) : pyfloat :=
  match f with
  | FFin q => FFin (Qmake (round_half_even (100 * Qnum q) (Qden q)) 100)
  | _ => f
  end.

Section Validation.
Context {RT : PyRuntime}.

(** Does the converted value satisfy the constraint? *)
Definition satisfies (c : Constraint) (v : value) : bool :=
  match c, v with
  | min_length n, VStr s => (n <=? String.length s)%nat
  | pattern re, VStr s => re_search re s
  | gt b, VInt z => (b <? z)%Z
  | gt b, VFloat f => float_gt f b
  | ge b, VInt z => (b <=? z)%Z
  | ge b, VFloat f => float_ge f b
  | _, _ => true
  end.

Definition constraint_error (c : Constraint) : string :=
  match c with
  | min_length _ => "string_too_short"
  | pattern _ => "string_pattern_mismatch"
  | gt _ => "greater_than"
  | ge _ => "greater_than_equal"
  end.

(** The first failing constraint, in declaration order. *)
Fixpoint first_failing (cs : list Constraint) (v : value) : option Constraint :=
  match cs with
  | [] => None
  | c :: cs' => if satisfies c v then first_failing cs' v else Some c
  end.

Definition type_error (t : FieldType) : string :=
  match t with
  | TStr => "string_type"
  | TInt => "int_type"
  | TFloat => "float_type"
  | TDatetime => "datetime_type"
  end.

(** Type check of a present value against the annotation. [None] is an
    instance of no scalar type; a [str] field takes only a [str]. *)
Definition coerce (t : FieldType) (v : value) : string + value :=
  match t, v with
  | _, VNone => inl (type_error t)
  | TStr, VStr _ => inr v
  | TStr, _ => inl (type_error TStr)
  | TInt, VInt _ => inr v
  | TFloat, VFloat _ => inr v
  | TDatetime, VTimestamp _ => inr v
  | _, _ => lax_convert t v
  end.

Definition run_after (f : FieldInfo) (v : value) : value :=
  match after_validator f with
  | Some g => g v
  | None => v
  end.

(** Validation of one field against the input mapping: the validated value
    or the single error entry of the field. *)
Definition validate_field (f : FieldInfo) (d : dict) : ErrorDetail + value :=
  match dict_get d (field_name f) with
  | None =>
      if optional f then inr VNone
      else inl (mkErrorDetail "missing" (field_name f) (InputMapping d))
  | Some v =>
      match v, optional f with
      | VNone, true => inr VNone
      | _, _ =>
          match coerce (annotation f) v with
          | inl ty => inl (mkErrorDetail ty (field_name f) (InputValue v))
          | inr v' =>
              match first_failing (constraints f) v' with
              | Some c =>
                  inl (mkErrorDetail (constraint_error c) (field_name f)
                         (InputValue v))
              | None => inr (run_after f v')
              end
          end
      end
  end.

(** All fields are checked; the errors of all failing fields are
    collected, next to the validated values of the others. *)
Fixpoint validate_fields (fs : list FieldInfo) (d : dict)
  : list ErrorDetail * dict :=
  match fs with
  | [] => ([], [])
  | f :: fs' =>
      let (errs, out) := validate_fields fs' d in
      match validate_field f d with
      | inl e => (e :: errs, out)
      | inr v => (errs, (field_name f, v) :: out)
      end
  end.

(** Instantiating the model from the row's keywords, followed by
    [model_dump()]: the validation error, or the validated values of all
    fields in declaration order. *)
Definition model_validate (m : Model) (d : dict) : ValidationError + dict :=
  match validate_fields (model_fields m) d with
  | ([], out) => inr out
  | (errs, _) => inl (mkValidationError (model_name m) errs)
  end.

(** *** The record schemas *)

Definition required (name : string) (t : FieldType) (cs : list Constraint)
  : FieldInfo := mkField name t false cs None.

Definition lowercase_email (v : value) : value :=
  match v with
  | VStr s => VStr (str_lower s)
  | _ => v
  end.

Definition round_decimal (v : value) : value :=
  match v with
  | VFloat f => VFloat (round2 f)
  | _ => v
  end.

Definition CustomerRecord : Model :=
  mkModel "CustomerRecord"
    [ required "customer_id" TStr [min_length 1];
      required "first_name" TStr [min_length 1];
      required "last_name" TStr [min_length 1];
      mkField "email" TStr false [pattern "^[\w\.-]+@[\w\.-]+\.\w+$"]
        (Some lowercase_email);
      required "country" TStr [min_length 2];
      mkField "created_at" TDatetime true [] None ].

Definition ProductRecord : Model :=
  mkModel "ProductRecord"
    [ required "product_id" TStr [min_length 1];
      required "product_name" TStr [min_length 1];
      required "category" TStr [min_length 1];
      mkField "price" TFloat false [gt 0] (Some round_decimal);
      mkField "cost" TFloat false [ge 0] (Some round_decimal) ].

Definition OrderRecord : Model :=
  mkModel "OrderRecord"
    [ required "order_id" TStr [min_length 1];
      required "customer_id" TStr [min_length 1];
      required "product_id" TStr [min_length 1];
      required "quantity" TInt [gt 0];
      mkField "order_date" TDatetime true [] None;
      required "status" TStr
        [pattern "^(pending|completed|shipped|cancelled)$"] ].

End Validation.

(** ** SchemaValidator *)

(** An entry of the error list returned by [validate]. *)
Record error_info : Type := mkErrorInfo {
  row_index : Z;
  errors : list ErrorDetail;
  data : dict
}.

Module SchemaValidator.

Record t : Type := mk { mode : string }.

Section WithRuntime.
Context {RT : PyRuntime}.

Definition SCHEMAS : list (string * Model) :=
  [ ("customers", CustomerRecord);
    ("products", ProductRecord);
    ("orders", OrderRecord) ].

Fixpoint lookup (table : list (string * Model)) (name : string)
  : option Model :=
  match table with
  | [] => None
  | (n, m) :: table' => if String.eqb n name then Some m else lookup table' name
  end.

(** [SchemaValidator(mode)] *)
Definition __init__ (mode : string) : exn + t :=
  if String.eqb mode "strict" || String.eqb mode "filter"
     || String.eqb mode "flag"
  then inr (mk mode)
  else inl (ValueError ("Invalid mode: " ++ mode)).

(** The mapping handed to the schema: metadata columns skipped, missing
    values replaced by [None]. *)
Definition row_dict (row : Series) : dict :=
  map (fun kv => (fst kv, if isna (snd kv) then VNone else snd kv))
      (filter (fun kv => negb (startswith_underscore (fst kv)))
              (to_dict row)).

(** The body of the [for idx, row in df.iterrows()] loop, threading the
    two accumulators; the left result is the exception raised in strict
    mode. *)
Fixpoint validate_rows (self : t) (schema : Model) (rows : list (Z * Series))
    (valid_rows : list dict) (errors : list error_info)
  : exn + (list dict * list error_info) :=
  match rows with
  | [] => inr (valid_rows, errors)
  | (idx, row) :: rest =>
      match model_validate schema (row_dict row) with
      | inr validated =>
          let valid_row := dict_update (to_dict row) validated in
          let valid_row :=
            if String.eqb (mode self) "flag"
            then dict_set "_is_valid" (VBool true) valid_row
            else valid_row in
          validate_rows self schema rest (valid_rows ++ [valid_row]) errors
      | inl e =>
          let info := mkErrorInfo idx (error_list e) (to_dict row) in
          let errors := errors ++ [info] in
          if String.eqb (mode self) "strict" then
            inl (ValueError ("Validation failed: " ++ str_of_exception e))
          else if String.eqb (mode self) "flag" then
            let flagged_row := dict_set "_is_valid" (VBool false) (to_dict row) in
            let flagged_row :=
              dict_set "_validation_errors"
                (VStr (str_of_errors (error_list e))) flagged_row in
            validate_rows self schema rest (valid_rows ++ [flagged_row]) errors
          else validate_rows self schema rest valid_rows errors
      end
  end.

Definition validate (self : t) (df : DataFrame) (schema_name : string)
  : exn + (DataFrame * list error_info) :=
  match lookup SCHEMAS schema_name with
  | None => inl (ValueError ("Unknown schema: " ++ schema_name))
  | Some schema =>
      match validate_rows self schema (iterrows df) [] [] with
      | inl e => inl e
      | inr (valid_rows, errors) => inr (DataFrame_of_dicts valid_rows, errors)
      end
  end.

Definition get_schema_columns (schema_name : string) : exn + list string :=
  match lookup SCHEMAS schema_name with
  | None => inl (ValueError ("Unknown schema: " ++ schema_name))
  | Some schema => inr (map field_name (model_fields schema))
  end.

End WithRuntime.
End SchemaValidator.

(** ** PostgresLoader *)

Inductive IfExists : Type := append | replace | fail.

(** The warehouse behind the SQLAlchemy engine. A failing operation yields
    the driver's error message. *)
Class Warehouse : Type := {
  DB : Type;
  (** checking a connection out of the pool: [Some msg] when it fails *)
  connect : DB -> option string;
  (** [conn.execute(text(sql), params)] *)
  execute : string -> dict -> DB -> string + DB;
  (** what [to_sql] does to the target for [if_exists], before inserting *)
  prepare_table : string -> string -> IfExists -> DB -> string + DB;
  (** one multi-row INSERT (schema, table, columns, rows of a chunk) *)
  insert_many :
    string -> string -> list string -> list (list value) -> DB -> string + DB;
  (** what stays in the warehouse once pandas has closed the connection of
      a [to_sql] call that raised: from the message of the exception, the
      state before the call and the state reached by the statements that
      went through. A failure reported by the server aborts the
      transaction and the state before the call stays; a failure raised on
      the client side need not undo what was written. *)
  abandon : string -> DB -> DB -> DB
}.

(** What goes over the wire. [Close]: pandas closes the connection of a
    [to_sql] call that raised. *)
Inductive Event : Type :=
| Connect
| Execute (sql : string) (params : dict)
| PrepareTable (schema table : string) (if_exists : IfExists)
| InsertMany (schema table : string) (batch : nat) (rows : list (list value))
| Commit
| Rollback
| Close.

Definition newline : string := String (ascii_of_nat 10) EmptyString.

(** Rows in groups of at most [n], in order. *)
Fixpoint chunked_aux {A : Type} (fuel n : nat) (l : list A) : list (list A) :=
  match fuel, l with
  | O, _ => []
  | _, [] => []
  | S fuel', _ => firstn n l :: chunked_aux fuel' n (skipn n l)
  end.

Definition chunked {A : Type} (n : nat) (l : list A) : list (list A) :=
  chunked_aux (List.length l) n l.

Module PostgresLoader.
Section WithWarehouse.
Context {WH : Warehouse}.

(** The loader's lazily created engine, the warehouse it talks to, and the
    traffic so far. *)
Record World : Type := mkWorld {
  engine_created : bool;
  database : DB;
  trace : list Event
}.

(** Reading [self.engine] creates the engine on first use. *)
Definition engine (w : World) : World :=
  mkWorld true (database w) (trace w).

(** The per-chunk inserts of [to_sql]: on failure, the index of the chunk
    that failed and the driver's message. *)
Fixpoint insert_chunks (schema table : string) (cols : list string)
    (i : nat) (chunks : list (list (list value))) (db : DB) (tr : list Event)
  : (nat * string + DB) * list Event :=
  match chunks with
  | [] => (inr db, tr)
  | rows :: chunks' =>
      let tr := tr ++ [InsertMany schema table i rows] in
      match insert_many schema table cols rows db with
      | inl msg => (inl (i, msg), tr)
      | inr db' => insert_chunks schema table cols (S i) chunks' db' tr
      end
  end.

(** The state reached by the batches that went through. *)
Fixpoint written (schema table : string) (cols : list string)
    (chunks : list (list (list value))) (db : DB) : DB :=
  match chunks with
  | [] => db
  | rows :: chunks' =>
      match insert_many schema table cols rows db with
      | inl _ => db
      | inr db' => written schema table cols chunks' db'
      end
  end.

(** [df.to_sql(name, con, schema, if_exists, index=False, chunksize,
    method='multi')] (pandas): the call runs on one connection; rows are
    written in batches of [chunksize] and committed when the call
    returns. When the call raises, pandas closes the connection and the
    warehouse keeps what [abandon] says. Only the message of the exception
    leaves the call. *)
Definition to_sql (df : DataFrame) (name schema : string)
    (if_exists : IfExists) (chunksize : nat) (w : World)
  : (string + unit) * World :=
  let failed msg reached tr :=
    (@inl string unit msg,
     mkWorld (engine_created w) (abandon msg (database w) reached)
       (tr ++ [Close])) in
  let tr := trace w ++ [Connect] in
  match connect (database w) with
  | Some msg =>
      (@inl string unit msg, mkWorld (engine_created w) (database w) tr)
  | None =>
      let tr := tr ++ [PrepareTable schema name if_exists] in
      match prepare_table schema name if_exists (database w) with
      | inl msg => failed msg (database w) tr
      | inr db1 =>
          match chunksize with
          | O => failed "chunksize argument should be non-zero" db1 tr
          | S _ =>
              let chunks := chunked chunksize (map snd (records df)) in
              match insert_chunks schema name (columns df) 0 chunks db1 tr with
              | (inl (_, msg), tr') =>
                  failed msg (written schema name (columns df) chunks db1) tr'
              | (inr db2, tr') =>
                  (inr tt, mkWorld (engine_created w) db2 (tr' ++ [Commit]))
              end
          end
      end
  end.

Definition load (df : DataFrame) (table_name schema : string)
    (if_exists : IfExists) (chunk_size : nat) (w : World)
  : (exn + nat) * World :=
  if empty df then (inr O, w)
  else
    match to_sql df table_name schema if_exists chunk_size (engine w) with
    | (inr tt, w') => (inr (len df), w')
    | (inl e, w') => (inl (LoadError ("Failed to load data: " ++ e)), w')
    end.

(** The statement text built by [upsert]. *)
Definition upsert_sql (df_columns : list string) (table_name schema : string)
    (key_columns update_columns : list string) : string :=
  let col_list := String.concat ", " df_columns in
  let placeholders :=
    String.concat ", " (map (fun c => ":" ++ c)%string df_columns) in
  let key_list := String.concat ", " key_columns in
  let update_set :=
    String.concat ", "
      (map (fun c => c ++ " = EXCLUDED." ++ c)%string update_columns) in
  (newline
   ++ "        INSERT INTO " ++ schema ++ "." ++ table_name
   ++ " (" ++ col_list ++ ")" ++ newline
   ++ "        VALUES (" ++ placeholders ++ ")" ++ newline
   ++ "        ON CONFLICT (" ++ key_list ++ ")" ++ newline
   ++ "        DO UPDATE SET " ++ update_set ++ newline
   ++ "        ")%string.

(** The loop inside the transaction: one statement per row until one
    fails. *)
Fixpoint execute_rows (sql : string) (rows : list (Z * Series)) (db : DB)
    (tr : list Event) : (string + DB) * list Event :=
  match rows with
  | [] => (inr db, tr)
  | (_, row) :: rest =>
      let tr := tr ++ [Execute sql (to_dict row)] in
      match execute sql (to_dict row) db with
      | inl msg => (inl msg, tr)
      | inr db' => execute_rows sql rest db' tr
      end
  end.

(** The statement [upsert] sends for each row; [update_columns] defaults to
    the columns that are not key columns. *)
Definition statement_text (df : DataFrame) (table_name schema : string)
    (key_columns : list string) (update_columns : option (list string))
  : string :=
  let update_columns :=
    match update_columns with
    | None =>
        filter (fun c => negb (existsb (String.eqb c) key_columns))
               (columns df)
    | Some cs => cs
    end in
  upsert_sql (columns df) table_name schema key_columns update_columns.

(** [with self.engine.begin() as conn]: commit when the body finishes,
    roll back to the state before the call when it raises. *)
Definition upsert (df : DataFrame) (table_name schema : string)
    (key_columns : list string) (update_columns : option (list string))
    (w : World) : (exn + nat) * World :=
  if empty df then (inr O, w)
  else
    let sql :=
      statement_text df table_name schema key_columns update_columns in
    let tr := trace w ++ [Connect] in
    match connect (database w) with
    | Some msg => (inl (DBAPIError msg), mkWorld true (database w) tr)
    | None =>
        match execute_rows sql (iterrows df) (database w) tr with
        | (inl msg, tr') =>
            (inl (DBAPIError msg), mkWorld true (database w) (tr' ++ [Rollback]))
        | (inr db', tr') =>
            (inr (len df), mkWorld true db' (tr' ++ [Commit]))
        end
    end.

(** The statements of [rows], applied in order from [db], all succeed and
    lead to the second state. *)
Inductive applied (sql : string) : list (Z * Series) -> DB -> DB -> Prop :=
| applied_nil (db : DB) : applied sql [] db db
| applied_cons (idx : Z) (row : Series) (rest : list (Z * Series))
    (db db1 db2 : DB) :
    execute sql (to_dict row) db = inr db1 ->
    applied sql rest db1 db2 ->
    applied sql ((idx, row) :: rest) db db2.

(** The batch of a [load] call that the warehouse rejects, if any: its
    index and the driver's message. *)
Definition failed_batch (df : DataFrame) (table_name schema : string)
    (if_exists : IfExists) (chunk_size : nat) (w : World)
  : option (nat * string) :=
  match connect (database w), chunk_size with
  | Some _, _ => None
  | None, O => None
  | None, S _ =>
      match prepare_table schema table_name if_exists (database w) with
      | inl _ => None
      | inr db1 =>
          match fst (insert_chunks schema table_name (columns df) 0
                       (chunked chunk_size (map snd (records df))) db1 []) with
          | inl failure => Some failure
          | inr _ => None
          end
      end
  end.

(** The rows of batch [i]: positions [i * chunk_size] up to, and not
    including, [(i + 1) * chunk_size]. *)
Definition batch_range (chunk_size i : nat) : nat * nat :=
  (i * chunk_size, (i + 1) * chunk_size)%nat.

End WithWarehouse.
End PostgresLoader.

(** ** Implementations of the interfaces, for running the code *)

Module Simple.

Definition is_upper (c : ascii) : bool :=
  let n := nat_of_ascii c in (65 <=? n)%nat && (n <=? 90)%nat.

Definition is_word (c : ascii) : bool :=
  let n := nat_of_ascii c in
  ((97 <=? n)%nat && (n <=? 122)%nat) || is_upper c
  || ((48 <=? n)%nat && (n <=? 57)%nat) || Ascii.eqb c "_"%char.

(** A character of the class [[\w\.-]] *)
Definition is_word_dot_dash (c : ascii) : bool :=
  is_word c || Ascii.eqb c "."%char || Ascii.eqb c "-"%char.

Definition lower_char (c : ascii) : ascii :=
  if is_upper c then ascii_of_nat (nat_of_ascii c + 32) else c.

Fixpoint lower (s : string) : string :=
  match s with
  | EmptyString => EmptyString
  | String c s' => String (lower_char c) (lower s')
  end.

(** The text before and after the first occurrence of [c]. *)
Fixpoint split_first (c : ascii) (l : list ascii)
  : option (list ascii * list ascii) :=
  match l with
  | [] => None
  | x :: l' =>
      if Ascii.eqb x c then Some ([], l')
      else match split_first c l' with
           | Some (a, b) => Some (x :: a, b)
           | None => None
           end
  end.

Definition nonempty_all (p : ascii -> bool) (l : list ascii) : bool :=
  match l with
  | [] => false
  | _ => forallb p l
  end.

(** [[\w\.-]+\.\w+] up to the end: the last dot separates a non-empty run
    of the class from a non-empty run of word characters. *)
Definition domain_match (l : list ascii) : bool :=
  match split_first "."%char (rev l) with
  | Some (tld_rev, rest_rev) =>
      nonempty_all is_word tld_rev && nonempty_all is_word_dot_dash rest_rev
  | None => false
  end.

Definition email_match (s : string) : bool :=
  match split_first "@"%char (list_ascii_of_string s) with
  | Some (local_part, domain) =>
      nonempty_all is_word_dot_dash local_part && domain_match domain
  | None => false
  end.

Definition status_match (s : string) : bool :=
  String.eqb s "pending" || String.eqb s "completed"
  || String.eqb s "shipped" || String.eqb s "cancelled".

(** The two patterns of the schemas; no other pattern is known. *)
Definition search (re text : string) : bool :=
  if String.eqb re "^[\w\.-]+@[\w\.-]+\.\w+$" then email_match text
  else if String.eqb re "^(pending|completed|shipped|cancelled)$"
       then status_match text
       else false.

(** Conversions between numbers only; nothing is parsed from a string. *)
Definition convert (t : FieldType) (v : value) : string + value :=
  match t, v with
  | TFloat, VInt z => inr (VFloat (FFin (inject_Z z)))
  | TFloat, VStr _ => inl "float_parsing"
  | TFloat, _ => inl "float_type"
  | TInt, VFloat (FFin q) =>
      if (Qnum q mod Zpos (Qden q) =? 0)%Z
      then inr (VInt (Qnum q / Zpos (Qden q)))
      else inl "int_from_float"
  | TInt, VStr _ => inl "int_parsing"
  | TInt, _ => inl "int_type"
  | TDatetime, VStr _ => inl "datetime_from_date_parsing"
  | TDatetime, _ => inl "datetime_type"
  | TStr, _ => inl "string_type"
  end.

Definition show_error (e : ErrorDetail) : string :=
  (err_loc e ++ ": " ++ err_type e)%string.

Definition show_errors (es : list ErrorDetail) : string :=
  ("[" ++ String.concat ", " (map show_error es) ++ "]")%string.

#[export] Instance runtime : PyRuntime := {|
  lax_convert := convert;
  re_search := search;
  str_lower := lower;
  str_of_errors := show_errors;
  str_of_exception := fun e =>
    (title e ++ " " ++ show_errors (error_list e))%string
|}.

Definition has_null (row : list value) : bool :=
  existsb (fun v => match v with VNone => true | _ => false end) row.

Definition contains (text part : string) : bool :=
  match String.index 0 part text with
  | Some _ => true
  | None => false
  end.

(** A one-table warehouse: rows are stored as sent; a null in a row
    violates a not-null constraint; an empty conflict target is a syntax
    error. Its failures are reported by the server, so a [to_sql] call that
    raised leaves the state before the call. *)
#[export] Instance warehouse : Warehouse := {|
  DB := list (list value);
  connect := fun _ => None;
  execute := fun sql params db =>
    if contains sql "ON CONFLICT ()" then inl "syntax error at or near )"
    else if has_null (map snd params)
         then inl "null value violates not-null constraint"
         else inr (db ++ [map snd params]);
  prepare_table := fun _ _ if_exists db =>
    match if_exists, db with
    | append, _ => inr db
    | replace, _ => inr []
    | fail, [] => inr db
    | fail, _ => inl "table already exists"
    end;
  insert_many := fun _ _ _ rows db =>
    if existsb has_null rows
    then inl "null value violates not-null constraint"
    else inr (db ++ rows);
  abandon := fun _ before _ => before
|}.

End Simple.

(** ** The loop row by row *)

Section PerRow.
Context {RT : PyRuntime}.
Import SchemaValidator.

(** What one row adds to the accepted rows. *)
Definition row_output (self : t) (schema : Model) (r : Z * Series)
  : option dict :=
  match model_validate schema (row_dict (snd r)) with
  | inr validated =>
      let valid_row := dict_update (to_dict (snd r)) validated in
      Some (if String.eqb (mode self) "flag"
            then dict_set "_is_valid" (VBool true) valid_row
            else valid_row)
  | inl e =>
      if String.eqb (mode self) "flag"
      then Some (dict_set "_validation_errors"
                   (VStr (str_of_errors (error_list e)))
                   (dict_set "_is_valid" (VBool false) (to_dict (snd r))))
      else None
  end.

(** What one row adds to the error list. *)
Definition row_error (schema : Model) (r : Z * Series) : option error_info :=
  match model_validate schema (row_dict (snd r)) with
  | inr _ => None
  | inl e => Some (mkErrorInfo (fst r) (error_list e) (to_dict (snd r)))
  end.

Fixpoint collect {A B : Type} (f : A -> option B) (l : list A) : list B :=
  match l with
  | [] => []
  | x :: l' =>
      match f x with
      | Some y => y :: collect f l'
      | None => collect f l'
      end
  end.

Definition is_valid (schema : Model) (r : Z * Series) : bool :=
  match model_validate schema (row_dict (snd r)) with
  | inr _ => true
  | inl _ => false
  end.

(** The verdict on one field. *)
Definition field_verdict (r : ErrorDetail + value) : option value :=
  match r with
  | inr v => Some v
  | inl _ => None
  end.

(** The verdict of a validation: the validated values when the mapping is
    accepted, nothing when it is rejected. *)
Definition accepted_values (r : ValidationError + dict) : option dict :=
  match r with
  | inr out => Some out
  | inl _ => None
  end.

(** The input rows behind the accepted rows, in order: all of them in flag
    mode, the valid ones otherwise. *)
Definition accepted_sources (self : t) (schema : Model)
    (rows : list (Z * Series)) : list (Z * Series) :=
  filter (fun r => String.eqb (mode self) "flag" || is_valid schema r) rows.

(** The columns flag mode writes itself: the marker on every row, the
    description of the violations on invalid rows. *)
Definition written_by_validator (self : t) (schema : Model) (r : Z * Series)
    (k : string) : bool :=
  String.eqb (mode self) "flag"
  && (String.eqb k "_is_valid"
      || (String.eqb k "_validation_errors" && negb (is_valid schema r))).

End PerRow.

(** ** Sample data *)

Module Samples.

Definition customer_columns : list string :=
  ["customer_id"; "first_name"; "last_name"; "email"; "country";
   "_loaded_at"; "_source"].

Definition customer (id email : string) : list value :=
  [VStr id; VStr "John"; VStr "Doe"; VStr email; VStr "US";
   VTimestamp 1700000000; VStr "csv_customers"].

(** The scenario of two customers, the second with a malformed email. *)
Definition two_customers : DataFrame :=
  mkDataFrame customer_columns
    [(0%Z, customer "C1" "a@b.com"); (1%Z, customer "C2" "bad")].

Definition no_rows : DataFrame := mkDataFrame customer_columns [].

Definition product_columns : list string :=
  ["product_id"; "product_name"; "category"; "price"; "cost"].

Definition product (id : string) (price cost : Q) : list value :=
  [VStr id; VStr "Widget"; VStr "Tools"; VFloat (FFin price);
   VFloat (FFin cost)].

Definition one_product : DataFrame :=
  mkDataFrame product_columns [(0%Z, product "P1" (1999 # 100) (5 # 1))].

(** A customer without a country. *)
Definition stateless (id : string) : list value :=
  [VStr id; VStr "Jane"; VStr "Roe"; VStr "j@r.org"; VNone;
   VTimestamp 1700000000; VStr "csv_customers"].

Definition bad_then_good : DataFrame :=
  mkDataFrame customer_columns
    [(0%Z, stateless "C1"); (1%Z, customer "C2" "a@b.com")].

Definition good_then_bad : DataFrame :=
  mkDataFrame customer_columns
    [(0%Z, customer "C2" "a@b.com"); (1%Z, stateless "C1")].

(** A product priced at four tenths of a cent. *)
Definition cheap_product : DataFrame :=
  mkDataFrame product_columns [(0%Z, product "P1" (4 # 1000) (5 # 1))].

(** A product frame that already carries a review marker. *)
Definition reviewed_product : DataFrame :=
  mkDataFrame (product_columns ++ ["_source"; "_is_valid"])
    [(0%Z, product "P1" (1999 # 100) (5 # 1)
             ++ [VStr "csv_products"; VBool false])].

Definition fresh : PostgresLoader.World (WH := Simple.warehouse) :=
  PostgresLoader.mkWorld (WH := Simple.warehouse) false
    (@nil (list value)) [].

End Samples.

(** ** Further views of the validator *)

Section FieldViews.
Context {RT : PyRuntime}.

(** Does the field reject the mapping? *)
Definition field_fails (d : dict) (f : FieldInfo) : bool :=
  match validate_field f d with
  | inl _ => true
  | inr _ => false
  end.

End FieldViews.

(** ** More of the loader *)

Module PostgresLoaderOps.
Section WithWarehouse.
Context {WH : Warehouse}.
Import PostgresLoader.

(** [test_connection]: a round trip that never raises. The connection is
    closed without a commit, so the probe leaves the warehouse as it
    was. *)
Definition test_connection (w : World) : bool * World :=
  let tr := trace w ++ [Connect] in
  match connect (database w) with
  | Some _ => (false, mkWorld true (database w) tr)
  | None =>
      let tr := tr ++ [Execute "SELECT 1" []] in
      match execute "SELECT 1" [] (database w) with
      | inl _ => (false, mkWorld true (database w) tr)
      | inr _ => (true, mkWorld true (database w) tr)
      end
  end.

(** [close]: the engine, if any, is disposed of. *)
Definition close (w : World) : World :=
  if engine_created w then mkWorld false (database w) (trace w) else w.

End WithWarehouse.
End PostgresLoaderOps.

(** ** Extractors *)

(** [class ExtractionError(Exception)] *)
Inductive ExtractionError : Type := mkExtractionError (msg : string).

(** Every row has one cell per column. *)
Definition rectangular (df : DataFrame) : bool :=
  forallb (fun r => Nat.eqb (List.length (snd r)) (List.length (columns df)))
          (records df).

(** [df[c] = v] for a scalar [v]: the column is overwritten where it
    exists and added at the end where it does not. *)
Definition setitem (c : string) (v : value) (df : DataFrame) : DataFrame :=
  if existsb (String.eqb c) (columns df)
  then mkDataFrame (columns df)
         (map (fun r =>
                 (fst r,
                  map (fun kv => if String.eqb (fst kv) c then v else snd kv)
                      (combine (columns df) (snd r))))
              (records df))
  else mkDataFrame (columns df ++ [c])
         (map (fun r => (fst r, snd r ++ [v])) (records df)).

(** What [setitem] does to one row, read as a series: [present] tells
    whether the frame has the column. *)
Definition row_setitem (present : bool) (c : string) (v : value)
    (row : Series) : Series :=
  if present
  then map (fun kv => (fst kv, if String.eqb (fst kv) c then v else snd kv)) row
  else row ++ [(c, v)].

Module BaseExtractor.

Record t : Type := mk { source_name : string }.

(** [add_metadata], at the instant [now] read from the clock. *)
Definition add_metadata (self : t) (now : Z) (df : DataFrame) : DataFrame :=
  setitem "_source" (VStr (source_name self))
    (setitem "_loaded_at" (VTimestamp now) df).

Section WithRepr.
(** [str] of a set of strings; the order of the elements is the
    interpreter's. *)
Variable str_of_set : list string -> string.

(** The required columns that the frame lacks, each once. *)
Definition missing_columns (df : DataFrame) (required_columns : list string)
  : list string :=
  nodup string_dec
    (filter (fun c => negb (existsb (String.eqb c) (columns df)))
            required_columns).

Definition validate_schema (df : DataFrame) (required_columns : list string)
  : exn + bool :=
  match missing_columns df required_columns with
  | [] => inr true
  | missing =>
      inl (ValueError ("Missing required columns: " ++ str_of_set missing))
  end.

End WithRepr.
End BaseExtractor.

(** How [read_csv] fails. *)
Inductive CsvFailure : Type :=
| ParserError (msg : string)
| OtherError (msg : string).

(** The machine the pipeline runs on: its files and its clock. *)
Class Host : Type := {
  (** [Path.exists] *)
  path_exists : string -> bool;
  (** [pd.read_csv(path, delimiter, encoding, parse_dates)]; an empty
      list of date columns stands for [parse_dates=False] *)
  read_csv : string -> string -> string -> list string -> CsvFailure + DataFrame;
  (** [Path.stem] *)
  stem : string -> string;
  (** [Path / name] *)
  joinpath : string -> string -> string;
  (** the reading of the clock at its n-th use *)
  clock : nat -> Z;
  (** [os.getenv(name)] *)
  getenv : string -> option string;
  (** [int(s)]: the number, or the message of the [ValueError] *)
  int_of_string : string -> string + Z
}.

(** [PostgresLoader.__init__]: the connection parameters, from the
    arguments, else from the environment, else the defaults. *)
Module PostgresLoaderConfig.
Section WithHost.
Context {HOST : Host}.

Record t : Type := mk {
  host : string;
  port : Z;
  database : string;
  user : string;
  password : string
}.

(** [os.getenv(name, default)] *)
Definition getenv_or (name default : string) : string :=
  match getenv name with
  | Some v => v
  | None => default
  end.

(** [arg or os.getenv(name, default)]: an empty argument counts as
    none. *)
Definition pick (arg : option string) (name default : string) : string :=
  match arg with
  | Some (String c s) => String c s
  | _ => getenv_or name default
  end.

Definition __init__ (host : option string) (port : option Z)
    (database user password : option string) : exn + t :=
  let host := pick host "POSTGRES_HOST" "localhost" in
  let port :=
    match port with
    | Some p => if (p =? 0)%Z then None else Some p
    | None => None
    end in
  match (match port with
         | Some p => inr p
         | None => int_of_string (getenv_or "POSTGRES_PORT" "5432")
         end) with
  | inl msg => inl (ValueError msg)
  | inr port =>
      inr (mk host port
             (pick database "POSTGRES_DB" "warehouse")
             (pick user "POSTGRES_USER" "pipeline")
             (pick password "POSTGRES_PASSWORD" "pipeline"))
  end.

End WithHost.
End PostgresLoaderConfig.

Module CSVExtractor.
Section WithHost.
Context {HOST : Host}.

Record t : Type := mk {
  base : BaseExtractor.t;
  file_path : string;
  delimiter : string;
  encoding : string;
  parse_dates : list string
}.

(** [a or b] on an optional string: [None] and the empty string are
    falsy. *)
Definition or_else (a : option string) (b : string) : string :=
  match a with
  | Some (String c s) => String c s
  | _ => b
  end.

Definition __init__ (file_path : string) (source_name : option string)
    (delimiter encoding : string) (parse_dates : option (list string)) : t :=
  mk (BaseExtractor.mk (or_else source_name (stem file_path)))
     file_path delimiter encoding
     (match parse_dates with Some l => l | None => [] end).

Definition extract (self : t) (now : Z) : ExtractionError + DataFrame :=
  if negb (path_exists (file_path self))
  then inl (mkExtractionError ("File not found: " ++ file_path self))
  else
    match read_csv (file_path self) (delimiter self) (encoding self)
            (parse_dates self) with
    | inr df => inr (BaseExtractor.add_metadata (base self) now df)
    | inl (ParserError msg) =>
        inl (mkExtractionError ("Failed to parse CSV: " ++ msg))
    | inl (OtherError msg) =>
        inl (mkExtractionError ("Extraction failed: " ++ msg))
    end.

End WithHost.
End CSVExtractor.

(** ** The pipeline *)

(** [raise RuntimeError(msg)] *)
Inductive RuntimeError : Type := mkRuntimeError (msg : string).

Module IngestionPipeline.

Record Metrics : Type := mkMetrics {
  start_time : option Z;
  end_time : option Z;
  tables_processed : nat;
  rows_loaded : nat;
  rows_rejected : nat;
  errors : list (string * string)
}.

Record Job : Type := mkJob {
  name : string;
  file : string;
  table : string;
  schema : string;
  date_columns : list string
}.

Definition jobs : list Job :=
  [ mkJob "customers" "customers.csv" "customers" "raw" ["created_at"];
    mkJob "products" "products.csv" "products" "raw" [];
    mkJob "orders" "orders.csv" "orders" "raw" ["order_date"] ].

(** The default of [load]'s [chunk_size]. *)
Definition default_chunk_size : nat := 10 * 1000.

(** An exception that leaves [_process_job]. *)
Inductive JobError : Type :=
| Extraction (e : ExtractionError)
| Raised (e : exn).

(** [str(e)] *)
Definition str_of_error (e : JobError) : string :=
  match e with
  | Extraction (mkExtractionError msg) => msg
  | Raised (ValueError msg) => msg
  | Raised (LoadError msg) => msg
  | Raised (DBAPIError msg) => msg
  end.

Section WithEnvironment.
Context {RT : PyRuntime} {WH : Warehouse} {HOST : Host}.

(** The pipeline object: directory of the data files, loader, validator,
    metrics; and the number of clock readings so far. *)
Record t : Type := mk {
  data_dir : string;
  loader : PostgresLoader.World;
  validator : SchemaValidator.t;
  metrics : Metrics;
  ticks : nat
}.

(** The pipeline object once its parts are constructed. *)
Definition make (data_dir : string) (w : PostgresLoader.World)
    (ticks : nat) : t :=
  mk data_dir w (SchemaValidator.mk "filter")
     (mkMetrics None None 0 0 0 []) ticks.

(** [IngestionPipeline(data_dir)]: constructing the loader may raise. *)
Definition __init__ (data_dir : string) (w : PostgresLoader.World)
    (ticks : nat) : exn + t :=
  match PostgresLoaderConfig.__init__ None None None None None with
  | inl e => inl e
  | inr _ => inr (make data_dir w ticks)
  end.

Definition set_loader (self : t) (w : PostgresLoader.World) : t :=
  mk (data_dir self) w (validator self) (metrics self) (ticks self).

Definition set_metrics (self : t) (m : Metrics) : t :=
  mk (data_dir self) (loader self) (validator self) m (ticks self).

(** One reading of the clock. *)
Definition now (self : t) : Z * t :=
  (clock (ticks self),
   mk (data_dir self) (loader self) (validator self) (metrics self)
      (S (ticks self))).

(** [_process_job]: extract, validate, count the rejected rows, load,
    count the loaded rows. The metrics keep what was counted before an
    exception; the clock is read when the extracted frame is stamped. *)
Definition _process_job (self : t) (job : Job) : (JobError + unit) * t :=
  let file_path := joinpath (data_dir self) (file job) in
  let extractor :=
    CSVExtractor.__init__ file_path (Some ("csv_" ++ name job)%string)
      "," "utf-8" (Some (date_columns job)) in
  match CSVExtractor.extract extractor (clock (ticks self)) with
  | inl e => (inl (Extraction e), self)
  | inr df =>
      let self := snd (now self) in
      match SchemaValidator.validate (validator self) df (name job) with
      | inl e => (inl (Raised e), self)
      | inr (df_valid, errs) =>
          let m := metrics self in
          let self :=
            set_metrics self
              (mkMetrics (start_time m) (end_time m) (tables_processed m)
                 (rows_loaded m) (rows_rejected m + List.length errs) (errors m)) in
          match PostgresLoader.load df_valid (table job) (schema job) append
                  default_chunk_size (loader self) with
          | (inl e, w) => (inl (Raised e), set_loader self w)
          | (inr n, w) =>
              let self := set_loader self w in
              let m := metrics self in
              (inr tt,
               set_metrics self
                 (mkMetrics (start_time m) (end_time m) (tables_processed m)
                    (rows_loaded m + n) (rows_rejected m) (errors m)))
          end
      end
  end.

(** The loop of [run] over the jobs: a job that raises is recorded and
    the next one is taken up. *)
Fixpoint run_jobs (self : t) (js : list Job) : t :=
  match js with
  | [] => self
  | job :: js' =>
      match _process_job self job with
      | (inr tt, self) =>
          let m := metrics self in
          run_jobs
            (set_metrics self
               (mkMetrics (start_time m) (end_time m)
                  (S (tables_processed m)) (rows_loaded m) (rows_rejected m)
                  (errors m)))
            js'
      | (inl e, self) =>
          let m := metrics self in
          run_jobs
            (set_metrics self
               (mkMetrics (start_time m) (end_time m) (tables_processed m)
                  (rows_loaded m) (rows_rejected m)
                  (errors m ++ [(name job, str_of_error e)])))
            js'
      end
  end.

Definition run (self : t) : (RuntimeError + Metrics) * t :=
  let (started, self) := now self in
  let m := metrics self in
  let self :=
    set_metrics self
      (mkMetrics (Some started) (end_time m) (tables_processed m)
         (rows_loaded m) (rows_rejected m) (errors m)) in
  match PostgresLoaderOps.test_connection (loader self) with
  | (false, w) =>
      (inl (mkRuntimeError "Cannot connect to database"), set_loader self w)
  | (true, w) =>
      let self := run_jobs (set_loader self w) jobs in
      let (ended, self) := now self in
      let m := metrics self in
      let self :=
        set_metrics self
          (mkMetrics (start_time m) (Some ended) (tables_processed m)
             (rows_loaded m) (rows_rejected m) (errors m)) in
      (inr (metrics self), self)
  end.

(** [main]: the exit status of the process, for the pipeline over the
    default data directory. *)
Definition main (w : PostgresLoader.World) (ticks : nat) : Z :=
  match __init__ "/app/data" w ticks with
  | inl _ => 1%Z
  | inr pipeline =>
      match fst (run pipeline) with
      | inr m => match errors m with [] => 0%Z | _ => 1%Z end
      | inl _ => 1%Z
      end
  end.

End WithEnvironment.
End IngestionPipeline.

(** The rows of a job's file, as far as it can be read. *)
Definition rows_in_file {HOST : Host} (data_dir : string)
    (job : IngestionPipeline.Job) : nat :=
  match read_csv (joinpath data_dir (IngestionPipeline.file job)) "," "utf-8"
          (IngestionPipeline.date_columns job) with
  | inr df => len df
  | inl _ => O
  end.

(** ** A host for running the pipeline *)

Module SimpleHost.

Definition customers_csv : DataFrame :=
  mkDataFrame
    ["customer_id"; "first_name"; "last_name"; "email"; "country";
     "created_at"]
    [(0%Z, [VStr "C1"; VStr "John"; VStr "Doe"; VStr "John@Doe.org";
            VStr "US"; VTimestamp 1600000000]);
     (1%Z, [VStr "C2"; VStr "Jane"; VStr "Roe"; VStr "bad"; VStr "UK";
            VTimestamp 1600000001])].

Definition products_csv : DataFrame :=
  mkDataFrame ["product_id"; "product_name"; "category"; "price"; "cost"]
    [(0%Z, [VStr "P1"; VStr "Widget"; VStr "Tools";
            VFloat (FFin (1999 # 100)); VFloat (FFin (5 # 1))])].

(** Two files; there is no [orders.csv]. *)
Definition files : list (string * DataFrame) :=
  [("/app/data/customers.csv", customers_csv);
   ("/app/data/products.csv", products_csv)].

Fixpoint find_file (table : list (string * DataFrame)) (path : string)
  : option DataFrame :=
  match table with
  | [] => None
  | (p, df) :: table' =>
      if String.eqb p path then Some df else find_file table' path
  end.

(** [Path.stem] of a POSIX path: the last component without its last
    suffix. *)
Fixpoint basename (path cur : string) : string :=
  match path with
  | EmptyString => cur
  | String c path' =>
      if Ascii.eqb c "/"%char then basename path' EmptyString
      else basename path' (cur ++ String c EmptyString)
  end.

Fixpoint has_dot (s : string) : bool :=
  match s with
  | EmptyString => false
  | String c s' => Ascii.eqb c "."%char || has_dot s'
  end.

Fixpoint cut_suffix (s : string) : string :=
  match s with
  | EmptyString => EmptyString
  | String c s' =>
      if Ascii.eqb c "."%char && negb (has_dot s')
         && negb (String.eqb s' EmptyString)
      then EmptyString
      else String c (cut_suffix s')
  end.

Definition path_stem (path : string) : string :=
  match basename path EmptyString with
  | EmptyString => EmptyString
  | String c s => String c (cut_suffix s)
  end.

#[export] Instance host : Host := {|
  path_exists := fun path =>
    match find_file files path with Some _ => true | None => false end;
  read_csv := fun path _ _ _ =>
    match find_file files path with
    | Some df => inr df
    | None => inl (OtherError "No such file or directory")
    end;
  stem := path_stem;
  joinpath := fun dir name => (dir ++ "/" ++ name)%string;
  clock := fun n => (1700000000 + Z.of_nat n)%Z;
  getenv := fun _ => None;
  int_of_string := fun s =>
    if String.eqb s "5432" then inr 5432%Z
    else inl "invalid literal for int() with base 10"
|}.

Definition orders_csv : DataFrame :=
  mkDataFrame
    ["order_id"; "customer_id"; "product_id"; "quantity"; "order_date";
     "status"]
    [(0%Z, [VStr "O1"; VStr "C1"; VStr "P1"; VInt 2; VTimestamp 1650000000;
            VStr "completed"])].

(** The same host with all three files. *)
#[export] Instance all_files : Host := {|
  path_exists := fun path =>
    match find_file (("/app/data/orders.csv", orders_csv) :: files) path with
    | Some _ => true
    | None => false
    end;
  read_csv := fun path _ _ _ =>
    match find_file (("/app/data/orders.csv", orders_csv) :: files) path with
    | Some df => inr df
    | None => inl (OtherError "No such file or directory")
    end;
  stem := path_stem;
  joinpath := fun dir name => (dir ++ "/" ++ name)%string;
  clock := fun n => (1700000000 + Z.of_nat n)%Z;
  getenv := fun _ => None;
  int_of_string := fun s =>
    if String.eqb s "5432" then inr 5432%Z
    else inl "invalid literal for int() with base 10"
|}.

End SimpleHost.

(** A warehouse that cannot be reached. *)
Module Offline.

#[export] Instance warehouse : Warehouse := {|
  DB := unit;
  connect := fun _ => Some "connection refused";
  execute := fun _ _ _ => inl "not connected";
  prepare_table := fun _ _ _ _ => inl "not connected";
  insert_many := fun _ _ _ _ _ => inl "not connected";
  abandon := fun _ before _ => before
|}.

Definition fresh : PostgresLoader.World (WH := warehouse) :=
  PostgresLoader.mkWorld (WH := warehouse) false tt [].

End Offline.

(** ** The API extractor *)

(** A decoded JSON document. *)
#[local] Unset Elimination Schemes.
Inductive json : Type :=
| JNull
| JBool (b : bool)
| JInt (z : Z)
| JFloat (f : pyfloat)
| JString (s : string)
| JArray (items : list json)
| JObject (members : list (string * json)).
#[local] Set Elimination Schemes.

(** [members.get(k)] *)
Fixpoint json_get (members : list (string * json)) (k : string)
  : option json :=
  match members with
  | [] => None
  | (k', v) :: members' =>
      if String.eqb k' k then Some v else json_get members' k
  end.

(** Python's truth value of a decoded document. *)
Definition truthy (j : json) : bool :=
  match j with
  | JNull => false
  | JBool b => b
  | JInt z => negb (z =? 0)%Z
  | JFloat (FFin q) => negb (Qeq_bool q 0)
  | JFloat _ => true
  | JString s => negb (String.eqb s "")
  | JArray items => match items with [] => false | _ => true end
  | JObject members => match members with [] => false | _ => true end
  end.

(** What leaves [APIExtractor.extract]: the extractor's own error, or an
    exception of the interpreter or of pandas that nothing catches. *)
Inductive ApiError : Type :=
| Failed (e : ExtractionError)
| AttributeError
| TypeError
| PandasError (msg : string).

(** The network and pandas behind the extractor. *)
Class Http : Type := {
  (** [requests.get(url, ...)], [raise_for_status()] and [json()]: the
      decoded body, or the message of the [RequestException] *)
  http_get : json -> string + json;
  (** [pd.DataFrame(records)] *)
  frame_of_records : list json -> string + DataFrame
}.

Definition string_rev (s : string) : string :=
  string_of_list_ascii (rev (list_ascii_of_string s)).

(** [s.lstrip('/')] *)
Fixpoint lstrip_slash (s : string) : string :=
  match s with
  | String c s' => if Ascii.eqb c "/"%char then lstrip_slash s' else s
  | EmptyString => EmptyString
  end.

(** [s.rstrip('/')] *)
Definition rstrip_slash (s : string) : string :=
  string_rev (lstrip_slash (string_rev s)).

Definition occurs_in (part text : string) : bool :=
  match String.index 0 part text with
  | Some _ => true
  | None => false
  end.

Module APIExtractor.
Section WithHttp.
Context {HTTP : Http}.

(** The request settings (headers, parameters, credentials) are part of
    [http_get]; the pause between requests is not modelled. *)
Record t : Type := mk {
  base : BaseExtractor.t;
  base_url : string;
  endpoint : string;
  pagination_key : option string;
  data_key : option string
}.

Definition __init__ (base_url endpoint source_name : string)
    (pagination_key data_key : option string) : t :=
  mk (BaseExtractor.mk source_name) (rstrip_slash base_url)
     (lstrip_slash endpoint) pagination_key data_key.

Definition url (self : t) : string :=
  (base_url self ++ "/" ++ endpoint self)%string.

Definition _make_request (u : json) : ExtractionError + json :=
  match http_get u with
  | inr body => inr body
  | inl msg => inl (mkExtractionError ("API request failed: " ++ msg))
  end.

(** [_extract_data]: with a data key, [response.get(key, [])], which only
    an object has; without one, the response if it is a list and else
    the list holding it. *)
Definition _extract_data (self : t) (response : json) : ApiError + json :=
  match data_key self with
  | Some (String c s) =>
      match response with
      | JObject members =>
          inr (match json_get members (String c s) with
               | Some v => v
               | None => JArray []
               end)
      | _ => inl AttributeError
      end
  | _ =>
      inr (match response with
           | JArray _ => response
           | _ => JArray [response]
           end)
  end.

(** What [all_data.extend(data)] appends: the items of a list, the keys
    of an object, the characters of a string. *)
Definition items_of (data : json) : ApiError + list json :=
  match data with
  | JArray items => inr items
  | JObject members => inr (map (fun kv => JString (fst kv)) members)
  | JString s =>
      inr (map (fun c => JString (String c EmptyString))
               (list_ascii_of_string s))
  | _ => inl TypeError
  end.

(** The URL for the next turn of the loop; [JNull] ends it. *)
Definition next_url (self : t) (response : json) : ApiError + json :=
  match pagination_key self with
  | Some (String c s) =>
      match response with
      | JObject members =>
          match json_get members (String c s) with
          | Some v => inr v
          | None => inr JNull
          end
      | JArray items =>
          if existsb (fun j => match j with
                               | JString x => String.eqb x (String c s)
                               | _ => false
                               end) items
          then inl TypeError
          else inr JNull
      | JString text =>
          if occurs_in (String c s) text then inl TypeError else inr JNull
      | _ => inl TypeError
      end
  | _ => inr JNull
  end.

(** The [while url:] loop; [None] when the fuel runs out first. *)
Fixpoint fetch (fuel : nat) (self : t) (u : json) (all_data : list json)
  : option (ApiError + list json) :=
  if truthy u then
    match fuel with
    | O => None
    | S fuel' =>
        match _make_request u with
        | inl e => Some (inl (Failed e))
        | inr response =>
            match _extract_data self response with
            | inl e => Some (inl e)
            | inr data =>
                match items_of data with
                | inl e => Some (inl e)
                | inr items =>
                    match next_url self response with
                    | inl e => Some (inl e)
                    | inr u' => fetch fuel' self u' (all_data ++ items)
                    end
                end
            end
        end
    end
  else Some (inr all_data).

Definition extract (fuel : nat) (self : t) (now : Z)
  : option (ApiError + DataFrame) :=
  match fetch fuel self (JString (url self)) [] with
  | None => None
  | Some (inl e) => Some (inl e)
  | Some (inr []) => Some (inr (mkDataFrame [] []))
  | Some (inr all_data) =>
      match frame_of_records all_data with
      | inl msg => Some (inl (PandasError msg))
      | inr df => Some (inr (BaseExtractor.add_metadata (base self) now df))
      end
  end.

(** From [u], [n] requests collect [items] and lead to the URL [last]. *)
Inductive pages (self : t) : json -> list json -> json -> nat -> Prop :=
| pages_here (u : json) : pages self u [] u 0
| pages_step (u response data u' last : json) (items rest : list json)
    (n : nat) :
    truthy u = true ->
    http_get u = inr response ->
    _extract_data self response = inr data ->
    items_of data = inr items ->
    next_url self response = inr u' ->
    pages self u' rest last n ->
    pages self u (items ++ rest) last (S n).

End WithHttp.
End APIExtractor.

(** A two-page API. *)
Module SimpleHttp.

Definition record (id : string) : json := JObject [("id", JString id)].

Definition page1 : json :=
  JObject [("data", JArray [record "a"; record "b"]);
           ("next", JString "http://api/items?page=2")].

Definition page2 : json :=
  JObject [("data", JArray [record "c"]); ("next", JNull)].

#[export] Instance http : Http := {|
  http_get := fun u =>
    match u with
    | JString "http://api/items" => inr page1
    | JString "http://api/items?page=2" => inr page2
    | _ => inl "404 Client Error"
    end;
  frame_of_records := fun records =>
    inr (mkDataFrame ["id"]
           (combine (range_from 0 (List.length records))
              (map (fun r =>
                      match r with
                      | JObject [(_, JString id)] => [VStr id]
                      | _ => [VNone]
                      end) records)))
|}.

(** An API that answers every request with a bare list. *)
#[export] Instance listing : Http := {|
  http_get := fun _ => inr (JArray [record "a"]);
  frame_of_records := fun _ => inl "not used"
|}.

End SimpleHttp.

(** ** Datasets that differ in their missing values only *)

(** Two cells that are equal, or both missing for [pd.isna]. *)
Definition same_or_missing (v v' : value) : Prop :=
  v = v' \/ (isna v = true /\ isna v' = true).

(** Two frames with the same columns and index labels whose cells are
    equal or both missing. *)
Definition same_up_to_missing (df df' : DataFrame) : Prop :=
  columns df = columns df'
  /\ Forall2 (fun r r' => fst r = fst r'
                          /\ Forall2 same_or_missing (snd r) (snd r'))
       (records df) (records df').

Module Scenarios.

Definition order_columns : list string :=
  ["order_id"; "customer_id"; "product_id"; "quantity"; "order_date";
   "status"].

Definition order (order_date status : value) : list value :=
  [VStr "O1"; VStr "C1"; VStr "P1"; VInt 2; order_date; status].

Definition one_order (order_date status : value) : DataFrame :=
  mkDataFrame order_columns [(0%Z, order order_date status)].

(** An order whose date cell was empty in the file: pandas reads NaN. *)
Definition undated_order : DataFrame :=
  one_order (VFloat FNaN) (VStr "pending").

(** An order whose status cell was empty in the file. *)
Definition order_of_unknown_status : DataFrame :=
  one_order (VTimestamp 1650000000) (VFloat FNaN).

(** The same order from a source that has no status column. *)
Definition order_without_status : DataFrame :=
  mkDataFrame
    ["order_id"; "customer_id"; "product_id"; "quantity"; "order_date"]
    [(0%Z, [VStr "O1"; VStr "C1"; VStr "P1"; VInt 2;
            VTimestamp 1650000000])].


End Scenarios.

(** * Properties *)

Import SchemaValidator.

(** ** Dicts and frames *)

Lemma dict_get_set (k k' : string) (v : value) (d : dict) :
  dict_get (dict_set k v d) k' =
  if String.eqb k k' then Some v else dict_get d k'.
Proof.
  induction d as [|[k0 v0] d IH]; simpl.
  - reflexivity.
  - destruct (String.eqb_spec k0 k) as [->|Hne]; simpl.
    + destruct (String.eqb k k'); reflexivity.
    + destruct (String.eqb_spec k0 k') as [->|Hne'].
      * destruct (String.eqb_spec k k') as [->|_]; [congruence|reflexivity].
      * exact IH.
Qed.

Lemma dict_get_set_other (k k' : string) (v : value) (d : dict) :
  k <> k' -> dict_get (dict_set k v d) k' = dict_get d k'.
Proof.
  intros Hne. rewrite dict_get_set.
  destruct (String.eqb_spec k k'); [contradiction|reflexivity].
Qed.

Lemma dict_get_update_other (d other : dict) (k : string) :
  ~ In k (keys other) -> dict_get (dict_update d other) k = dict_get d k.
Proof.
  unfold dict_update. revert d.
  induction other as [|[k0 v0] other IH]; intros d Hnot; simpl.
  - reflexivity.
  - rewrite IH.
    + apply dict_get_set_other. intros ->. apply Hnot. now left.
    + intros Hin. apply Hnot. now right.
Qed.

Lemma length_range_from (n : nat) (start : Z) :
  List.length (range_from start n) = n.
Proof.
  revert start. induction n as [|n IH]; intros start; simpl; [|rewrite IH];
    reflexivity.
Qed.

Lemma len_DataFrame_of_dicts (rows : list dict) :
  len (DataFrame_of_dicts rows) = List.length rows.
Proof.
  unfold len, DataFrame_of_dicts. simpl.
  rewrite length_combine, length_range_from, length_map.
  apply Nat.min_id.
Qed.

Lemma len_iterrows (df : DataFrame) : List.length (iterrows df) = len df.
Proof. unfold iterrows, len. apply length_map. Qed.

(** ** Frames built from dicts *)

Lemma dict_get_Some_key (d : dict) (k : string) (v : value) :
  dict_get d k = Some v -> In k (keys d).
Proof.
  induction d as [|[k0 v0] d IH]; simpl; [discriminate|].
  destruct (String.eqb_spec k0 k) as [->|_]; auto.
Qed.

Lemma add_new_keeps (ks cols : list string) (k : string) :
  In k cols -> In k (add_new ks cols).
Proof.
  revert cols. induction ks as [|k0 ks IH]; intros cols H; simpl; [exact H|].
  apply IH. destruct (existsb (String.eqb k0) cols); [exact H|].
  apply in_or_app. now left.
Qed.

Lemma add_new_adds (ks cols : list string) (k : string) :
  In k ks -> In k (add_new ks cols).
Proof.
  revert cols. induction ks as [|k0 ks IH]; intros cols H; simpl; [easy|].
  destruct H as [->|H]; [|now apply IH].
  apply add_new_keeps.
  destruct (existsb (String.eqb k) cols) eqn:Hex.
  - apply existsb_exists in Hex as (x & Hx & Heq).
    apply String.eqb_eq in Heq. now subst.
  - apply in_or_app. right. now left.
Qed.

Lemma union_keys_contains (rows : list dict) (d : dict) (k : string) :
  In d rows -> In k (keys d) -> In k (union_keys rows).
Proof.
  unfold union_keys. generalize (@nil string) as cols.
  induction rows as [|d0 rows IH]; intros cols Hd Hk; simpl; [easy|].
  destruct Hd as [->|Hd].
  - assert (Hkeep : forall rs cs, In k cs ->
              In k (fold_left (fun cols d => add_new (keys d) cols) rs cs)).
    { induction rs as [|r rs IHrs]; intros cs Hcs; simpl; [exact Hcs|].
      apply IHrs. now apply add_new_keeps. }
    apply Hkeep. now apply add_new_adds.
  - now apply IH.
Qed.

Lemma map_snd_combine {A B : Type} (l1 : list A) (l2 : list B) :
  List.length l1 = List.length l2 -> map snd (combine l1 l2) = l2.
Proof.
  revert l2. induction l1 as [|a l1 IH]; intros [|b l2] H; simpl in *;
    try discriminate; [reflexivity|].
  f_equal. apply IH. now injection H.
Qed.

Lemma rows_of_iterrows (df : DataFrame) :
  map snd (iterrows df) = map (combine (columns df)) (map snd (records df)).
Proof.
  unfold iterrows. induction (records df) as [|r rs IH]; simpl;
    [reflexivity|now rewrite IH].
Qed.

Lemma rows_of_DataFrame_of_dicts (rows : list dict) :
  map snd (iterrows (DataFrame_of_dicts rows))
  = map (fun d => combine (union_keys rows) (map (cell d) (union_keys rows)))
        rows.
Proof.
  rewrite rows_of_iterrows. unfold DataFrame_of_dicts. simpl.
  rewrite map_snd_combine, map_map; [reflexivity|].
  now rewrite length_range_from, length_map.
Qed.

(** Reading a row of a frame back as a dict gives, under each column, the
    cell that was written there. *)
Lemma dict_get_to_dict_cells (f : string -> value) (cols : list string)
    (k : string) :
  In k cols -> dict_get (to_dict (combine cols (map f cols))) k = Some (f k).
Proof.
  unfold to_dict, dict_of_pairs. generalize (@nil (string * value)) as d0.
  induction cols as [|c cols IH]; intros d0 Hin; [easy|].
  simpl. unfold dict_update in *. simpl.
  destruct (in_dec string_dec k cols) as [Hin'|Hnot].
  - now apply IH.
  - destruct Hin as [->|Hin]; [|contradiction].
    fold (dict_update (dict_set k (f k) d0) (combine cols (map f cols))).
    rewrite dict_get_update_other.
    + now rewrite dict_get_set, String.eqb_refl.
    + unfold keys. intros H. apply Hnot.
      apply in_map_iff in H as ([k' v'] & <- & Hkv).
      now apply in_combine_l in Hkv.
Qed.

Lemma cell_at_DataFrame_of_dicts (rows : list dict) (i : nat) (d : dict)
    (k : string) (v : value) :
  nth_error rows i = Some d ->
  dict_get d k = Some v ->
  cell_at (DataFrame_of_dicts rows) i k = Some v.
Proof.
  intros Hi Hk. unfold cell_at.
  rewrite rows_of_DataFrame_of_dicts, nth_error_map, Hi. simpl.
  rewrite dict_get_to_dict_cells.
  - unfold cell. now rewrite Hk.
  - apply (union_keys_contains rows d).
    + now apply nth_error_In in Hi.
    + now apply dict_get_Some_key in Hk.
Qed.

(** ** The validation loop, row by row *)

Section LoopFacts.
Context {RT : PyRuntime}.

(** Outside strict mode the loop never raises, and its two lists are the
    per-row contributions in input order. *)
Lemma validate_rows_lenient (self : t) (schema : Model)
    (rows : list (Z * Series)) (valid_rows : list dict)
    (errs : list error_info) :
  mode self <> "strict" ->
  validate_rows self schema rows valid_rows errs =
  inr (valid_rows ++ collect (row_output self schema) rows,
       errs ++ collect (row_error schema) rows).
Proof.
  intros Hmode. apply String.eqb_neq in Hmode.
  revert valid_rows errs.
  induction rows as [|[idx row] rows IH]; intros valid_rows errs;
    cbn [validate_rows collect].
  - now rewrite !app_nil_r.
  - unfold row_output at 1, row_error at 1; cbn [fst snd].
    destruct (model_validate schema (row_dict row)) as [e|validated].
    + rewrite Hmode.
      destruct (String.eqb (mode self) "flag"); rewrite IH, <- ?app_assoc;
        reflexivity.
    + rewrite IH, <- app_assoc. reflexivity.
Qed.



Lemma length_collect_outputs_filter (schema : Model)
    (rows : list (Z * Series)) :
  (List.length (collect (row_output (mk "filter") schema) rows)
   + List.length (collect (row_error schema) rows))%nat
  = List.length rows.
Proof.
  induction rows as [|r rows IH]; cbn [collect]; [reflexivity|].
  unfold row_output at 1, row_error at 1; cbn [mode].
  destruct (model_validate schema (row_dict (snd r))); simpl; lia.
Qed.

Lemma length_collect_outputs_flag (schema : Model)
    (rows : list (Z * Series)) :
  List.length (collect (row_output (mk "flag") schema) rows)
  = List.length rows.
Proof.
  induction rows as [|r rows IH]; cbn [collect]; [reflexivity|].
  unfold row_output at 1; cbn [mode].
  destruct (model_validate schema (row_dict (snd r))); simpl; lia.
Qed.

End LoopFacts.

(** ** Construction of the validator *)

(** C10: a mode string other than 'strict', 'filter' or 'flag' makes the
    constructor raise [ValueError("Invalid mode: ...")]; hence every
    validator that exists, and so every [validate] call, runs under one of
    exactly these three modes. *)
Theorem init_rejects_unknown_mode :
  (forall m : string,
      m <> "strict" -> m <> "filter" -> m <> "flag" ->
      __init__ m = inl (ValueError ("Invalid mode: " ++ m)))
  /\ (forall (m : string) (self : t),
         __init__ m = inr self ->
         mode self = m /\ (m = "strict" \/ m = "filter" \/ m = "flag")).
Proof.
  split.
  - intros m H1 H2 H3. unfold __init__.
    apply String.eqb_neq in H1, H2, H3. now rewrite H1, H2, H3.
  - intros m self. unfold __init__.
    destruct (String.eqb_spec m "strict") as [->|_]; simpl.
    { intros [= <-]. auto. }
    destruct (String.eqb_spec m "filter") as [->|_]; simpl.
    { intros [= <-]. auto. }
    destruct (String.eqb_spec m "flag") as [->|_]; simpl.
    { intros [= <-]. auto. }
    discriminate.
Qed.

Lemma init_rejects_unknown_mode_witness :
  __init__ "lenient" = inl (ValueError "Invalid mode: lenient")
  /\ (mode (mk "flag") = "flag"
      /\ ("flag" = "strict" \/ "flag" = "filter" \/ "flag" = "flag")).
Proof.
  split.
  - apply (proj1 init_rejects_unknown_mode "lenient"); discriminate.
  - apply (proj2 init_rejects_unknown_mode "flag" (mk "flag")). reflexivity.
Defined.

(** ** Strict mode *)




(** ** Missing values *)

Lemma dict_get_map_values (g : value -> value) (d : dict) (k : string) :
  dict_get (map (fun kv => (fst kv, g (snd kv))) d) k
  = option_map g (dict_get d k).
Proof.
  induction d as [|[k0 v0] d IH]; simpl; [reflexivity|].
  destruct (String.eqb k0 k); [reflexivity|exact IH].
Qed.

Lemma dict_get_filter_keys (p : string -> bool) (d : dict) (k : string) :
  dict_get (filter (fun kv => p (fst kv)) d) k
  = if p k then dict_get d k else None.
Proof.
  induction d as [|[k0 v0] d IH]; simpl.
  - now destruct (p k).
  - destruct (p k0) eqn:Hp0; simpl.
    + destruct (String.eqb_spec k0 k) as [->|_].
      * now rewrite Hp0.
      * exact IH.
    + destruct (String.eqb_spec k0 k) as [->|_].
      * rewrite IH, Hp0. reflexivity.
      * exact IH.
Qed.

(** What the schema sees under a key. *)
Lemma dict_get_row_dict (row : Series) (k : string) :
  dict_get (row_dict row) k
  = if startswith_underscore k then None
    else option_map (fun v => if isna v then VNone else v)
           (dict_get (to_dict row) k).
Proof.
  unfold row_dict.
  rewrite (dict_get_map_values (fun v => if isna v then VNone else v)).
  rewrite (dict_get_filter_keys (fun k => negb (startswith_underscore k))).
  now destruct (startswith_underscore k).
Qed.

Lemma to_dict_app (row : Series) (k : string) (v : value) :
  to_dict (row ++ [(k, v)]) = dict_set k v (to_dict row).
Proof.
  unfold to_dict, dict_of_pairs, dict_update. now rewrite fold_left_app.
Qed.

Section FieldFacts.
Context {RT : PyRuntime}.

Lemma coerce_None (ty : FieldType) : coerce ty VNone = inl (type_error ty).
Proof. now destruct ty. Qed.

(** A field has the same verdict on a mapping without the key [k] and on
    the mapping that holds [None] under [k]. *)
Lemma validate_field_absent_or_None (f : FieldInfo) (d d' : dict)
    (k : string) :
  dict_get d k = None ->
  dict_get d' k = Some VNone ->
  (forall k', k' <> k -> dict_get d' k' = dict_get d k') ->
  field_verdict (validate_field f d') = field_verdict (validate_field f d).
Proof.
  intros Hd Hd' Hother. unfold validate_field.
  destruct (String.eqb_spec (field_name f) k) as [Heq|Hne].
  - rewrite Heq, Hd, Hd'.
    destruct (optional f); [reflexivity|].
    now rewrite coerce_None.
  - rewrite (Hother _ Hne).
    destruct (dict_get d (field_name f)) as [v|].
    + destruct v, (optional f); try reflexivity;
        match goal with
        | |- context [coerce ?ty ?v] => destruct (coerce ty v) as [?|v']
        end; try reflexivity;
        destruct (first_failing (constraints f) v'); reflexivity.
    + destruct (optional f); reflexivity.
Qed.

Lemma validate_fields_same_verdicts (fs : list FieldInfo) (d d' : dict) :
  (forall f, In f fs ->
     field_verdict (validate_field f d') = field_verdict (validate_field f d)) ->
  snd (validate_fields fs d') = snd (validate_fields fs d)
  /\ (fst (validate_fields fs d') = [] <-> fst (validate_fields fs d) = []).
Proof.
  induction fs as [|f fs IH]; intros H; simpl.
  - split; [reflexivity|tauto].
  - destruct IH as [IHout IHerr]; [intros g Hg; apply H; now right|].
    specialize (H f (or_introl eq_refl)).
    destruct (validate_fields fs d') as [errs' out'],
             (validate_fields fs d) as [errs out]; simpl in *.
    destruct (validate_field f d') as [e'|v'],
             (validate_field f d) as [e|v]; simpl in *; try discriminate.
    + split; [assumption|]. split; discriminate.
    + injection H as ->. split; [now f_equal|assumption].
Qed.

Lemma model_validate_absent_or_None (m : Model) (d d' : dict) (k : string) :
  dict_get d k = None ->
  dict_get d' k = Some VNone ->
  (forall k', k' <> k -> dict_get d' k' = dict_get d k') ->
  accepted_values (model_validate m d') = accepted_values (model_validate m d).
Proof.
  intros Hd Hd' Hother. unfold model_validate.
  destruct (validate_fields_same_verdicts (model_fields m) d d') as [Hout Herr].
  { intros f _. now apply (validate_field_absent_or_None f d d' k). }
  destruct (validate_fields (model_fields m) d') as [errs' out'],
           (validate_fields (model_fields m) d) as [errs out]; simpl in *.
  subst out'. destruct errs' as [|e' errs'], errs as [|e errs]; simpl;
    try reflexivity.
  - destruct Herr as [Herr _]. now specialize (Herr eq_refl).
  - destruct Herr as [_ Herr]. now specialize (Herr eq_refl).
Qed.

End FieldFacts.

(** The empty string is a value like any other: it reaches the schema
    unchanged. *)
Lemma empty_string_is_not_missing (row : Series) (k : string) :
  startswith_underscore k = false ->
  dict_get (to_dict row) k = Some (VStr "") ->
  dict_get (row_dict row) k = Some (VStr "").
Proof.
  intros Hk Hv. now rewrite dict_get_row_dict, Hk, Hv.
Qed.

(** ** Metadata columns *)

Section MetadataFacts.
Context {RT : PyRuntime}.

Lemma validate_fields_keys (fs : list FieldInfo) (d : dict) (k : string) :
  In k (keys (snd (validate_fields fs d))) -> In k (map field_name fs).
Proof.
  induction fs as [|f fs IH]; simpl; [easy|].
  destruct (validate_fields fs d) as [errs out].
  destruct (validate_field f d); simpl in *; intuition.
Qed.

Lemma model_validate_keys (m : Model) (d out : dict) (k : string) :
  model_validate m d = inr out ->
  In k (keys out) -> In k (map field_name (model_fields m)).
Proof.
  unfold model_validate. intros H Hin.
  apply (validate_fields_keys _ d).
  destruct (validate_fields (model_fields m) d) as [[|e errs] out'];
    [|discriminate].
  injection H as ->. exact Hin.
Qed.

(** No field of a registered schema carries the metadata prefix. *)
Lemma registered_fields_not_metadata (schema_name : string) (schema : Model)
    (k : string) :
  lookup SCHEMAS schema_name = Some schema ->
  In k (map field_name (model_fields schema)) ->
  startswith_underscore k = false.
Proof.
  unfold SCHEMAS. cbn [lookup].
  destruct (String.eqb "customers" schema_name);
    [|destruct (String.eqb "products" schema_name);
      [|destruct (String.eqb "orders" schema_name); [|discriminate]]];
    intros [= <-]; simpl; intros H;
    repeat (destruct H as [<-|H]; [reflexivity|]); destruct H.
Qed.

Lemma row_output_defined (self : t) (schema : Model) (r : Z * Series) :
  (String.eqb (mode self) "flag" || is_valid schema r)
  = match row_output self schema r with Some _ => true | None => false end.
Proof.
  unfold row_output, is_valid.
  destruct (model_validate schema (row_dict (snd r))),
           (String.eqb (mode self) "flag"); reflexivity.
Qed.

(** The accepted rows line up with their source rows. *)
Lemma outputs_of_sources (self : t) (schema : Model)
    (rows : list (Z * Series)) :
  List.length (collect (row_output self schema) rows)
  = List.length (accepted_sources self schema rows)
  /\ forall i r,
      nth_error (accepted_sources self schema rows) i = Some r ->
      exists o, row_output self schema r = Some o
                /\ nth_error (collect (row_output self schema) rows) i = Some o.
Proof.
  unfold accepted_sources.
  induction rows as [|r0 rows [IHlen IHnth]]; cbn [collect filter].
  - split; [reflexivity|]. intros [|i] r; discriminate.
  - rewrite row_output_defined.
    destruct (row_output self schema r0) as [o0|] eqn:Ho.
    + split; [simpl; now rewrite IHlen|].
      intros [|i] r; simpl.
      * intros [= <-]. eauto.
      * apply IHnth.
    + split; assumption.
Qed.

(** A metadata cell of a source row is found in its accepted row, unless
    flag mode wrote that column itself. *)
Lemma row_output_metadata (self : t) (schema : Model) (r : Z * Series)
    (o : dict) (k : string) (v : value) :
  (forall k', In k' (map field_name (model_fields schema)) ->
              startswith_underscore k' = false) ->
  row_output self schema r = Some o ->
  startswith_underscore k = true ->
  dict_get (to_dict (snd r)) k = Some v ->
  written_by_validator self schema r k = false ->
  dict_get o k = Some v.
Proof.
  intros Hfields Ho Hk Hv Hw.
  unfold row_output in Ho. unfold written_by_validator, is_valid in Hw.
  destruct (model_validate schema (row_dict (snd r))) as [e|validated] eqn:Hm.
  - destruct (String.eqb (mode self) "flag"); [|discriminate].
    injection Ho as <-. simpl in Hw.
    rewrite andb_true_r in Hw. apply orb_false_iff in Hw as [H1 H2].
    apply String.eqb_neq in H1, H2.
    rewrite !dict_get_set_other by congruence. exact Hv.
  - assert (Hnot : ~ In k (keys validated)).
    { intros Hin. apply (model_validate_keys _ _ _ _ Hm) in Hin.
      apply Hfields in Hin. congruence. }
    destruct (String.eqb (mode self) "flag"); injection Ho as <-.
    + simpl in Hw. rewrite andb_false_r, orb_false_r in Hw.
      apply String.eqb_neq in Hw.
      rewrite dict_get_set_other by congruence.
      now rewrite dict_get_update_other.
    + now rewrite dict_get_update_other.
Qed.

End MetadataFacts.

(** ** Row counts *)

Section FlagFacts.
Context {RT : PyRuntime}.

Lemma accepted_sources_flag (schema : Model) (rows : list (Z * Series)) :
  accepted_sources (mk "flag") schema rows = rows.
Proof.
  unfold accepted_sources. simpl.
  induction rows as [|r rows IH]; simpl; [reflexivity|now rewrite IH].
Qed.

(** In flag mode a row's output carries the verdict on the row. *)
Lemma row_output_flag_marker (schema : Model) (r : Z * Series) (o : dict) :
  row_output (mk "flag") schema r = Some o ->
  dict_get o "_is_valid" = Some (VBool (is_valid schema r)).
Proof.
  unfold row_output, is_valid. simpl.
  destruct (model_validate schema (row_dict (snd r))); intros [= <-].
  - rewrite dict_get_set_other by discriminate.
    now rewrite dict_get_set.
  - now rewrite dict_get_set.
Qed.

End FlagFacts.

(** C1: for every dataset and registered schema, filter mode returns
    accepted rows and errors whose counts add up to the number of input
    rows; flag mode returns as many accepted rows as input rows, the row
    at each position marked valid or invalid as the input row at that
    position is. *)
Theorem validate_row_count_conservation {RT : PyRuntime}
    (df : DataFrame) (schema_name : string) (schema : Model) :
  lookup SCHEMAS schema_name = Some schema ->
  (exists accepted errs,
      validate (mk "filter") df schema_name = inr (accepted, errs)
      /\ (len accepted + List.length errs)%nat = len df)
  /\ (exists accepted errs,
         validate (mk "flag") df schema_name = inr (accepted, errs)
         /\ len accepted = len df
         /\ forall i r,
             nth_error (iterrows df) i = Some r ->
             cell_at accepted i "_is_valid"
             = Some (VBool (is_valid schema r))).
Proof.
  intros Hs. unfold validate. rewrite Hs. split.
  - rewrite validate_rows_lenient by discriminate. simpl.
    eexists _, _. split; [reflexivity|].
    rewrite len_DataFrame_of_dicts, length_collect_outputs_filter.
    apply len_iterrows.
  - rewrite validate_rows_lenient by discriminate. simpl.
    eexists _, _. split; [reflexivity|]. split.
    + rewrite len_DataFrame_of_dicts, length_collect_outputs_flag.
      apply len_iterrows.
    + intros i r Hi.
      destruct (outputs_of_sources (mk "flag") schema (iterrows df))
        as [_ Hnth].
      rewrite accepted_sources_flag in Hnth.
      destruct (Hnth i r Hi) as (o & Ho & Hio).
      apply (cell_at_DataFrame_of_dicts _ i o); [exact Hio|].
      now apply row_output_flag_marker.
Qed.

Lemma validate_row_count_conservation_witness :
  (exists accepted errs,
      validate (RT := Simple.runtime) (mk "filter") Samples.two_customers
        "customers" = inr (accepted, errs)
      /\ (len accepted + List.length errs)%nat = len Samples.two_customers)
  /\ (exists accepted errs,
         validate (RT := Simple.runtime) (mk "flag") Samples.two_customers
           "customers" = inr (accepted, errs)
         /\ len accepted = len Samples.two_customers
         /\ forall i r,
             nth_error (iterrows Samples.two_customers) i = Some r ->
             cell_at accepted i "_is_valid"
             = Some (VBool (is_valid (RT := Simple.runtime)
                              (CustomerRecord (RT := Simple.runtime)) r))).
Proof.
  apply (validate_row_count_conservation (RT := Simple.runtime)
           Samples.two_customers "customers"
           (CustomerRecord (RT := Simple.runtime))).
  reflexivity.
Defined.

(** ** Metadata columns in the accepted output *)

(** C7 (what the code does at the claimed input): in flag mode a valid row
    that arrives with a column [_is_valid] leaves with [True] in it,
    whatever it held. *)
Lemma flag_mode_overwrites_is_valid :
  exists accepted errs,
    validate (RT := Simple.runtime) (mk "flag") Samples.reviewed_product
      "products" = inr (accepted, errs)
    /\ errs = []
    /\ startswith_underscore "_is_valid" = true
    /\ cell_at Samples.reviewed_product 0 "_is_valid" = Some (VBool false)
    /\ cell_at accepted 0 "_is_valid" = Some (VBool true)
    /\ cell_at accepted 0 "_is_valid"
       <> cell_at Samples.reviewed_product 0 "_is_valid".
Proof.
  eexists _, _. split; [vm_compute; reflexivity|].
  repeat split; try (vm_compute; reflexivity). vm_compute. discriminate.
Qed.

(** C7 (amended): in filter and flag mode the metadata columns are left
    out of what the schema sees, and every metadata cell of a row
    appears with its original value in the row's place in the accepted
    output, except the columns flag mode writes itself: [_is_valid] on
    every row and [_validation_errors] on invalid rows. *)
Theorem metadata_columns_pass_through {RT : PyRuntime}
    (self : t) (df : DataFrame) (schema_name : string) (schema : Model) :
  mode self = "filter" \/ mode self = "flag" ->
  lookup SCHEMAS schema_name = Some schema ->
  exists accepted errs,
    validate self df schema_name = inr (accepted, errs)
    /\ len accepted
       = List.length (accepted_sources self schema (iterrows df))
    /\ forall i idx row k,
        nth_error (accepted_sources self schema (iterrows df)) i
        = Some (idx, row) ->
        startswith_underscore k = true ->
        dict_get (row_dict row) k = None
        /\ forall v,
            dict_get (to_dict row) k = Some v ->
            written_by_validator self schema (idx, row) k = false ->
            cell_at accepted i k = Some v.
Proof.
  intros Hmode Hs.
  assert (Hlenient : mode self <> "strict").
  { destruct Hmode as [-> | ->]; discriminate. }
  unfold validate. rewrite Hs, (validate_rows_lenient _ _ _ _ _ Hlenient).
  simpl. eexists _, _. split; [reflexivity|].
  destruct (outputs_of_sources self schema (iterrows df)) as [Hlen Hnth].
  split.
  - now rewrite len_DataFrame_of_dicts.
  - intros i idx row k Hi Hk. split.
    + now rewrite dict_get_row_dict, Hk.
    + intros v Hv Hw.
      destruct (Hnth i _ Hi) as (o & Ho & Hio).
      apply (cell_at_DataFrame_of_dicts _ i o); [exact Hio|].
      apply (row_output_metadata self schema (idx, row)); try assumption.
      intros k'. apply (registered_fields_not_metadata schema_name schema k' Hs).
Qed.

Lemma metadata_columns_pass_through_witness :
  exists accepted errs,
    validate (RT := Simple.runtime) (mk "flag") Samples.two_customers
      "customers" = inr (accepted, errs)
    /\ len accepted
       = List.length
           (accepted_sources (RT := Simple.runtime) (mk "flag")
              (CustomerRecord (RT := Simple.runtime))
              (iterrows Samples.two_customers))
    /\ forall i idx row k,
        nth_error
          (accepted_sources (RT := Simple.runtime) (mk "flag")
             (CustomerRecord (RT := Simple.runtime))
             (iterrows Samples.two_customers)) i
        = Some (idx, row) ->
        startswith_underscore k = true ->
        dict_get (row_dict row) k = None
        /\ forall v,
            dict_get (to_dict row) k = Some v ->
            written_by_validator (RT := Simple.runtime) (mk "flag")
              (CustomerRecord (RT := Simple.runtime)) (idx, row) k = false ->
            cell_at accepted i k = Some v.
Proof.
  apply (metadata_columns_pass_through (RT := Simple.runtime) (mk "flag")
           Samples.two_customers "customers"
           (CustomerRecord (RT := Simple.runtime))).
  - right. reflexivity.
  - reflexivity.
Defined.

(** ** Validating validated data again *)

(** The rounding itself is stable: a rounded number rounds to itself. *)
Lemma round_half_even_exact (n : Z) :
  round_half_even (100 * n) 100 = n.
Proof.
  unfold round_half_even.
  replace (100 * n)%Z with (n * 100)%Z by lia.
  rewrite Z.mod_mul, Z.div_mul by discriminate. reflexivity.
Qed.

Lemma round2_idempotent (f : pyfloat) : round2 (round2 f) = round2 f.
Proof.
  destruct f as [| |q]; try reflexivity.
  unfold round2; cbn [Qnum Qden].
  now rewrite round_half_even_exact.
Qed.

(** A positive price below half a cent passes the bound and rounds to
    zero, which the bound rejects. *)
Lemma small_price_rounds_below_bound :
  float_gt (FFin (4 # 1000)) 0 = true
  /\ round2 (FFin (4 # 1000)) = FFin (0 # 100)
  /\ float_gt (round2 (FFin (4 # 1000))) 0 = false.
Proof. repeat split. Qed.

(** C8 (the code at the failing input): a product priced 0.004 passes the
    bound [gt=0], is rounded to 0.0 and is accepted with that price;
    validating the accepted output again, with the same schema and mode,
    rejects the row, so the second accepted output is empty and differs
    from its input. *)
Theorem rounded_price_fails_revalidation {RT : PyRuntime} :
  exists accepted,
    validate (mk "filter") Samples.cheap_product "products"
    = inr (accepted, [])
    /\ len accepted = 1%nat
    /\ cell_at accepted 0 "price" = Some (VFloat (FFin (0 # 100)))
    /\ exists err accepted',
        validate (mk "filter") accepted "products" = inr (accepted', [err])
        /\ errors err =
           [mkErrorDetail "greater_than" "price"
              (InputValue (VFloat (FFin (0 # 100))))]
        /\ len accepted' = 0%nat
        /\ accepted' <> accepted.
Proof.
  eexists. split; [vm_compute; reflexivity|].
  split; [reflexivity|]. split; [reflexivity|].
  eexists _, _. split; [vm_compute; reflexivity|].
  split; [reflexivity|]. split; [reflexivity|]. discriminate.
Qed.

(** ** The loader *)

Import PostgresLoader.

Section LoaderFacts.
Context {WH : Warehouse}.

Lemma execute_rows_applied (sql : string) (rows : list (Z * Series))
    (db db' : DB) (tr : list Event) :
  applied sql rows db db' ->
  exists tr', execute_rows sql rows db tr = (inr db', tr').
Proof.
  intros H. revert tr.
  induction H as [db|idx row rest db db1 db2 Hexec _ IH]; intros tr; simpl.
  - eauto.
  - rewrite Hexec. apply IH.
Qed.

(** A failing statement stops the loop with the driver's message. *)
Lemma execute_rows_failure (sql : string) (pre post : list (Z * Series))
    (idx : Z) (row : Series) (db db1 : DB) (msg : string) (tr : list Event) :
  applied sql pre db db1 ->
  execute sql (to_dict row) db1 = inl msg ->
  exists tr', execute_rows sql (pre ++ (idx, row) :: post) db tr = (inl msg, tr').
Proof.
  intros H. revert tr.
  induction H as [db|i r rest db db1 db2 Hexec _ IH]; intros tr Hfail; simpl.
  - rewrite Hfail. eauto.
  - rewrite Hexec. now apply IH.
Qed.

(** The trace only grows, and the first statement sent is the first
    row's. *)
Lemma execute_rows_first (sql : string) (idx : Z) (row : Series)
    (rest : list (Z * Series)) (db : DB) (tr : list Event) :
  exists tail,
    snd (execute_rows sql ((idx, row) :: rest) db tr)
    = tr ++ Execute sql (to_dict row) :: tail.
Proof.
  assert (Hgrow : forall rows d t,
             exists tail, snd (execute_rows sql rows d t) = t ++ tail).
  { induction rows as [|[i r] rows IH]; intros d t; simpl.
    - exists []. now rewrite app_nil_r.
    - destruct (execute sql (to_dict r) d) as [m|d']; simpl.
      + exists [Execute sql (to_dict r)]. reflexivity.
      + destruct (IH d' (t ++ [Execute sql (to_dict r)])) as [tail ->].
        rewrite <- app_assoc. exists ([Execute sql (to_dict r)] ++ tail).
        reflexivity. }
  simpl. destruct (execute sql (to_dict row) db) as [m|db']; simpl.
  - exists []. reflexivity.
  - destruct (Hgrow rest db' (tr ++ [Execute sql (to_dict row)])) as [tail ->].
    rewrite <- app_assoc. exists tail. reflexivity.
Qed.

Lemma iterrows_nonempty (df : DataFrame) :
  empty df = false ->
  exists idx row rest, iterrows df = (idx, row) :: rest.
Proof.
  unfold empty, iterrows. destruct (records df) as [|[idx cells] rest]; simpl.
  - discriminate.
  - eauto.
Qed.

End LoaderFacts.

(** C9: on an empty dataset [load] and [upsert] both return 0 and leave
    the world as it was: no engine is created, nothing is sent, and the
    warehouse keeps its state. *)
Theorem empty_dataset_is_a_no_op {WH : Warehouse}
    (df : DataFrame) (table_name schema : string) (if_exists : IfExists)
    (chunk_size : nat) (key_columns : list string)
    (update_columns : option (list string)) (w : World) :
  empty df = true ->
  load df table_name schema if_exists chunk_size w = (inr 0%nat, w)
  /\ upsert df table_name schema key_columns update_columns w = (inr 0%nat, w).
Proof.
  intros He. unfold load, upsert. rewrite He. split; reflexivity.
Qed.

Lemma empty_dataset_is_a_no_op_witness :
  empty Samples.no_rows = true
  /\ load Samples.no_rows "customers" "raw" append 1000 Samples.fresh
     = (inr 0%nat, Samples.fresh)
  /\ upsert Samples.no_rows "customers" "raw" ["customer_id"] None
       Samples.fresh
     = (inr 0%nat, Samples.fresh).
Proof.
  split.
  - reflexivity.
  - apply (empty_dataset_is_a_no_op (WH := Simple.warehouse) Samples.no_rows
             "customers" "raw" append 1000 ["customer_id"] None
             Samples.fresh).
    reflexivity.
Defined.

(** C3: all statements of an [upsert] call run in one transaction. If the
    statement of some row fails, after the statements of the rows before
    it went through, the call raises and the warehouse is in the state it
    had before the call; the error is the driver's. *)
Theorem upsert_is_all_or_nothing {WH : Warehouse}
    (df : DataFrame) (table_name schema : string) (key_columns : list string)
    (update_columns : option (list string)) (w : World)
    (pre post : list (Z * Series)) (idx : Z) (row : Series) (db1 : DB)
    (msg : string) :
  let sql :=
    statement_text df table_name schema key_columns update_columns in
  empty df = false ->
  iterrows df = pre ++ (idx, row) :: post ->
  applied sql pre (database w) db1 ->
  execute sql (to_dict row) db1 = inl msg ->
  exists e w',
    upsert df table_name schema key_columns update_columns w = (inl e, w')
    /\ database w' = database w
    /\ (connect (database w) = None -> e = DBAPIError msg).
Proof.
  intros sql Hne Hrows Hpre Hfail. unfold upsert. rewrite Hne.
  destruct (connect (database w)) as [m|] eqn:Hc.
  - eexists _, _. split; [reflexivity|]. split; [reflexivity|discriminate].
  - fold sql. rewrite Hrows.
    destruct (execute_rows_failure sql pre post idx row (database w) db1 msg
                (trace w ++ [Connect]) Hpre Hfail) as [tr' ->].
    eexists _, _. split; [reflexivity|]. split; reflexivity.
Qed.

Lemma upsert_is_all_or_nothing_witness :
  exists e w',
    upsert Samples.good_then_bad "customers" "raw" ["customer_id"] None
      Samples.fresh = (inl e, w')
    /\ database w' = database Samples.fresh
    /\ (connect (database Samples.fresh) = None ->
        e = DBAPIError "null value violates not-null constraint").
Proof.
  apply (upsert_is_all_or_nothing (WH := Simple.warehouse)
           Samples.good_then_bad "customers" "raw" ["customer_id"] None
           Samples.fresh
           [(0%Z, combine Samples.customer_columns
                    (Samples.customer "C2" "a@b.com"))]
           [] 1%Z
           (combine Samples.customer_columns (Samples.stateless "C1"))
           [Samples.customer "C2" "a@b.com"]).
  - reflexivity.
  - reflexivity.
  - eapply applied_cons; [reflexivity|apply applied_nil].
  - reflexivity.
Defined.

(** When every statement goes through, the call commits them all and
    returns the number of rows. *)
Lemma upsert_commits_all {WH : Warehouse}
    (df : DataFrame) (table_name schema : string) (key_columns : list string)
    (update_columns : option (list string)) (w : World) (db' : DB) :
  empty df = false ->
  connect (database w) = None ->
  applied (statement_text df table_name schema key_columns update_columns)
    (iterrows df) (database w) db' ->
  exists w',
    upsert df table_name schema key_columns update_columns w
    = (inr (len df), w')
    /\ database w' = db'.
Proof.
  intros Hne Hc Happ. unfold upsert. rewrite Hne, Hc.
  destruct (execute_rows_applied _ _ _ _ (trace w ++ [Connect]) Happ)
    as [tr' ->].
  eexists. split; reflexivity.
Qed.

(** C4 (what the code does at the claimed input): [upsert] has no check of
    [key_columns]. With an empty key list the statement of the first row
    goes to the warehouse, and the error is the warehouse's; with a key
    that is no column of the dataset the call goes through. *)
Lemma upsert_sends_rows_whatever_the_keys :
  (exists sql params,
      upsert Samples.one_product "products" "raw" [] None Samples.fresh
      = (inl (DBAPIError "syntax error at or near )"),
         mkWorld true (database Samples.fresh)
           [Connect; Execute sql params; Rollback]))
  /\ (~ incl ["sku"] (columns Samples.one_product)
      /\ exists w',
          upsert Samples.one_product "products" "raw" ["sku"] None
            Samples.fresh = (inr 1%nat, w')).
Proof.
  split.
  - eexists _, _. vm_compute. reflexivity.
  - split.
    + intros H. specialize (H "sku" (or_introl eq_refl)). simpl in H.
      repeat (destruct H as [H|H]; [discriminate|]). exact H.
    + eexists. vm_compute. reflexivity.
Qed.

(** C4 (amended): [upsert] does not validate [key_columns]. On a dataset
    that is not empty, once connected, the statement of the first row is
    sent to the warehouse with the key columns joined into its conflict
    target, whatever they are, and a failure of the call is an error of
    the warehouse. *)
Theorem upsert_leaves_key_check_to_warehouse {WH : Warehouse}
    (df : DataFrame) (table_name schema : string) (key_columns : list string)
    (update_columns : option (list string)) (w : World) :
  empty df = false ->
  connect (database w) = None ->
  exists idx row rest result w' tail,
    iterrows df = (idx, row) :: rest
    /\ upsert df table_name schema key_columns update_columns w = (result, w')
    /\ trace w' =
       trace w ++ Connect
         :: Execute (statement_text df table_name schema key_columns
                       update_columns) (to_dict row)
         :: tail
    /\ (forall e, result = inl e -> exists msg, e = DBAPIError msg).
Proof.
  intros Hne Hc.
  destruct (iterrows_nonempty df Hne) as (idx & row & rest & Hrows).
  set (sql := statement_text df table_name schema key_columns update_columns).
  destruct (execute_rows_first sql idx row rest (database w)
              (trace w ++ [Connect])) as [tail Htail].
  unfold upsert. rewrite Hne, Hc. fold sql. rewrite Hrows.
  destruct (execute_rows sql ((idx, row) :: rest) (database w)
              (trace w ++ [Connect])) as [[msg|db'] tr'] eqn:Hrun;
    simpl in Htail; subst tr'.
  - exists idx, row, rest, (inl (DBAPIError msg)). eexists _, (tail ++ [Rollback]).
    split; [reflexivity|]. split; [reflexivity|]. split.
    + simpl. rewrite <- !app_assoc. reflexivity.
    + intros e [= <-]. eauto.
  - exists idx, row, rest, (inr (len df)). eexists _, (tail ++ [Commit]).
    split; [reflexivity|]. split; [reflexivity|]. split.
    + simpl. rewrite <- !app_assoc. reflexivity.
    + discriminate.
Qed.

Lemma upsert_leaves_key_check_to_warehouse_witness :
  exists idx row rest result w' tail,
    iterrows Samples.one_product = (idx, row) :: rest
    /\ upsert Samples.one_product "products" "raw" [] None Samples.fresh
       = (result, w')
    /\ trace w' =
       trace Samples.fresh ++ Connect
         :: Execute (statement_text Samples.one_product "products" "raw" []
                       None) (to_dict row)
         :: tail
    /\ (forall e, result = inl e -> exists msg, e = DBAPIError msg).
Proof.
  apply (upsert_leaves_key_check_to_warehouse (WH := Simple.warehouse)
           Samples.one_product "products" "raw" [] None Samples.fresh);
    reflexivity.
Defined.

(** C5 (what the code does at the claimed input): two loads, one rejected
    at batch 0 (row 0), the other at batch 1 (row 1), fail with the same
    [LoadError]: the failure tells neither the batch nor the rows. *)
Lemma load_failure_hides_the_batch :
  let msg := "null value violates not-null constraint" in
  failed_batch Samples.bad_then_good "customers" "raw" append 1 Samples.fresh
  = Some (0%nat, msg)
  /\ failed_batch Samples.good_then_bad "customers" "raw" append 1
       Samples.fresh = Some (1%nat, msg)
  /\ batch_range 1 0 <> batch_range 1 1
  /\ fst (load Samples.bad_then_good "customers" "raw" append 1 Samples.fresh)
     = inl (LoadError ("Failed to load data: " ++ msg))
  /\ fst (load Samples.good_then_bad "customers" "raw" append 1 Samples.fresh)
     = inl (LoadError ("Failed to load data: " ++ msg)).
Proof.
  repeat split; try (vm_compute; reflexivity). vm_compute. discriminate.
Qed.

Section LoadFacts.
Context {WH : Warehouse}.

Lemma insert_chunks_result (schema table : string) (cols : list string)
    (chunks : list (list (list value))) (i : nat) (db : DB)
    (tr1 tr2 : list Event) :
  fst (insert_chunks schema table cols i chunks db tr1)
  = fst (insert_chunks schema table cols i chunks db tr2).
Proof.
  revert i db tr1 tr2.
  induction chunks as [|rows chunks IH]; intros i db tr1 tr2; simpl.
  - reflexivity.
  - destruct (insert_many schema table cols rows db); [reflexivity|apply IH].
Qed.

End LoadFacts.

(** C5 (amended): when a batch of a [load] call fails, the whole call
    aborts: it returns no row count and raises a [LoadError] whose message
    is "Failed to load data: " followed by the warehouse's error. The
    failure is the same whichever batch and rows failed. *)
Theorem load_failure_is_a_LoadError {WH : Warehouse}
    (df : DataFrame) (table_name schema : string) (if_exists : IfExists)
    (chunk_size : nat) (w : World) (i : nat) (msg : string) :
  empty df = false ->
  failed_batch df table_name schema if_exists chunk_size w = Some (i, msg) ->
  exists w',
    load df table_name schema if_exists chunk_size w
    = (inl (LoadError ("Failed to load data: " ++ msg)), w').
Proof.
  intros Hne. unfold failed_batch, load, to_sql. rewrite Hne. simpl.
  destruct (connect (database w)); [discriminate|].
  destruct chunk_size as [|n]; [discriminate|].
  destruct (prepare_table schema table_name if_exists (database w))
    as [m|db1]; [discriminate|].
  rewrite (insert_chunks_result schema table_name (columns df) _ 0 db1 []
             ((trace w ++ [Connect])
                ++ [PrepareTable schema table_name if_exists])).
  destruct (insert_chunks schema table_name (columns df) 0
              (chunked (S n) (map snd (records df))) db1
              ((trace w ++ [Connect])
                 ++ [PrepareTable schema table_name if_exists]))
    as [[[j m]|db2] tr']; simpl; intros [= -> ->].
  eauto.
Qed.

Lemma load_failure_is_a_LoadError_witness :
  exists w',
    load Samples.good_then_bad "customers" "raw" append 1 Samples.fresh
    = (inl (LoadError
              "Failed to load data: null value violates not-null constraint"),
       w').
Proof.
  apply (load_failure_is_a_LoadError (WH := Simple.warehouse)
           Samples.good_then_bad "customers" "raw" append 1 Samples.fresh
           1%nat "null value violates not-null constraint");
    reflexivity.
Defined.

(** * Further properties of the validator *)

Section ValidatorFacts.
Context {RT : PyRuntime}.

Lemma lookup_unregistered (schema_name : string) :
  schema_name <> "customers" -> schema_name <> "products" ->
  schema_name <> "orders" ->
  lookup SCHEMAS schema_name = None.
Proof.
  intros H1 H2 H3. unfold SCHEMAS. cbn [lookup].
  destruct (String.eqb_spec "customers" schema_name); [congruence|].
  destruct (String.eqb_spec "products" schema_name); [congruence|].
  destruct (String.eqb_spec "orders" schema_name); [congruence|].
  reflexivity.
Qed.

Lemma row_error_spec (schema : Model) (r : Z * Series) :
  match row_error schema r with
  | Some info =>
      is_valid schema r = false /\ row_index info = fst r
      /\ data info = to_dict (snd r) /\ errors info <> []
  | None => is_valid schema r = true
  end.
Proof.
  unfold row_error, is_valid, model_validate.
  destruct (validate_fields (model_fields schema) (row_dict (snd r)))
    as [[|e errs] out]; simpl; [reflexivity|].
  repeat split. discriminate.
Qed.

(** The error list, row by row. *)
Lemma collect_row_error (schema : Model) (rows : list (Z * Series)) :
  map row_index (collect (row_error schema) rows)
  = map fst (filter (fun r => negb (is_valid schema r)) rows)
  /\ map data (collect (row_error schema) rows)
     = map (fun r => to_dict (snd r))
         (filter (fun r => negb (is_valid schema r)) rows)
  /\ Forall (fun info => errors info <> []) (collect (row_error schema) rows).
Proof.
  induction rows as [|r rows (IH1 & IH2 & IH3)]; cbn [collect filter map].
  - repeat split. constructor.
  - pose proof (row_error_spec schema r) as Hr.
    destruct (row_error schema r) as [info|].
    + destruct Hr as (Hv & Hi & Hd & He). rewrite Hv. cbn [negb map].
      rewrite Hi, Hd, IH1, IH2. repeat split. now constructor.
    + rewrite Hr. cbn [negb]. repeat split; assumption.
Qed.

(** When every row is valid the loop raises in no mode and records no
    error. *)
Lemma validate_rows_all_valid (self : t) (schema : Model)
    (rows : list (Z * Series)) (valid_rows : list dict)
    (errs : list error_info) :
  forallb (is_valid schema) rows = true ->
  validate_rows self schema rows valid_rows errs
  = inr (valid_rows ++ collect (row_output self schema) rows, errs).
Proof.
  revert valid_rows.
  induction rows as [|[idx row] rows IH]; intros valid_rows Hall;
    cbn [validate_rows collect].
  - now rewrite app_nil_r.
  - cbn [forallb] in Hall. apply andb_true_iff in Hall as [Hr Hall].
    unfold is_valid in Hr. unfold row_output at 1. cbn [snd] in *.
    destruct (model_validate schema (row_dict row)); [discriminate|].
    rewrite IH by assumption. now rewrite <- app_assoc.
Qed.

Lemma collect_ext {A B : Type} (f g : A -> option B) (l : list A) :
  (forall x, f x = g x) -> collect f l = collect g l.
Proof.
  intros H. induction l as [|x l IH]; simpl; [reflexivity|].
  now rewrite H, IH.
Qed.

End ValidatorFacts.

(** X1: an unregistered schema name makes [validate] raise
    [ValueError("Unknown schema: ...")] in every mode and for every
    dataset, no row being looked at; [get_schema_columns] raises the
    same error. *)
Theorem unknown_schema_is_rejected {RT : PyRuntime}
    (self : t) (df : DataFrame) (schema_name : string) :
  schema_name <> "customers" -> schema_name <> "products" ->
  schema_name <> "orders" ->
  validate self df schema_name
  = inl (ValueError ("Unknown schema: " ++ schema_name))
  /\ get_schema_columns schema_name
     = inl (ValueError ("Unknown schema: " ++ schema_name)).
Proof.
  intros H1 H2 H3. unfold validate, get_schema_columns.
  now rewrite lookup_unregistered.
Qed.

Lemma unknown_schema_is_rejected_witness :
  validate (RT := Simple.runtime) (mk "strict") Samples.two_customers
    "invoices" = inl (ValueError "Unknown schema: invoices")
  /\ get_schema_columns (RT := Simple.runtime) "invoices"
     = inl (ValueError "Unknown schema: invoices").
Proof.
  apply (unknown_schema_is_rejected (RT := Simple.runtime) (mk "strict")
           Samples.two_customers "invoices"); discriminate.
Defined.

(** X2: outside strict mode the error list has one entry per invalid row,
    in input order; each entry carries the row's original index label,
    the row as it came in, and at least one field error. *)
Theorem errors_report_invalid_rows {RT : PyRuntime}
    (self : t) (df : DataFrame) (schema_name : string) (schema : Model) :
  mode self <> "strict" ->
  lookup SCHEMAS schema_name = Some schema ->
  exists accepted errs,
    validate self df schema_name = inr (accepted, errs)
    /\ map row_index errs
       = map fst (filter (fun r => negb (is_valid schema r)) (iterrows df))
    /\ map data errs
       = map (fun r => to_dict (snd r))
           (filter (fun r => negb (is_valid schema r)) (iterrows df))
    /\ Forall (fun info => errors info <> []) errs.
Proof.
  intros Hmode Hs. unfold validate.
  rewrite Hs, (validate_rows_lenient _ _ _ _ _ Hmode). simpl.
  eexists _, _. split; [reflexivity|]. apply collect_row_error.
Qed.

Lemma errors_report_invalid_rows_witness :
  exists accepted errs,
    validate (RT := Simple.runtime) (mk "filter") Samples.two_customers
      "customers" = inr (accepted, errs)
    /\ map row_index errs
       = map fst
           (filter (fun r => negb (is_valid (RT := Simple.runtime)
                                     (CustomerRecord (RT := Simple.runtime)) r))
              (iterrows Samples.two_customers))
    /\ map data errs
       = map (fun r => to_dict (snd r))
           (filter (fun r => negb (is_valid (RT := Simple.runtime)
                                     (CustomerRecord (RT := Simple.runtime)) r))
              (iterrows Samples.two_customers))
    /\ Forall (fun info => errors info <> []) errs.
Proof.
  apply (errors_report_invalid_rows (RT := Simple.runtime) (mk "filter")
           Samples.two_customers "customers"
           (CustomerRecord (RT := Simple.runtime))).
  - discriminate.
  - reflexivity.
Defined.

(** X3: filter mode and flag mode report the same errors for the same
    dataset and schema. *)
Theorem flag_and_filter_report_the_same_errors {RT : PyRuntime}
    (df : DataFrame) (schema_name : string) :
  forall r1 r2,
    validate (mk "filter") df schema_name = inr r1 ->
    validate (mk "flag") df schema_name = inr r2 ->
    snd r1 = snd r2.
Proof.
  intros r1 r2. unfold validate.
  destruct (lookup SCHEMAS schema_name) as [schema|]; [|discriminate].
  rewrite !validate_rows_lenient by discriminate. simpl.
  now intros [= <-] [= <-].
Qed.

Lemma flag_and_filter_report_the_same_errors_witness :
  exists r1 r2,
    validate (RT := Simple.runtime) (mk "filter") Samples.two_customers
      "customers" = inr r1
    /\ validate (RT := Simple.runtime) (mk "flag") Samples.two_customers
         "customers" = inr r2
    /\ snd r1 = snd r2.
Proof.
  eexists _, _. split; [reflexivity|]. split; [reflexivity|].
  apply (flag_and_filter_report_the_same_errors (RT := Simple.runtime)
           Samples.two_customers "customers"); reflexivity.
Defined.

(** X4: on a dataset whose rows are all valid, strict mode raises nothing
    and returns what filter mode returns: every row accepted, no
    error. *)
Theorem strict_mode_accepts_valid_dataset {RT : PyRuntime}
    (df : DataFrame) (schema_name : string) (schema : Model) :
  lookup SCHEMAS schema_name = Some schema ->
  forallb (is_valid schema) (iterrows df) = true ->
  exists accepted,
    validate (mk "strict") df schema_name = inr (accepted, [])
    /\ validate (mk "filter") df schema_name = inr (accepted, [])
    /\ len accepted = len df.
Proof.
  intros Hs Hall. unfold validate. rewrite Hs.
  rewrite !validate_rows_all_valid by assumption. simpl.
  rewrite (collect_ext (row_output (mk "strict") schema)
             (row_output (mk "filter") schema)) by reflexivity.
  eexists. split; [reflexivity|]. split; [reflexivity|].
  rewrite len_DataFrame_of_dicts, <- len_iterrows.
  rewrite <- (length_collect_outputs_filter schema (iterrows df)).
  assert (Hnone : collect (row_error schema) (iterrows df) = []).
  { induction (iterrows df) as [|r rows IH]; cbn [collect]; [reflexivity|].
    cbn [forallb] in Hall. apply andb_true_iff in Hall as [Hr Hall].
    unfold is_valid in Hr. unfold row_error at 1.
    destruct (model_validate schema (row_dict (snd r))); [discriminate|].
    now apply IH. }
  rewrite Hnone. simpl. lia.
Qed.

Lemma strict_mode_accepts_valid_dataset_witness :
  exists accepted,
    validate (RT := Simple.runtime) (mk "strict") Samples.one_product
      "products" = inr (accepted, [])
    /\ validate (RT := Simple.runtime) (mk "filter") Samples.one_product
         "products" = inr (accepted, [])
    /\ len accepted = len Samples.one_product.
Proof.
  apply (strict_mode_accepts_valid_dataset (RT := Simple.runtime)
           Samples.one_product "products" ProductRecord); reflexivity.
Defined.

(** ** What the accepted rows hold *)

Lemma dict_get_update_in (d other : dict) (k : string) (v : value) :
  NoDup (keys other) ->
  dict_get other k = Some v ->
  dict_get (dict_update d other) k = Some v.
Proof.
  unfold dict_update. revert d.
  induction other as [|[k0 v0] other IH]; intros d Hnd Hget; simpl in *.
  - discriminate.
  - inversion Hnd as [|? ? Hnot Hnd']; subst.
    destruct (String.eqb_spec k0 k) as [->|Hne].
    + injection Hget as ->.
      fold (dict_update (dict_set k v d) other).
      rewrite dict_get_update_other by exact Hnot.
      now rewrite dict_get_set, String.eqb_refl.
    + now apply IH.
Qed.

Lemma keys_dict_set (k : string) (v : value) (d : dict) (k' : string) :
  In k' (keys (dict_set k v d)) <-> k' = k \/ In k' (keys d).
Proof.
  induction d as [|[k0 v0] d IH]; simpl.
  - intuition.
  - destruct (String.eqb_spec k0 k) as [->|Hne]; simpl.
    + intuition.
    + rewrite IH. intuition.
Qed.

Lemma keys_dict_update (d other : dict) (k : string) :
  In k (keys (dict_update d other)) <-> In k (keys d) \/ In k (keys other).
Proof.
  unfold dict_update. revert d.
  induction other as [|[k0 v0] other IH]; intros d; simpl.
  - intuition.
  - rewrite IH, keys_dict_set. simpl. intuition.
Qed.

Lemma In_collect {A B : Type} (f : A -> option B) (l : list A) (x : A)
    (y : B) :
  In x l -> f x = Some y -> In y (collect f l).
Proof.
  induction l as [|a l IH]; simpl; [easy|].
  intros [->|Hin] Hf.
  - rewrite Hf. now left.
  - destruct (f a); [right|]; now apply IH.
Qed.

Section AcceptedFacts.
Context {RT : PyRuntime}.

(** A field error is located at its field. *)
Lemma validate_field_err_loc (f : FieldInfo) (d : dict) (e : ErrorDetail) :
  validate_field f d = inl e -> err_loc e = field_name f.
Proof.
  unfold validate_field.
  destruct (dict_get d (field_name f)) as [v|].
  - assert (Hgen :
      match coerce (annotation f) v with
      | inl ty => inl (mkErrorDetail ty (field_name f) (InputValue v))
      | inr v' =>
          match first_failing (constraints f) v' with
          | Some c =>
              inl (mkErrorDetail (constraint_error c) (field_name f)
                     (InputValue v))
          | None => inr (run_after f v')
          end
      end = inl e -> err_loc e = field_name f).
    { destruct (coerce (annotation f) v) as [ty|v'].
      - now intros [= <-].
      - destruct (first_failing (constraints f) v'); [|discriminate].
        now intros [= <-]. }
    destruct v, (optional f); try exact Hgen; discriminate.
  - destruct (optional f); [discriminate|]. now intros [= <-].
Qed.

(** The validated mapping has the fields that passed, and the error list
    the fields that failed, both in declaration order. *)
Lemma validate_fields_passed (fs : list FieldInfo) (d : dict) :
  keys (snd (validate_fields fs d))
  = map field_name (filter (fun f => negb (field_fails d f)) fs)
  /\ map err_loc (fst (validate_fields fs d))
     = map field_name (filter (field_fails d) fs).
Proof.
  induction fs as [|f fs [IHk IHe]]; simpl; [split; reflexivity|].
  destruct (validate_fields fs d) as [errs out].
  destruct (validate_field f d) as [e|v] eqn:Hf; simpl in *.
  - assert (Hff : field_fails d f = true)
      by (unfold field_fails; now rewrite Hf).
    rewrite Hff. simpl. split; [assumption|].
    rewrite (validate_field_err_loc f d e Hf). now f_equal.
  - assert (Hff : field_fails d f = false)
      by (unfold field_fails; now rewrite Hf).
    rewrite Hff. simpl. split; [now f_equal|assumption].
Qed.

Lemma model_validate_accepted_keys (m : Model) (d out : dict) :
  model_validate m d = inr out ->
  keys out = map field_name (model_fields m).
Proof.
  unfold model_validate. intros H.
  destruct (validate_fields_passed (model_fields m) d) as [Hk He].
  destruct (validate_fields (model_fields m) d) as [[|e errs] out'];
    [|discriminate].
  injection H as ->. simpl in *. rewrite Hk. f_equal.
  clear Hk. induction (model_fields m) as [|f fs IH]; simpl in *;
    [reflexivity|].
  destruct (field_fails d f); simpl in *; [discriminate|].
  f_equal. now apply IH.
Qed.

Lemma registered_fields_NoDup (schema_name : string) (schema : Model) :
  lookup SCHEMAS schema_name = Some schema ->
  NoDup (map field_name (model_fields schema)).
Proof.
  unfold SCHEMAS. cbn [lookup].
  destruct (String.eqb "customers" schema_name);
    [|destruct (String.eqb "products" schema_name);
      [|destruct (String.eqb "orders" schema_name); [|discriminate]]];
    intros [= <-]; simpl;
    repeat (constructor; [simpl; intuition discriminate|]); constructor.
Qed.

End AcceptedFacts.

(** X5: in filter and flag mode the record that the loop builds for a valid
    input row and hands to [pd.DataFrame] holds, under every schema field,
    the validated value (normalized, with [None] for a missing optional
    field), and under every other column the row's original value, the
    flag-mode marker apart. *)
Theorem accepted_rows_hold_validated_values {RT : PyRuntime}
    (self : t) (df : DataFrame) (schema_name : string) (schema : Model) :
  mode self = "filter" \/ mode self = "flag" ->
  lookup SCHEMAS schema_name = Some schema ->
  exists valid_rows errs,
    validate_rows self schema (iterrows df) [] [] = inr (valid_rows, errs)
    /\ validate self df schema_name
       = inr (DataFrame_of_dicts valid_rows, errs)
    /\ forall i idx row validated,
        nth_error (accepted_sources self schema (iterrows df)) i
        = Some (idx, row) ->
        model_validate schema (row_dict row) = inr validated ->
        exists record,
          nth_error valid_rows i = Some record
          /\ (forall k v, dict_get validated k = Some v ->
                          dict_get record k = Some v)
          /\ (forall k v,
                 ~ In k (map field_name (model_fields schema)) ->
                 k <> "_is_valid" ->
                 dict_get (to_dict row) k = Some v ->
                 dict_get record k = Some v).
Proof.
  intros Hmode Hs.
  assert (Hlenient : mode self <> "strict").
  { destruct Hmode as [-> | ->]; discriminate. }
  unfold validate. rewrite Hs, (validate_rows_lenient _ _ _ _ _ Hlenient).
  simpl. eexists _, _. split; [reflexivity|]. split; [reflexivity|].
  intros i idx row validated Hi Hm.
  destruct (outputs_of_sources self schema (iterrows df)) as [_ Hnth].
  destruct (Hnth i _ Hi) as (o & Ho & Hio).
  unfold row_output in Ho. cbn [snd] in Ho. rewrite Hm in Ho.
  pose proof (model_validate_accepted_keys _ _ _ Hm) as Hkeys.
  pose proof (registered_fields_NoDup _ _ Hs) as Hnd.
  exists o. split; [exact Hio|]. split.
  - intros k v Hv.
    assert (Hfield : In k (map field_name (model_fields schema))).
    { rewrite <- Hkeys. now apply dict_get_Some_key in Hv. }
    assert (Hk : k <> "_is_valid").
    { intros ->.
      apply (registered_fields_not_metadata _ _ _ Hs) in Hfield.
      discriminate. }
    assert (Hupd : dict_get (dict_update (to_dict row) validated) k = Some v).
    { apply dict_get_update_in; [now rewrite Hkeys|exact Hv]. }
    destruct (String.eqb (mode self) "flag"); injection Ho as <-.
    + now rewrite dict_get_set_other by congruence.
    + exact Hupd.
  - intros k v Hnot Hk Hv.
    assert (Hupd : dict_get (dict_update (to_dict row) validated) k = Some v).
    { rewrite dict_get_update_other; [exact Hv|now rewrite Hkeys]. }
    destruct (String.eqb (mode self) "flag"); injection Ho as <-.
    + now rewrite dict_get_set_other by congruence.
    + exact Hupd.
Qed.

Lemma accepted_rows_hold_validated_values_witness :
  exists valid_rows errs,
    validate_rows (RT := Simple.runtime) (mk "flag")
      (CustomerRecord (RT := Simple.runtime))
      (iterrows Samples.two_customers) [] [] = inr (valid_rows, errs)
    /\ validate (RT := Simple.runtime) (mk "flag") Samples.two_customers
         "customers" = inr (DataFrame_of_dicts valid_rows, errs)
    /\ forall i idx row validated,
        nth_error
          (accepted_sources (RT := Simple.runtime) (mk "flag")
             (CustomerRecord (RT := Simple.runtime))
             (iterrows Samples.two_customers)) i
        = Some (idx, row) ->
        model_validate (RT := Simple.runtime)
          (CustomerRecord (RT := Simple.runtime)) (row_dict row)
        = inr validated ->
        exists record,
          nth_error valid_rows i = Some record
          /\ (forall k v, dict_get validated k = Some v ->
                          dict_get record k = Some v)
          /\ (forall k v,
                 ~ In k (map field_name
                           (model_fields
                              (CustomerRecord (RT := Simple.runtime)))) ->
                 k <> "_is_valid" ->
                 dict_get (to_dict row) k = Some v ->
                 dict_get record k = Some v).
Proof.
  apply (accepted_rows_hold_validated_values (RT := Simple.runtime)
           (mk "flag") Samples.two_customers "customers"
           (CustomerRecord (RT := Simple.runtime))).
  - right. reflexivity.
  - reflexivity.
Defined.

(** X6: in flag mode an invalid row stays in the output as it came in:
    every cell keeps its raw value (nothing is normalized or replaced by
    [None]), the marker is [False], and [_validation_errors] holds the
    rendering of the row's field errors. *)
Theorem flag_mode_keeps_invalid_rows_raw {RT : PyRuntime}
    (df : DataFrame) (schema_name : string) (schema : Model) :
  lookup SCHEMAS schema_name = Some schema ->
  exists accepted errs,
    validate (mk "flag") df schema_name = inr (accepted, errs)
    /\ forall i idx row e,
        nth_error (iterrows df) i = Some (idx, row) ->
        model_validate schema (row_dict row) = inl e ->
        cell_at accepted i "_is_valid" = Some (VBool false)
        /\ cell_at accepted i "_validation_errors"
           = Some (VStr (str_of_errors (error_list e)))
        /\ forall k v,
            k <> "_is_valid" -> k <> "_validation_errors" ->
            dict_get (to_dict row) k = Some v ->
            cell_at accepted i k = Some v.
Proof.
  intros Hs. unfold validate.
  rewrite Hs, validate_rows_lenient by discriminate. simpl.
  eexists _, _. split; [reflexivity|].
  intros i idx row e Hi He.
  destruct (outputs_of_sources (mk "flag") schema (iterrows df)) as [_ Hnth].
  rewrite accepted_sources_flag in Hnth.
  destruct (Hnth i _ Hi) as (o & Ho & Hio).
  unfold row_output in Ho. cbn [snd mode] in Ho. rewrite He in Ho.
  simpl in Ho. injection Ho as <-.
  repeat split.
  - apply (cell_at_DataFrame_of_dicts _ i _ _ _ Hio).
    rewrite dict_get_set_other by discriminate.
    now rewrite dict_get_set.
  - apply (cell_at_DataFrame_of_dicts _ i _ _ _ Hio).
    now rewrite dict_get_set.
  - intros k v H1 H2 Hv.
    apply (cell_at_DataFrame_of_dicts _ i _ _ _ Hio).
    now rewrite !dict_get_set_other by congruence.
Qed.

Lemma flag_mode_keeps_invalid_rows_raw_witness :
  exists accepted errs,
    validate (RT := Simple.runtime) (mk "flag") Samples.two_customers
      "customers" = inr (accepted, errs)
    /\ forall i idx row e,
        nth_error (iterrows Samples.two_customers) i = Some (idx, row) ->
        model_validate (RT := Simple.runtime)
          (CustomerRecord (RT := Simple.runtime)) (row_dict row) = inl e ->
        cell_at accepted i "_is_valid" = Some (VBool false)
        /\ cell_at accepted i "_validation_errors"
           = Some (VStr (str_of_errors (PyRuntime := Simple.runtime)
                           (error_list e)))
        /\ forall k v,
            k <> "_is_valid" -> k <> "_validation_errors" ->
            dict_get (to_dict row) k = Some v ->
            cell_at accepted i k = Some v.
Proof.
  apply (flag_mode_keeps_invalid_rows_raw (RT := Simple.runtime)
           Samples.two_customers "customers"
           (CustomerRecord (RT := Simple.runtime))).
  reflexivity.
Defined.

(** X7: [get_schema_columns] gives the field names of the schema in
    declaration order; these are exactly the keys of every validated
    mapping, and as soon as one row is valid they are all columns of the
    accepted frame, also those the input did not have. *)
Theorem accepted_frame_has_schema_columns {RT : PyRuntime}
    (self : t) (df : DataFrame) (schema_name : string) (schema : Model) :
  mode self = "filter" \/ mode self = "flag" ->
  lookup SCHEMAS schema_name = Some schema ->
  exists cols accepted errs,
    get_schema_columns schema_name = inr cols
    /\ (forall d out, model_validate schema d = inr out -> keys out = cols)
    /\ validate self df schema_name = inr (accepted, errs)
    /\ (existsb (is_valid schema) (iterrows df) = true ->
        incl cols (columns accepted)).
Proof.
  intros Hmode Hs.
  assert (Hlenient : mode self <> "strict").
  { destruct Hmode as [-> | ->]; discriminate. }
  unfold validate, get_schema_columns.
  rewrite Hs, (validate_rows_lenient _ _ _ _ _ Hlenient). simpl.
  eexists _, _, _. split; [reflexivity|].
  split; [intros d out; apply model_validate_accepted_keys|].
  split; [reflexivity|].
  intros Hex k Hk. simpl.
  apply existsb_exists in Hex as (r & Hr & Hv).
  unfold is_valid in Hv.
  destruct (model_validate schema (row_dict (snd r))) as [|validated] eqn:Hm;
    [discriminate|].
  destruct (row_output self schema r) as [o|] eqn:Ho.
  - apply (union_keys_contains _ o); [now apply (In_collect _ _ r)|].
    unfold row_output in Ho. rewrite Hm in Ho.
    assert (Hin : In k (keys (dict_update (to_dict (snd r)) validated))).
    { apply keys_dict_update. right.
      now rewrite (model_validate_accepted_keys _ _ _ Hm). }
    destruct (String.eqb (mode self) "flag"); injection Ho as <-.
    + apply keys_dict_set. now right.
    + exact Hin.
  - unfold row_output in Ho. rewrite Hm in Ho. discriminate.
Qed.

Lemma accepted_frame_has_schema_columns_witness :
  exists cols accepted errs,
    get_schema_columns (RT := Simple.runtime) "customers" = inr cols
    /\ (forall d out,
           model_validate (RT := Simple.runtime)
             (CustomerRecord (RT := Simple.runtime)) d = inr out ->
           keys out = cols)
    /\ validate (RT := Simple.runtime) (mk "filter") Samples.two_customers
         "customers" = inr (accepted, errs)
    /\ (existsb (is_valid (RT := Simple.runtime)
                   (CustomerRecord (RT := Simple.runtime)))
          (iterrows Samples.two_customers) = true ->
        incl cols (columns accepted)).
Proof.
  apply (accepted_frame_has_schema_columns (RT := Simple.runtime)
           (mk "filter") Samples.two_customers "customers"
           (CustomerRecord (RT := Simple.runtime))).
  - left. reflexivity.
  - reflexivity.
Defined.

(** X8: a validation error lists one entry per failing field, in the
    declaration order of the fields and located at the field; it is never
    empty and is titled with the model's name. *)
Theorem one_error_per_failing_field {RT : PyRuntime}
    (m : Model) (d : dict) (e : ValidationError) :
  model_validate m d = inl e ->
  map err_loc (error_list e)
  = map field_name (filter (field_fails d) (model_fields m))
  /\ error_list e <> []
  /\ title e = model_name m.
Proof.
  unfold model_validate. intros H.
  destruct (validate_fields_passed (model_fields m) d) as [_ He].
  destruct (validate_fields (model_fields m) d) as [[|e0 errs] out];
    [discriminate|].
  injection H as <-. simpl in *. repeat split; [exact He|discriminate].
Qed.

Lemma one_error_per_failing_field_witness :
  exists e,
    model_validate (RT := Simple.runtime)
      (CustomerRecord (RT := Simple.runtime))
      [("customer_id", VStr ""); ("email", VStr "bad")] = inl e
    /\ map err_loc (error_list e)
       = ["customer_id"; "first_name"; "last_name"; "email"; "country"].
Proof.
  eexists. split; [reflexivity|].
  apply (one_error_per_failing_field (RT := Simple.runtime)
           (CustomerRecord (RT := Simple.runtime))
           [("customer_id", VStr ""); ("email", VStr "bad")]).
  reflexivity.
Defined.

(** ** Required columns *)

Lemma dict_get_to_dict_absent (row : Series) (k : string) :
  ~ In k (map fst row) -> dict_get (to_dict row) k = None.
Proof.
  intros H. unfold to_dict, dict_of_pairs.
  now rewrite dict_get_update_other.
Qed.

Lemma iterrows_columns (df : DataFrame) (r : Z * Series) (k : string) :
  In r (iterrows df) -> In k (map fst (snd r)) -> In k (columns df).
Proof.
  unfold iterrows. intros Hr Hk.
  apply in_map_iff in Hr as ([idx cells] & <- & _). simpl in Hk.
  apply in_map_iff in Hk as ([k' v] & <- & Hkv).
  now apply in_combine_l in Hkv.
Qed.

Lemma collect_In_inv {A B : Type} (f : A -> option B) (l : list A) (y : B) :
  In y (collect f l) -> exists x, In x l /\ f x = Some y.
Proof.
  induction l as [|a l IH]; simpl; [easy|].
  destruct (f a) as [b|] eqn:Hf.
  - intros [<-|Hin]; [eauto|].
    destruct (IH Hin) as (x & Hx & Hfx). eauto.
  - intros Hin. destruct (IH Hin) as (x & Hx & Hfx). eauto.
Qed.

Section RequiredFacts.
Context {RT : PyRuntime}.

Lemma validate_fields_reports (fs : list FieldInfo) (d : dict)
    (f : FieldInfo) (e : ErrorDetail) :
  In f fs -> validate_field f d = inl e ->
  In e (fst (validate_fields fs d)).
Proof.
  induction fs as [|g fs IH]; simpl; [easy|].
  intros [->|Hin] He.
  - destruct (validate_fields fs d). rewrite He. now left.
  - specialize (IH Hin He). destruct (validate_fields fs d) as [errs out].
    destruct (validate_field g d); simpl in *; auto.
Qed.

(** A mapping without a required field is rejected, with a "missing"
    entry for that field. *)
Lemma missing_required_field (m : Model) (d : dict) (f : FieldInfo) :
  In f (model_fields m) -> optional f = false ->
  dict_get d (field_name f) = None ->
  exists e,
    model_validate m d = inl e
    /\ In (mkErrorDetail "missing" (field_name f) (InputMapping d))
          (error_list e).
Proof.
  intros Hin Hopt Hget.
  assert (Hf : validate_field f d
               = inl (mkErrorDetail "missing" (field_name f) (InputMapping d))).
  { unfold validate_field. now rewrite Hget, Hopt. }
  pose proof (validate_fields_reports _ d f _ Hin Hf) as Hrep.
  unfold model_validate.
  destruct (validate_fields (model_fields m) d) as [[|e0 errs] out];
    [destruct Hrep|].
  eexists. split; [reflexivity|exact Hrep].
Qed.

End RequiredFacts.

(** X9: when the dataset lacks a column that the schema requires, no row
    is accepted: filter mode returns an empty frame and one error per
    row, each with a "missing" entry for that field. *)
Theorem missing_required_column_rejects_every_row {RT : PyRuntime}
    (df : DataFrame) (schema_name : string) (schema : Model)
    (f : FieldInfo) :
  lookup SCHEMAS schema_name = Some schema ->
  In f (model_fields schema) ->
  optional f = false ->
  ~ In (field_name f) (columns df) ->
  exists errs,
    validate (mk "filter") df schema_name = inr (mkDataFrame [] [], errs)
    /\ List.length errs = len df
    /\ Forall (fun info =>
                 exists d,
                   In (mkErrorDetail "missing" (field_name f) (InputMapping d))
                      (errors info)) errs.
Proof.
  intros Hs Hin Hopt Hcol. unfold validate.
  rewrite Hs, validate_rows_lenient by discriminate. simpl.
  assert (Hrows : forall r, In r (iterrows df) ->
            exists e, model_validate schema (row_dict (snd r)) = inl e
              /\ In (mkErrorDetail "missing" (field_name f)
                       (InputMapping (row_dict (snd r)))) (error_list e)).
  { intros r Hr. apply missing_required_field; try assumption.
    rewrite dict_get_row_dict.
    destruct (startswith_underscore (field_name f)); [reflexivity|].
    rewrite dict_get_to_dict_absent; [reflexivity|].
    intros Hk. apply Hcol. now apply (iterrows_columns df r). }
  assert (Hnone : collect (row_output (mk "filter") schema) (iterrows df) = []).
  { induction (iterrows df) as [|r rows IH]; cbn [collect]; [reflexivity|].
    destruct (Hrows r (or_introl eq_refl)) as (e & He & _).
    unfold row_output at 1. rewrite He. simpl.
    apply IH. intros r' Hr'. apply Hrows. now right. }
  rewrite Hnone. eexists. split; [reflexivity|]. split.
  - pose proof (length_collect_outputs_filter schema (iterrows df)) as Hlen.
    rewrite Hnone in Hlen. simpl in Hlen. now rewrite Hlen, len_iterrows.
  - apply Forall_forall. intros info Hinfo.
    apply collect_In_inv in Hinfo as (r & Hr & Hinfo).
    destruct (Hrows r Hr) as (e & He & Hmiss).
    unfold row_error in Hinfo. rewrite He in Hinfo.
    injection Hinfo as <-. simpl. eauto.
Qed.

Lemma missing_required_column_rejects_every_row_witness :
  exists errs,
    validate (RT := Simple.runtime) (mk "filter") Samples.one_product
      "customers" = inr (mkDataFrame [] [], errs)
    /\ List.length errs = len Samples.one_product
    /\ Forall (fun info =>
                 exists d,
                   In (mkErrorDetail "missing" "email" (InputMapping d))
                      (errors info)) errs.
Proof.
  apply (missing_required_column_rejects_every_row (RT := Simple.runtime)
           Samples.one_product "customers"
           (CustomerRecord (RT := Simple.runtime))
           (mkField "email" TStr false
              [pattern "^[\w\.-]+@[\w\.-]+\.\w+$"]
              (Some (lowercase_email (RT := Simple.runtime))))).
  - reflexivity.
  - simpl. auto.
  - reflexivity.
  - simpl. intuition discriminate.
Defined.

(** ** What an accepted record satisfies *)

Section RecordFacts.
Context {RT : PyRuntime}.

(** In an accepted mapping every field passed, and its validated value is
    what the output holds under its name. *)
Lemma accepted_field (m : Model) (d out : dict) (f : FieldInfo) :
  NoDup (map field_name (model_fields m)) ->
  model_validate m d = inr out ->
  In f (model_fields m) ->
  exists v, validate_field f d = inr v
            /\ dict_get out (field_name f) = Some v.
Proof.
  unfold model_validate. intros Hnd H Hin.
  assert (Hgen : forall fs,
            NoDup (map field_name fs) -> fst (validate_fields fs d) = [] ->
            In f fs ->
            exists v, validate_field f d = inr v
                      /\ dict_get (snd (validate_fields fs d)) (field_name f)
                         = Some v).
  { induction fs as [|g fs IH]; simpl; [easy|].
    intros Hnd' Herr Hin'. inversion Hnd' as [|? ? Hnot Hnd'']; subst.
    destruct (validate_fields fs d) as [errs o] eqn:Hfs.
    destruct (validate_field g d) as [e|v] eqn:Hg; simpl in *;
      [discriminate|].
    destruct Hin' as [->|Hin'].
    - exists v. now rewrite Hg, String.eqb_refl.
    - destruct (IH Hnd'' Herr Hin') as (v' & Hv' & Hget).
      exists v'. split; [exact Hv'|].
      destruct (String.eqb_spec (field_name g) (field_name f)) as [Heq|_];
        [|exact Hget].
      exfalso. apply Hnot. rewrite Heq. now apply in_map. }
  destruct (validate_fields (model_fields m) d) as [[|e errs] o] eqn:Hfs;
    [|discriminate].
  injection H as <-.
  specialize (Hgen (model_fields m) Hnd). rewrite Hfs in Hgen.
  now apply Hgen.
Qed.

Lemma float_gt_ge (f : pyfloat) (b : Z) :
  float_gt f b = true -> float_ge f b = true.
Proof.
  destruct f as [| |q]; simpl; try easy.
  unfold Qlt_bool. intros H. apply negb_true_iff in H.
  apply Qle_bool_iff. destruct (Qlt_le_dec (inject_Z b) q) as [Hlt|Hle].
  - now apply Qlt_le_weak.
  - apply Qle_bool_iff in Hle. congruence.
Qed.

Lemma round_half_even_nonneg (n : Z) (d : positive) :
  (0 <= n)%Z -> (0 <= round_half_even n d)%Z.
Proof.
  intros Hn. unfold round_half_even.
  assert (Hfl : (0 <= n / Zpos d)%Z) by (apply Z.div_pos; lia).
  destruct (2 * (n mod Zpos d) <? Zpos d)%Z; [exact Hfl|].
  destruct (Zpos d <? 2 * (n mod Zpos d))%Z; [lia|].
  destruct (Z.even (n / Zpos d)); lia.
Qed.

(** Rounding a number that is not negative gives a number that is not
    negative. *)
Lemma round2_nonneg (f : pyfloat) :
  float_ge f 0 = true -> float_ge (round2 f) 0 = true.
Proof.
  destruct f as [| |q]; try easy.
  unfold float_ge, round2. intros H.
  apply Qle_bool_iff in H. apply Qle_bool_iff.
  unfold Qle in *. cbn [Qnum Qden inject_Z] in *.
  pose proof (round_half_even_nonneg (100 * Qnum q) (Qden q)) as Hr.
  lia.
Qed.

End RecordFacts.

(** X10: an accepted product whose price and cost came in as floats had a
    price above zero and a cost of at least zero, and leaves with both
    rounded to two decimals; the rounded values are not negative (the
    rounded price may be zero). *)
Theorem accepted_product_is_rounded {RT : PyRuntime}
    (d out : dict) (p c : pyfloat) :
  model_validate ProductRecord d = inr out ->
  dict_get d "price" = Some (VFloat p) ->
  dict_get d "cost" = Some (VFloat c) ->
  float_gt p 0 = true /\ float_ge c 0 = true
  /\ dict_get out "price" = Some (VFloat (round2 p))
  /\ dict_get out "cost" = Some (VFloat (round2 c))
  /\ float_ge (round2 p) 0 = true /\ float_ge (round2 c) 0 = true.
Proof.
  intros Hm Hp Hc.
  assert (Hnd : NoDup (map field_name (model_fields ProductRecord))).
  { simpl. repeat (constructor; [simpl; intuition discriminate|]).
    constructor. }
  destruct (accepted_field ProductRecord d out
              (mkField "price" TFloat false [gt 0] (Some round_decimal))
              Hnd Hm) as (vp & Hvp & Hop); [simpl; auto 10|].
  destruct (accepted_field ProductRecord d out
              (mkField "cost" TFloat false [ge 0] (Some round_decimal))
              Hnd Hm) as (vc & Hvc & Hoc); [simpl; auto 10|].
  unfold validate_field in Hvp, Hvc. simpl in Hvp, Hvc, Hop, Hoc.
  rewrite Hp in Hvp. rewrite Hc in Hvc. simpl in Hvp, Hvc.
  destruct (float_gt p 0) eqn:Hgt; [|discriminate].
  destruct (float_ge c 0) eqn:Hge; [|discriminate].
  injection Hvp as <-. injection Hvc as <-.
  repeat split; try assumption.
  - apply round2_nonneg. now apply float_gt_ge.
  - now apply round2_nonneg.
Qed.

Lemma accepted_product_is_rounded_witness :
  exists out,
    model_validate (RT := Simple.runtime) ProductRecord
      (combine Samples.product_columns
         (Samples.product "P1" (4 # 1000) (5 # 1))) = inr out
    /\ dict_get out "price" = Some (VFloat (round2 (FFin (4 # 1000))))
    /\ float_ge (round2 (FFin (4 # 1000))) 0 = true.
Proof.
  eexists. split; [reflexivity|].
  match goal with
  | |- dict_get ?o _ = _ /\ _ =>
      destruct (accepted_product_is_rounded (RT := Simple.runtime)
                  (combine Samples.product_columns
                     (Samples.product "P1" (4 # 1000) (5 # 1)))
                  o (FFin (4 # 1000)) (FFin (5 # 1)) eq_refl eq_refl eq_refl)
        as (_ & _ & Hprice & _ & Hnonneg & _)
  end.
  split; [exact Hprice|exact Hnonneg].
Defined.

(** X11: a required [str] field takes nothing but a [str]: in an accepted
    mapping each such field is present and holds a string (a number, a
    boolean or a missing value in its place rejects the row), and the
    string satisfies the field's constraints as it came in. *)
Theorem required_str_field_holds_a_string {RT : PyRuntime}
    (m : Model) (d out : dict) (f : FieldInfo) :
  NoDup (map field_name (model_fields m)) ->
  model_validate m d = inr out ->
  In f (model_fields m) ->
  annotation f = TStr ->
  optional f = false ->
  exists s,
    dict_get d (field_name f) = Some (VStr s)
    /\ first_failing (constraints f) (VStr s) = None
    /\ dict_get out (field_name f) = Some (run_after f (VStr s)).
Proof.
  intros Hnd Hm Hin Hty Hopt.
  destruct (accepted_field m d out f Hnd Hm Hin) as (v & Hv & Hout).
  unfold validate_field in Hv. rewrite Hopt, Hty in Hv.
  destruct (dict_get d (field_name f)) as [x|]; [|discriminate].
  destruct x; simpl in Hv; try discriminate.
  exists s. split; [reflexivity|].
  destruct (first_failing (constraints f) (VStr s)); [discriminate|].
  injection Hv as <-. now split.
Qed.

Lemma required_str_field_holds_a_string_witness :
  exists out s,
    model_validate (RT := Simple.runtime)
      (CustomerRecord (RT := Simple.runtime))
      (combine Samples.customer_columns (Samples.customer "C1" "A@b.com"))
    = inr out
    /\ dict_get
         (combine Samples.customer_columns (Samples.customer "C1" "A@b.com"))
         "email" = Some (VStr s)
    /\ dict_get out "email" = Some (VStr (Simple.lower s)).
Proof.
  eexists. exists "A@b.com". split; [reflexivity|]. split; [reflexivity|].
  match goal with
  | |- dict_get ?o _ = _ =>
      destruct (required_str_field_holds_a_string (RT := Simple.runtime)
                  (CustomerRecord (RT := Simple.runtime))
                  (combine Samples.customer_columns
                     (Samples.customer "C1" "A@b.com"))
                  o
                  (mkField "email" TStr false
                     [pattern "^[\w\.-]+@[\w\.-]+\.\w+$"]
                     (Some (lowercase_email (RT := Simple.runtime)))))
        as (s & Hs & _ & Hout)
  end.
  - simpl. repeat (constructor; [simpl; intuition discriminate|]).
    constructor.
  - reflexivity.
  - simpl. auto 10.
  - reflexivity.
  - reflexivity.
  - injection Hs as <-. exact Hout.
Defined.

(** * The extractors *)

Lemma existsb_eqb_In (c : string) (l : list string) :
  existsb (String.eqb c) l = true <-> In c l.
Proof.
  rewrite existsb_exists. split.
  - intros (x & Hx & Heq). apply String.eqb_eq in Heq. now subst.
  - intros H. exists c. split; [exact H|apply String.eqb_refl].
Qed.

Lemma missing_columns_spec (df : DataFrame) (required_columns : list string)
    (c : string) :
  In c (BaseExtractor.missing_columns df required_columns)
  <-> In c required_columns /\ ~ In c (columns df).
Proof.
  unfold BaseExtractor.missing_columns.
  rewrite nodup_In, filter_In, negb_true_iff.
  rewrite <- (existsb_eqb_In c (columns df)).
  destruct (existsb (String.eqb c) (columns df)); intuition congruence.
Qed.

(** X12: [validate_schema] returns [True] exactly when every required
    column is a column of the frame; otherwise it raises a [ValueError]
    naming the required columns that are absent, each once. *)
Theorem validate_schema_checks_required_columns
    (str_of_set : list string -> string) (df : DataFrame)
    (required_columns : list string) :
  (BaseExtractor.validate_schema str_of_set df required_columns = inr true
   <-> incl required_columns (columns df))
  /\ (~ incl required_columns (columns df) ->
      exists missing,
        BaseExtractor.validate_schema str_of_set df required_columns
        = inl (ValueError
                 ("Missing required columns: " ++ str_of_set missing))
        /\ missing <> [] /\ NoDup missing
        /\ forall c, In c missing
                     <-> In c required_columns /\ ~ In c (columns df)).
Proof.
  unfold BaseExtractor.validate_schema.
  pose proof (missing_columns_spec df required_columns) as Hspec.
  assert (Hnd : NoDup (BaseExtractor.missing_columns df required_columns))
    by apply NoDup_nodup.
  destruct (BaseExtractor.missing_columns df required_columns) as [|m ms].
  - assert (Hincl : incl required_columns (columns df)).
    { intros c Hc.
      destruct (in_dec string_dec c (columns df)) as [Hin|Hnot];
        [exact Hin|].
      exfalso. now apply (proj2 (Hspec c) (conj Hc Hnot)). }
    split; [tauto|]. intros Hnot. contradiction.
  - assert (Hnincl : ~ incl required_columns (columns df)).
    { intros Hincl. destruct (proj1 (Hspec m) (or_introl eq_refl)) as [Hr Hn].
      apply Hn, Hincl, Hr. }
    split.
    + split; [discriminate|contradiction].
    + intros _. exists (m :: ms). split; [reflexivity|].
      split; [discriminate|]. split; [exact Hnd|exact Hspec].
Qed.

Lemma validate_schema_checks_required_columns_witness :
  exists missing,
    BaseExtractor.validate_schema (String.concat ", ")
      Samples.one_product ["product_id"; "sku"; "sku"]
    = inl (ValueError
             ("Missing required columns: " ++ String.concat ", " missing))
    /\ missing <> [] /\ NoDup missing
    /\ forall c, In c missing
                 <-> In c ["product_id"; "sku"; "sku"]
                     /\ ~ In c (columns Samples.one_product).
Proof.
  apply (proj2 (validate_schema_checks_required_columns (String.concat ", ")
                  Samples.one_product ["product_id"; "sku"; "sku"])).
  intros H. specialize (H "sku"). simpl in H.
  destruct H as [H|[H|[H|[H|[H|[]]]]]]; try discriminate. auto.
Defined.

(** ** Column assignment *)

Lemma dict_set_map_keyed (g : string -> value -> value) (k : string)
    (v : value) (d : dict) :
  map (fun kv => (fst kv, g (fst kv) (snd kv))) (dict_set k v d)
  = dict_set k (g k v) (map (fun kv => (fst kv, g (fst kv) (snd kv))) d).
Proof.
  induction d as [|[k0 v0] d IH]; simpl; [reflexivity|].
  destruct (String.eqb_spec k0 k) as [->|_]; simpl; [reflexivity|].
  now rewrite IH.
Qed.

Lemma to_dict_map_keyed (g : string -> value -> value) (row : Series) :
  to_dict (map (fun kv => (fst kv, g (fst kv) (snd kv))) row)
  = map (fun kv => (fst kv, g (fst kv) (snd kv))) (to_dict row).
Proof.
  unfold to_dict, dict_of_pairs, dict_update.
  change (@nil (string * value))
    with (map (fun kv => (fst kv, g (fst kv) (snd kv))) []) at 1.
  generalize (@nil (string * value)) as d.
  induction row as [|[k v] row IH]; intros d; simpl; [reflexivity|].
  rewrite <- dict_set_map_keyed. apply IH.
Qed.

Lemma dict_get_map_keyed (g : string -> value -> value) (d : dict)
    (k : string) :
  dict_get (map (fun kv => (fst kv, g (fst kv) (snd kv))) d) k
  = option_map (g k) (dict_get d k).
Proof.
  induction d as [|[k0 v0] d IH]; simpl; [reflexivity|].
  destruct (String.eqb_spec k0 k) as [->|_]; [reflexivity|exact IH].
Qed.

Lemma dict_get_In_key (d : dict) (k : string) :
  In k (keys d) -> exists v, dict_get d k = Some v.
Proof.
  induction d as [|[k0 v0] d IH]; simpl; [easy|].
  intros [->|Hin].
  - rewrite String.eqb_refl. eauto.
  - destruct (String.eqb k0 k); eauto.
Qed.

Lemma to_dict_has_key (row : Series) (k : string) :
  In k (map fst row) -> exists v, dict_get (to_dict row) k = Some v.
Proof.
  intros H. apply dict_get_In_key. unfold to_dict, dict_of_pairs.
  apply keys_dict_update. now right.
Qed.

(** The cells of a row after [setitem], read through [to_dict]. *)
Lemma dict_get_row_setitem (present : bool) (c : string) (v : value)
    (row : Series) (k : string) :
  (present = true -> In c (map fst row)) ->
  dict_get (to_dict (row_setitem present c v row)) k
  = if String.eqb c k then Some v else dict_get (to_dict row) k.
Proof.
  intros Hpresent. unfold row_setitem. destruct present.
  - rewrite (to_dict_map_keyed (fun k x => if String.eqb k c then v else x)).
    rewrite (dict_get_map_keyed (fun k x => if String.eqb k c then v else x)).
    rewrite (String.eqb_sym k c).
    destruct (String.eqb_spec c k) as [<-|_].
    + destruct (to_dict_has_key row c (Hpresent eq_refl)) as [x ->].
      reflexivity.
    + now destruct (dict_get (to_dict row) k).
  - rewrite to_dict_app. apply dict_get_set.
Qed.

Lemma filter_dict_set_hidden (p : string -> bool) (c : string) (v : value)
    (d : dict) :
  p c = false ->
  filter (fun kv => p (fst kv)) (dict_set c v d)
  = filter (fun kv => p (fst kv)) d.
Proof.
  intros Hp. induction d as [|[k0 v0] d IH]; simpl.
  - now rewrite Hp.
  - destruct (String.eqb_spec k0 c) as [->|_]; simpl.
    + now rewrite Hp.
    + now rewrite IH.
Qed.

(** Writing a metadata column does not change what the schema sees. *)
Lemma row_dict_row_setitem (present : bool) (c : string) (v : value)
    (row : Series) :
  startswith_underscore c = true ->
  row_dict (row_setitem present c v row) = row_dict row.
Proof.
  intros Hc. unfold row_dict, row_setitem. destruct present.
  - rewrite (to_dict_map_keyed (fun k x => if String.eqb k c then v else x)).
    f_equal.
    induction (to_dict row) as [|[k0 v0] d IH]; simpl; [reflexivity|].
    destruct (String.eqb_spec k0 c) as [->|Hne]; simpl.
    + rewrite Hc. simpl. exact IH.
    + destruct (startswith_underscore k0); simpl; [exact IH|now rewrite IH].
  - rewrite to_dict_app. f_equal.
    apply (filter_dict_set_hidden (fun k => negb (startswith_underscore k))).
    now rewrite Hc.
Qed.

Lemma combine_snoc {A B : Type} (l1 : list A) (l2 : list B) (a : A) (b : B) :
  List.length l1 = List.length l2 ->
  combine (l1 ++ [a]) (l2 ++ [b]) = combine l1 l2 ++ [(a, b)].
Proof.
  revert l2. induction l1 as [|x l1 IH]; intros [|y l2] H; simpl in *;
    try discriminate; [reflexivity|].
  f_equal. apply IH. now injection H.
Qed.

Lemma combine_map_combine (h : string * value -> value) (cols : list string)
    (cells : list value) :
  List.length cells = List.length cols ->
  combine cols (map h (combine cols cells))
  = map (fun kv => (fst kv, h kv)) (combine cols cells).
Proof.
  revert cells. induction cols as [|c cols IH]; intros [|x cells] H;
    simpl in *; try discriminate; [reflexivity|].
  f_equal. apply IH. now injection H.
Qed.

(** On a rectangular frame [setitem] acts row by row. *)
Lemma iterrows_setitem (c : string) (v : value) (df : DataFrame) :
  rectangular df = true ->
  iterrows (setitem c v df)
  = map (fun r =>
           (fst r,
            row_setitem (existsb (String.eqb c) (columns df)) c v (snd r)))
        (iterrows df).
Proof.
  unfold rectangular, iterrows, setitem, row_setitem. intros Hrect.
  rewrite forallb_forall in Hrect.
  destruct (existsb (String.eqb c) (columns df)); simpl;
    rewrite !map_map; apply map_ext_in; intros [idx cells] Hin; simpl;
    specialize (Hrect _ Hin); apply Nat.eqb_eq in Hrect; simpl in Hrect.
  - f_equal.
    now rewrite (combine_map_combine
                   (fun kv => if String.eqb (fst kv) c then v else snd kv)).
  - now rewrite combine_snoc by (symmetry; exact Hrect).
Qed.

Lemma rectangular_setitem (c : string) (v : value) (df : DataFrame) :
  rectangular df = true -> rectangular (setitem c v df) = true.
Proof.
  unfold rectangular, setitem. intros Hrect.
  rewrite forallb_forall in Hrect. apply forallb_forall.
  destruct (existsb (String.eqb c) (columns df)); simpl;
    intros r Hr; apply in_map_iff in Hr as ([idx cells] & <- & Hin);
    specialize (Hrect _ Hin); apply Nat.eqb_eq in Hrect; simpl in *;
    apply Nat.eqb_eq.
  - rewrite length_map, length_combine. lia.
  - rewrite !length_app. simpl. lia.
Qed.

Lemma len_setitem (c : string) (v : value) (df : DataFrame) :
  len (setitem c v df) = len df.
Proof.
  unfold len, setitem.
  destruct (existsb (String.eqb c) (columns df)); simpl; apply length_map.
Qed.

Lemma columns_setitem (c : string) (v : value) (df : DataFrame) (k : string) :
  In k (columns (setitem c v df)) <-> k = c \/ In k (columns df).
Proof.
  unfold setitem.
  destruct (existsb (String.eqb c) (columns df)) eqn:Hex; simpl.
  - apply existsb_eqb_In in Hex. intuition congruence.
  - rewrite in_app_iff. simpl. intuition.
Qed.

Lemma iterrows_keys (df : DataFrame) (r : Z * Series) (k : string) :
  rectangular df = true ->
  In r (iterrows df) -> In k (columns df) -> In k (map fst (snd r)).
Proof.
  unfold rectangular, iterrows. intros Hrect Hr Hk.
  rewrite forallb_forall in Hrect.
  apply in_map_iff in Hr as ([idx cells] & <- & Hin). simpl.
  specialize (Hrect _ Hin). apply Nat.eqb_eq in Hrect. simpl in Hrect.
  clear Hin. revert cells Hrect.
  induction (columns df) as [|c cols IH]; intros [|x cells] H; simpl in *;
    try discriminate; [easy|].
  destruct Hk as [->|Hk]; [now left|right].
  apply IH; [exact Hk|now injection H].
Qed.

(** The cells of a frame after [setitem]. *)
Lemma cell_at_setitem (c : string) (v : value) (df : DataFrame) (i : nat)
    (k : string) :
  rectangular df = true ->
  (i < len df)%nat ->
  cell_at (setitem c v df) i k
  = if String.eqb c k then Some v else cell_at df i k.
Proof.
  intros Hrect Hi. unfold cell_at.
  rewrite iterrows_setitem, map_map by assumption. simpl.
  rewrite <- (map_map snd
                (row_setitem (existsb (String.eqb c) (columns df)) c v)).
  rewrite nth_error_map.
  destruct (nth_error (map snd (iterrows df)) i) as [row|] eqn:Hrow.
  - simpl. apply dict_get_row_setitem. intros Hex.
    apply existsb_eqb_In in Hex.
    apply nth_error_In in Hrow.
    apply in_map_iff in Hrow as (r & <- & Hr).
    now apply (iterrows_keys df r c).
  - apply nth_error_None in Hrow.
    rewrite length_map, len_iterrows in Hrow. lia.
Qed.

(** The frame after [add_metadata], cell by cell. *)
Lemma add_metadata_cells
    (self : BaseExtractor.t) (now : Z) (df : DataFrame) :
  rectangular df = true ->
  len (BaseExtractor.add_metadata self now df) = len df
  /\ rectangular (BaseExtractor.add_metadata self now df) = true
  /\ map fst (iterrows (BaseExtractor.add_metadata self now df))
     = map fst (iterrows df)
  /\ (forall k,
         In k (columns (BaseExtractor.add_metadata self now df))
         <-> k = "_source" \/ k = "_loaded_at" \/ In k (columns df))
  /\ forall i,
      (i < len df)%nat ->
      cell_at (BaseExtractor.add_metadata self now df) i "_source"
      = Some (VStr (BaseExtractor.source_name self))
      /\ cell_at (BaseExtractor.add_metadata self now df) i "_loaded_at"
         = Some (VTimestamp now)
      /\ forall k,
          k <> "_source" -> k <> "_loaded_at" ->
          cell_at (BaseExtractor.add_metadata self now df) i k
          = cell_at df i k.
Proof.
  intros Hrect. unfold BaseExtractor.add_metadata.
  pose proof (rectangular_setitem "_loaded_at" (VTimestamp now) df Hrect)
    as Hrect1.
  split; [now rewrite !len_setitem|].
  split; [now apply rectangular_setitem|].
  split.
  { rewrite !iterrows_setitem, !map_map by assumption. reflexivity. }
  split.
  { intros k. rewrite !columns_setitem. tauto. }
  intros i Hi.
  assert (Hi1 : (i < len (setitem "_loaded_at" (VTimestamp now) df))%nat)
    by now rewrite len_setitem.
  repeat split.
  - now rewrite cell_at_setitem by assumption.
  - rewrite !cell_at_setitem by assumption. reflexivity.
  - intros k H1 H2. rewrite !cell_at_setitem by assumption.
    destruct (String.eqb_spec "_source" k); [congruence|].
    destruct (String.eqb_spec "_loaded_at" k); [congruence|reflexivity].
Qed.

(** X13: on a rectangular frame [add_metadata] keeps the rows, their
    index labels and all other cells, and stamps every row with the
    source name under [_source] and the instant of the call under
    [_loaded_at]; columns of these names that the frame already has are
    overwritten. *)
Theorem add_metadata_stamps_every_row
    (self : BaseExtractor.t) (now : Z) (df : DataFrame) :
  rectangular df = true ->
  len (BaseExtractor.add_metadata self now df) = len df
  /\ rectangular (BaseExtractor.add_metadata self now df) = true
  /\ map fst (iterrows (BaseExtractor.add_metadata self now df))
     = map fst (iterrows df)
  /\ (forall k,
         In k (columns (BaseExtractor.add_metadata self now df))
         <-> k = "_source" \/ k = "_loaded_at" \/ In k (columns df))
  /\ forall i,
      (i < len df)%nat ->
      cell_at (BaseExtractor.add_metadata self now df) i "_source"
      = Some (VStr (BaseExtractor.source_name self))
      /\ cell_at (BaseExtractor.add_metadata self now df) i "_loaded_at"
         = Some (VTimestamp now)
      /\ forall k,
          k <> "_source" -> k <> "_loaded_at" ->
          cell_at (BaseExtractor.add_metadata self now df) i k
          = cell_at df i k.
Proof. apply add_metadata_cells. Qed.

Lemma add_metadata_stamps_every_row_witness :
  cell_at
    (BaseExtractor.add_metadata (BaseExtractor.mk "csv_products") 1700000000
       Samples.one_product) 0 "_source" = Some (VStr "csv_products")
  /\ cell_at
       (BaseExtractor.add_metadata (BaseExtractor.mk "csv_products")
          1700000000 Samples.one_product) 0 "price"
     = cell_at Samples.one_product 0 "price".
Proof.
  destruct (add_metadata_stamps_every_row (BaseExtractor.mk "csv_products")
              1700000000 Samples.one_product eq_refl)
    as (_ & _ & _ & _ & Hcells).
  destruct (Hcells 0%nat) as (Hsrc & _ & Hother); [unfold len; simpl; lia|].
  split; [exact Hsrc|]. apply Hother; discriminate.
Defined.

Section StampedFacts.
Context {RT : PyRuntime}.

(** The loop decides by the index labels and by what the schema sees of
    the rows. *)
Lemma validate_rows_same_view (self : t) (schema : Model)
    (rows' rows : list (Z * Series)) :
  Forall2 (fun r' r => fst r' = fst r
                       /\ row_dict (snd r') = row_dict (snd r)) rows' rows ->
  forall valid_rows' valid_rows errs' errs,
    List.length valid_rows' = List.length valid_rows ->
    map (fun info => (row_index info, errors info)) errs'
    = map (fun info => (row_index info, errors info)) errs ->
    match validate_rows self schema rows' valid_rows' errs',
          validate_rows self schema rows valid_rows errs with
    | inl e', inl e => e' = e
    | inr (out', es'), inr (out, es) =>
        List.length out' = List.length out
        /\ map (fun info => (row_index info, errors info)) es'
           = map (fun info => (row_index info, errors info)) es
    | _, _ => False
    end.
Proof.
  induction 1 as [|[idx' row'] [idx row] rows' rows [Hidx Hview] _ IH];
    intros valid_rows' valid_rows errs' errs Hlen Herrs; simpl in *.
  - now split.
  - subst idx'. rewrite Hview.
    destruct (model_validate schema (row_dict row)) as [e|validated].
    + destruct (String.eqb (mode self) "strict"); [reflexivity|].
      destruct (String.eqb (mode self) "flag"); apply IH;
        rewrite ?length_app, ?map_app; simpl; congruence.
    + apply IH; [|assumption]. rewrite !length_app. simpl. congruence.
Qed.

End StampedFacts.

(** X14: stamping a rectangular frame with metadata does not change what
    [validate] decides: with and without the stamp the call raises the
    same exception, or accepts the same number of rows and reports the
    same row indexes with the same field errors. *)
Theorem add_metadata_keeps_the_verdicts {RT : PyRuntime}
    (self : t) (ext : BaseExtractor.t) (now : Z) (df : DataFrame)
    (schema_name : string) :
  rectangular df = true ->
  match validate self (BaseExtractor.add_metadata ext now df) schema_name,
        validate self df schema_name with
  | inl e', inl e => e' = e
  | inr (accepted', errs'), inr (accepted, errs) =>
      len accepted' = len accepted
      /\ map (fun info => (row_index info, errors info)) errs'
         = map (fun info => (row_index info, errors info)) errs
  | _, _ => False
  end.
Proof.
  intros Hrect. unfold validate.
  destruct (lookup SCHEMAS schema_name) as [schema|]; [|reflexivity].
  assert (Hrows :
    Forall2 (fun r' r => fst r' = fst r
                         /\ row_dict (snd r') = row_dict (snd r))
      (iterrows (BaseExtractor.add_metadata ext now df)) (iterrows df)).
  { unfold BaseExtractor.add_metadata.
    rewrite !iterrows_setitem, map_map
      by (try apply rectangular_setitem; assumption).
    induction (iterrows df) as [|r rows IH]; simpl; constructor;
      [|exact IH].
    simpl. split; [reflexivity|]. now rewrite !row_dict_row_setitem. }
  pose proof (validate_rows_same_view self schema _ _ Hrows [] [] [] []
                eq_refl eq_refl) as H.
  destruct (validate_rows self schema
              (iterrows (BaseExtractor.add_metadata ext now df)) [] [])
    as [e'|[out' es']],
    (validate_rows self schema (iterrows df) [] []) as [e|[out es]];
    try exact H; try contradiction.
  now rewrite !len_DataFrame_of_dicts.
Qed.

Lemma add_metadata_keeps_the_verdicts_witness :
  match validate (RT := Simple.runtime) (mk "filter")
          (BaseExtractor.add_metadata (BaseExtractor.mk "api") 5
             Samples.two_customers) "customers",
        validate (RT := Simple.runtime) (mk "filter") Samples.two_customers
          "customers" with
  | inl e', inl e => e' = e
  | inr (accepted', errs'), inr (accepted, errs) =>
      len accepted' = len accepted
      /\ map (fun info => (row_index info, errors info)) errs'
         = map (fun info => (row_index info, errors info)) errs
  | _, _ => False
  end.
Proof.
  apply (add_metadata_keeps_the_verdicts (RT := Simple.runtime) (mk "filter")
           (BaseExtractor.mk "api") 5 Samples.two_customers "customers").
  reflexivity.
Defined.

(** X15: when the file exists and parses to a rectangular frame, the CSV
    extractor returns that frame stamped: the same number of rows, each
    with the source name under [_source], the name given to the
    constructor or, when none or an empty one is given, the stem of the
    file name. *)
Theorem csv_extract_stamps_the_source {HOST : Host}
    (path : string) (source_name : option string) (delim enc : string)
    (dates : option (list string)) (now : Z) (df : DataFrame) :
  path_exists path = true ->
  read_csv path delim enc (match dates with Some l => l | None => [] end)
  = inr df ->
  rectangular df = true ->
  exists stamped,
    CSVExtractor.extract
      (CSVExtractor.__init__ path source_name delim enc dates) now
    = inr stamped
    /\ len stamped = len df
    /\ forall i,
        (i < len df)%nat ->
        cell_at stamped i "_source"
        = Some (VStr (match source_name with
                      | Some (String c s) => String c s
                      | _ => stem path
                      end))
        /\ cell_at stamped i "_loaded_at" = Some (VTimestamp now).
Proof.
  intros Hex Hread Hrect. unfold CSVExtractor.extract, CSVExtractor.__init__.
  simpl. rewrite Hex, Hread. simpl. eexists. split; [reflexivity|].
  destruct (add_metadata_cells
              (BaseExtractor.mk (CSVExtractor.or_else source_name (stem path)))
              now df Hrect) as (Hlen & _ & _ & _ & Hcells).
  split; [exact Hlen|].
  intros i Hi. destruct (Hcells i Hi) as (Hsrc & Hat & _).
  split; [exact Hsrc|exact Hat].
Qed.

Lemma csv_extract_stamps_the_source_witness :
  exists stamped,
    CSVExtractor.extract (HOST := SimpleHost.host)
      (CSVExtractor.__init__ (HOST := SimpleHost.host)
         "/app/data/products.csv" (Some "csv_products") "," "utf-8" None)
      1700000000
    = inr stamped
    /\ len stamped = len SimpleHost.products_csv
    /\ forall i,
        (i < len SimpleHost.products_csv)%nat ->
        cell_at stamped i "_source" = Some (VStr "csv_products")
        /\ cell_at stamped i "_loaded_at" = Some (VTimestamp 1700000000).
Proof.
  apply (csv_extract_stamps_the_source (HOST := SimpleHost.host)
           "/app/data/products.csv" (Some "csv_products") "," "utf-8" None
           1700000000 SimpleHost.products_csv); reflexivity.
Defined.

(** * The pipeline *)

Section PipelineFacts.
Context {RT : PyRuntime} {WH : Warehouse} {HOST : Host}.
Import IngestionPipeline.

(** A job touches the row counters only, whatever its outcome. *)
Lemma process_job_keeps_counts (self self' : IngestionPipeline.t) (job : Job)
    (r : JobError + unit) :
  _process_job self job = (r, self') ->
  tables_processed (metrics self') = tables_processed (metrics self)
  /\ IngestionPipeline.errors (metrics self')
     = IngestionPipeline.errors (metrics self)
  /\ data_dir self' = data_dir self
  /\ validator self' = validator self.
Proof.
  unfold _process_job, now. simpl.
  destruct (CSVExtractor.extract _ _) as [e|df]; simpl.
  { intros H. inversion H. subst. simpl. auto. }
  destruct (SchemaValidator.validate (validator self) df (name job))
    as [e|[df_valid errs]]; simpl.
  { intros H. inversion H. subst. simpl. auto. }
  destruct (PostgresLoader.load df_valid (table job) (schema job) append
              default_chunk_size (loader self)) as [[e|n] w]; simpl;
    intros H; inversion H; subst; simpl; auto.
Qed.

(** Every job ends up counted as processed or recorded as failed. *)
Lemma run_jobs_accounts (js : list Job) (self : IngestionPipeline.t) :
  (tables_processed (metrics (run_jobs self js))
   + List.length (IngestionPipeline.errors (metrics (run_jobs self js))))%nat
  = (tables_processed (metrics self)
     + List.length (IngestionPipeline.errors (metrics self))
     + List.length js)%nat
  /\ (List.length (IngestionPipeline.errors (metrics self))
      <= List.length (IngestionPipeline.errors (metrics (run_jobs self js))))%nat
  /\ (forall j msg,
         In (j, msg) (IngestionPipeline.errors (metrics (run_jobs self js))) ->
         In (j, msg) (IngestionPipeline.errors (metrics self))
         \/ In j (map name js)).
Proof.
  revert self. induction js as [|job js IH]; intros self; simpl.
  - split; [lia|]. split; [lia|auto].
  - destruct (_process_job self job) as [[e|[]] self1] eqn:Hjob;
      destruct (process_job_keeps_counts _ _ _ _ Hjob) as (Ht & He & _ & _).
    + match goal with
      | |- context [run_jobs ?s js] => destruct (IH s) as (IH1 & IH2 & IH3)
      end.
      simpl in *. rewrite Ht, He, length_app in *. simpl in *.
      split; [lia|]. split; [lia|].
      intros j msg Hin. destruct (IH3 j msg Hin) as [Hold|Hjs]; [|auto].
      apply in_app_or in Hold as [Hold|[[= <- _]|[]]]; auto.
    + match goal with
      | |- context [run_jobs ?s js] => destruct (IH s) as (IH1 & IH2 & IH3)
      end.
      simpl in *. rewrite Ht, He in *.
      split; [lia|]. split; [lia|].
      intros j msg Hin. destruct (IH3 j msg Hin); auto.
Qed.

Lemma test_connection_keeps_database (w : PostgresLoader.World) :
  PostgresLoader.database (snd (PostgresLoaderOps.test_connection w))
  = PostgresLoader.database w.
Proof.
  unfold PostgresLoaderOps.test_connection.
  destruct (connect (PostgresLoader.database w)); [reflexivity|].
  destruct (execute "SELECT 1" [] (PostgresLoader.database w)); reflexivity.
Qed.

End PipelineFacts.

Lemma run_stops_without_connection_lemma
    {RT : PyRuntime} {WH : Warehouse} {HOST : Host}
    (dir : string) (w : PostgresLoader.World) (ticks : nat) :
  fst (PostgresLoaderOps.test_connection w) = false ->
  exists self',
    IngestionPipeline.run (IngestionPipeline.make dir w ticks)
    = (inl (mkRuntimeError "Cannot connect to database"), self').
Proof.
  intros Hprobe. unfold IngestionPipeline.run, IngestionPipeline.now. simpl.
  destruct (PostgresLoaderOps.test_connection w) as [[|] w']; simpl in *;
    [discriminate|].
  eexists. reflexivity.
Qed.

(** X16: when the connection test fails, [run] raises
    [RuntimeError("Cannot connect to database")] before any job: nothing
    is counted, and the warehouse has seen only the probe and keeps its
    state. *)
Theorem run_stops_without_connection
    {RT : PyRuntime} {WH : Warehouse} {HOST : Host}
    (dir : string) (w : PostgresLoader.World) (ticks : nat) :
  fst (PostgresLoaderOps.test_connection w) = false ->
  exists self',
    IngestionPipeline.run (IngestionPipeline.make dir w ticks)
    = (inl (mkRuntimeError "Cannot connect to database"), self')
    /\ IngestionPipeline.loader self'
       = snd (PostgresLoaderOps.test_connection w)
    /\ PostgresLoader.database (IngestionPipeline.loader self')
       = PostgresLoader.database w
    /\ IngestionPipeline.tables_processed (IngestionPipeline.metrics self')
       = 0%nat
    /\ IngestionPipeline.rows_loaded (IngestionPipeline.metrics self') = 0%nat
    /\ IngestionPipeline.errors (IngestionPipeline.metrics self') = [].
Proof.
  intros Hprobe. unfold IngestionPipeline.run, IngestionPipeline.now. simpl.
  pose proof (test_connection_keeps_database w) as Hdb.
  destruct (PostgresLoaderOps.test_connection w) as [[|] w']; simpl in *;
    [discriminate|].
  eexists. split; [reflexivity|]. simpl. auto.
Qed.

Lemma run_stops_without_connection_witness :
  exists self',
    IngestionPipeline.run (RT := Simple.runtime) (WH := Offline.warehouse)
      (HOST := SimpleHost.host)
      (IngestionPipeline.make "/app/data" Offline.fresh 0)
    = (inl (mkRuntimeError "Cannot connect to database"), self')
    /\ IngestionPipeline.loader self'
       = snd (PostgresLoaderOps.test_connection Offline.fresh)
    /\ PostgresLoader.database (IngestionPipeline.loader self')
       = PostgresLoader.database Offline.fresh
    /\ IngestionPipeline.tables_processed (IngestionPipeline.metrics self')
       = 0%nat
    /\ IngestionPipeline.rows_loaded (IngestionPipeline.metrics self') = 0%nat
    /\ IngestionPipeline.errors (IngestionPipeline.metrics self') = [].
Proof.
  apply (run_stops_without_connection (RT := Simple.runtime)
           (WH := Offline.warehouse) (HOST := SimpleHost.host)
           "/app/data" Offline.fresh 0).
  reflexivity.
Defined.

Section RunFacts.
Context {RT : PyRuntime} {WH : Warehouse} {HOST : Host}.

(** With a working connection [run] returns the metrics of the loop over
    the three jobs. *)
Lemma run_with_connection (dir : string) (w : PostgresLoader.World)
    (ticks : nat) :
  fst (PostgresLoaderOps.test_connection w) = true ->
  exists m self' start,
    IngestionPipeline.run (IngestionPipeline.make dir w ticks)
    = (inr m, self')
    /\ IngestionPipeline.data_dir start = dir
    /\ IngestionPipeline.validator start = SchemaValidator.mk "filter"
    /\ IngestionPipeline.tables_processed (IngestionPipeline.metrics start)
       = 0%nat
    /\ IngestionPipeline.rows_loaded (IngestionPipeline.metrics start) = 0%nat
    /\ IngestionPipeline.rows_rejected (IngestionPipeline.metrics start)
       = 0%nat
    /\ IngestionPipeline.errors (IngestionPipeline.metrics start) = []
    /\ IngestionPipeline.tables_processed m
       = IngestionPipeline.tables_processed
           (IngestionPipeline.metrics
              (IngestionPipeline.run_jobs start IngestionPipeline.jobs))
    /\ IngestionPipeline.rows_loaded m
       = IngestionPipeline.rows_loaded
           (IngestionPipeline.metrics
              (IngestionPipeline.run_jobs start IngestionPipeline.jobs))
    /\ IngestionPipeline.rows_rejected m
       = IngestionPipeline.rows_rejected
           (IngestionPipeline.metrics
              (IngestionPipeline.run_jobs start IngestionPipeline.jobs))
    /\ IngestionPipeline.errors m
       = IngestionPipeline.errors
           (IngestionPipeline.metrics
              (IngestionPipeline.run_jobs start IngestionPipeline.jobs)).
Proof.
  intros Hprobe. unfold IngestionPipeline.run, IngestionPipeline.now.
  cbn -[IngestionPipeline.run_jobs IngestionPipeline.jobs
        PostgresLoaderOps.test_connection].
  destruct (PostgresLoaderOps.test_connection w) as [[|] w'];
    [|discriminate].
  match goal with
  | |- context [IngestionPipeline.run_jobs ?s ?js] =>
      exists (IngestionPipeline.metrics
                (IngestionPipeline.set_metrics
                   (snd (IngestionPipeline.now
                           (IngestionPipeline.run_jobs s js)))
                   (IngestionPipeline.mkMetrics
                      (IngestionPipeline.start_time
                         (IngestionPipeline.metrics
                            (IngestionPipeline.run_jobs s js)))
                      (Some (clock (IngestionPipeline.ticks
                                      (IngestionPipeline.run_jobs s js))))
                      (IngestionPipeline.tables_processed
                         (IngestionPipeline.metrics
                            (IngestionPipeline.run_jobs s js)))
                      (IngestionPipeline.rows_loaded
                         (IngestionPipeline.metrics
                            (IngestionPipeline.run_jobs s js)))
                      (IngestionPipeline.rows_rejected
                         (IngestionPipeline.metrics
                            (IngestionPipeline.run_jobs s js)))
                      (IngestionPipeline.errors
                         (IngestionPipeline.metrics
                            (IngestionPipeline.run_jobs s js))))));
      eexists; exists s
  end.
  repeat split; reflexivity.
Qed.

End RunFacts.



(** ** Rows in, rows out *)

Lemma DataFrame_of_dicts_not_empty (rows : list dict) :
  empty (DataFrame_of_dicts rows) = true ->
  Forall (fun d => keys d <> []) rows ->
  rows = [].
Proof.
  destruct rows as [|d rows]; [reflexivity|].
  intros Hempty Hkeys. exfalso.
  inversion Hkeys as [|? ? Hd _]; subst.
  destruct (keys d) as [|k ks] eqn:Hk; [now apply Hd|].
  assert (Hin : In k (union_keys (d :: rows))).
  { apply (union_keys_contains _ d); [now left|]. rewrite Hk. now left. }
  unfold empty, DataFrame_of_dicts in Hempty. simpl in Hempty.
  destruct (union_keys (d :: rows)); [destruct Hin|discriminate].
Qed.

Section ConservationFacts.
Context {RT : PyRuntime} {WH : Warehouse} {HOST : Host}.
Import IngestionPipeline.

Lemma registered_fields_nonempty (schema_name : string) (schema : Model) :
  lookup SCHEMAS schema_name = Some schema -> model_fields schema <> [].
Proof.
  unfold SCHEMAS. cbn [lookup].
  destruct (String.eqb "customers" schema_name);
    [|destruct (String.eqb "products" schema_name);
      [|destruct (String.eqb "orders" schema_name); [|discriminate]]];
    intros [= <-]; discriminate.
Qed.

(** In filter mode the accepted frame is empty only when it has no
    row. *)
Lemma accepted_frame_empty (df accepted : DataFrame) (schema_name : string)
    (errs : list error_info) :
  SchemaValidator.validate (SchemaValidator.mk "filter") df schema_name
  = inr (accepted, errs) ->
  (len accepted + List.length errs)%nat = len df
  /\ (empty accepted = true -> len accepted = 0%nat).
Proof.
  unfold SchemaValidator.validate.
  destruct (lookup SCHEMAS schema_name) as [model|] eqn:Hs; [|discriminate].
  rewrite validate_rows_lenient by discriminate. simpl.
  intros [= <- <-]. split.
  - rewrite len_DataFrame_of_dicts, length_collect_outputs_filter.
    apply len_iterrows.
  - intros Hempty. rewrite len_DataFrame_of_dicts.
    rewrite (DataFrame_of_dicts_not_empty _ Hempty); [reflexivity|].
    apply Forall_forall. intros o Ho.
    apply collect_In_inv in Ho as (r & _ & Ho).
    unfold row_output in Ho. simpl in Ho.
    destruct (model_validate model (row_dict (snd r))) as [|validated] eqn:Hm;
      [discriminate|].
    injection Ho as <-. intros Hnil.
    pose proof (model_validate_accepted_keys _ _ _ Hm) as Hkeys.
    pose proof (registered_fields_nonempty _ _ Hs) as Hne.
    destruct (model_fields model) as [|f fs]; [now apply Hne|].
    assert (Hin : In (field_name f)
                    (keys (dict_update (to_dict (snd r)) validated))).
    { apply keys_dict_update. right. rewrite Hkeys. now left. }
    rewrite Hnil in Hin. destruct Hin.
Qed.

(** A successful [load] returns the number of rows of the frame. *)
Lemma load_count (df : DataFrame) (table_name schema_ns : string)
    (if_exists : IfExists) (chunk_size n : nat)
    (w w' : PostgresLoader.World) :
  PostgresLoader.load df table_name schema_ns if_exists chunk_size w
  = (inr n, w') ->
  (empty df = true -> len df = 0%nat) ->
  n = len df.
Proof.
  unfold PostgresLoader.load. intros H Hempty.
  destruct (empty df).
  - injection H as <- _. symmetry. now apply Hempty.
  - destruct (PostgresLoader.to_sql df table_name schema_ns if_exists
                chunk_size (PostgresLoader.engine w)) as [[e|[]] w1];
      [discriminate|].
    now injection H as <- _.
Qed.

(** The rows of a completed job are all counted, as loaded or as
    rejected. *)
Lemma completed_job_counts (self self' : IngestionPipeline.t) (job : Job) :
  validator self = SchemaValidator.mk "filter" ->
  _process_job self job = (inr tt, self') ->
  (rows_loaded (metrics self') + rows_rejected (metrics self'))%nat
  = (rows_loaded (metrics self) + rows_rejected (metrics self)
     + rows_in_file (data_dir self) job)%nat.
Proof.
  intros Hmode. unfold _process_job, now, rows_in_file,
    CSVExtractor.extract, CSVExtractor.__init__. simpl.
  destruct (path_exists (joinpath (data_dir self) (file job))); simpl;
    [|discriminate].
  destruct (read_csv (joinpath (data_dir self) (file job)) "," "utf-8"
              (date_columns job)) as [[msg|msg]|df]; simpl;
    try discriminate.
  rewrite Hmode.
  destruct (SchemaValidator.validate (SchemaValidator.mk "filter") _
              (name job)) as [e|[df_valid errs]] eqn:Hval; simpl;
    [discriminate|].
  destruct (accepted_frame_empty _ _ _ _ Hval) as [Hsum Hempty].
  unfold BaseExtractor.add_metadata in Hsum. rewrite !len_setitem in Hsum.
  destruct (PostgresLoader.load df_valid (table job) (schema job) append
              default_chunk_size (loader self)) as [[e|n] w] eqn:Hload;
    simpl; [discriminate|].
  intros H. inversion H. subst. simpl.
  rewrite (load_count _ _ _ _ _ _ _ _ Hload Hempty). clear - Hsum. lia.
Qed.

(** When the loop records no new error, all rows of all files are
    counted. *)
Lemma run_jobs_conserves (js : list Job) (self : IngestionPipeline.t) :
  validator self = SchemaValidator.mk "filter" ->
  List.length (IngestionPipeline.errors (metrics (run_jobs self js)))
  = List.length (IngestionPipeline.errors (metrics self)) ->
  (rows_loaded (metrics (run_jobs self js))
   + rows_rejected (metrics (run_jobs self js)))%nat
  = (rows_loaded (metrics self) + rows_rejected (metrics self)
     + list_sum (map (rows_in_file (data_dir self)) js))%nat.
Proof.
  revert self. induction js as [|job js IH]; intros self Hmode Herr; simpl.
  - lia.
  - simpl in Herr.
    destruct (_process_job self job) as [[e|[]] self1] eqn:Hjob;
      destruct (process_job_keeps_counts _ _ _ _ Hjob)
        as (Ht & He & Hdir & Hval).
    + exfalso.
      match type of Herr with
      | context [run_jobs ?s js] =>
          destruct (run_jobs_accounts js s) as (_ & Hmono & _);
          remember (run_jobs s js) as final
      end.
      simpl in Hmono. rewrite He, length_app in Hmono. simpl in Hmono.
      clear - Herr Hmono. lia.
    + match goal with
      | |- context [run_jobs ?s js] => rewrite (IH s)
      end; simpl; try congruence.
      rewrite Hdir.
      pose proof (completed_job_counts self self1 job Hmode Hjob). lia.
Qed.

End ConservationFacts.

(** X18: a job that completes accounts for every row of its file: the rows
    it adds to [rows_loaded] and to [rows_rejected] add up to the rows
    read from the file. *)
Theorem completed_job_accounts_for_every_row
    {RT : PyRuntime} {WH : Warehouse} {HOST : Host}
    (self self' : IngestionPipeline.t) (job : IngestionPipeline.Job) :
  IngestionPipeline.validator self = SchemaValidator.mk "filter" ->
  IngestionPipeline._process_job self job = (inr tt, self') ->
  exists df,
    read_csv (joinpath (IngestionPipeline.data_dir self)
                (IngestionPipeline.file job)) "," "utf-8"
      (IngestionPipeline.date_columns job) = inr df
    /\ (IngestionPipeline.rows_loaded (IngestionPipeline.metrics self')
        + IngestionPipeline.rows_rejected (IngestionPipeline.metrics self'))%nat
       = (IngestionPipeline.rows_loaded (IngestionPipeline.metrics self)
          + IngestionPipeline.rows_rejected (IngestionPipeline.metrics self)
          + len df)%nat.
Proof.
  intros Hmode Hjob.
  pose proof (completed_job_counts self self' job Hmode Hjob) as Hcount.
  unfold rows_in_file in Hcount.
  destruct (read_csv (joinpath (IngestionPipeline.data_dir self)
                        (IngestionPipeline.file job)) "," "utf-8"
              (IngestionPipeline.date_columns job)) as [f|df] eqn:Hread.
  - exfalso. revert Hjob.
    unfold IngestionPipeline._process_job, IngestionPipeline.now,
      CSVExtractor.extract, CSVExtractor.__init__. simpl.
    destruct (path_exists _); simpl; [|discriminate].
    rewrite Hread. destruct f; discriminate.
  - exists df. split; [reflexivity|exact Hcount].
Qed.

Lemma completed_job_accounts_for_every_row_witness :
  exists self' df,
    IngestionPipeline._process_job (RT := Simple.runtime)
      (WH := Simple.warehouse) (HOST := SimpleHost.host)
      (IngestionPipeline.make "/app/data" Samples.fresh 0)
      (IngestionPipeline.mkJob "customers" "customers.csv" "customers" "raw"
         ["created_at"])
    = (inr tt, self')
    /\ read_csv (Host := SimpleHost.host) "/app/data/customers.csv" "," "utf-8"
         ["created_at"] = inr df
    /\ (IngestionPipeline.rows_loaded (IngestionPipeline.metrics self')
        + IngestionPipeline.rows_rejected (IngestionPipeline.metrics self'))%nat
       = len df.
Proof.
  pose (self := IngestionPipeline.make (WH := Simple.warehouse)
                  "/app/data" Samples.fresh 0).
  pose (job := IngestionPipeline.mkJob "customers" "customers.csv"
                 "customers" "raw" ["created_at"]).
  exists (snd (IngestionPipeline._process_job (RT := Simple.runtime)
                 (HOST := SimpleHost.host) self job)).
  destruct (completed_job_accounts_for_every_row (RT := Simple.runtime)
              (WH := Simple.warehouse) (HOST := SimpleHost.host)
              self
              (snd (IngestionPipeline._process_job (RT := Simple.runtime)
                      (HOST := SimpleHost.host) self job))
              job eq_refl eq_refl) as (df & Hread & Hsum).
  exists df. split; [reflexivity|]. split; [exact Hread|exact Hsum].
Defined.

(** X19: a run that records no job error accounts for every row of the
    three files: the rows loaded and the rows rejected add up to the rows
    read. *)
Theorem clean_run_accounts_for_every_row
    {RT : PyRuntime} {WH : Warehouse} {HOST : Host}
    (dir : string) (w : PostgresLoader.World) (ticks : nat)
    (m : IngestionPipeline.Metrics) (self' : IngestionPipeline.t) :
  IngestionPipeline.run (IngestionPipeline.make dir w ticks)
  = (inr m, self') ->
  IngestionPipeline.errors m = [] ->
  IngestionPipeline.tables_processed m = 3%nat
  /\ (IngestionPipeline.rows_loaded m + IngestionPipeline.rows_rejected m)%nat
     = list_sum (map (rows_in_file dir) IngestionPipeline.jobs).
Proof.
  intros Hrun Herr.
  assert (Hprobe : fst (PostgresLoaderOps.test_connection w) = true).
  { destruct (fst (PostgresLoaderOps.test_connection w)) eqn:Hp;
      [reflexivity|].
    destruct (run_stops_without_connection_lemma dir w ticks Hp) as [s Hs].
    congruence. }
  destruct (run_with_connection dir w ticks Hprobe)
    as (m0 & self0 & start & Hrun0 & Hdir & Hval & Ht & Hl & Hr & He
        & Htm & Hlm & Hrm & Hem).
  assert (m0 = m) by congruence. subst m0.
  destruct (run_jobs_accounts IngestionPipeline.jobs start) as (Hsum & _ & _).
  rewrite <- Htm, <- Hem, Herr, Ht, He in Hsum. simpl in Hsum.
  split; [lia|].
  rewrite Hlm, Hrm, run_jobs_conserves; [rewrite Hl, Hr, Hdir; reflexivity
                                        |exact Hval|].
  now rewrite <- Hem, Herr, He.
Qed.

Lemma clean_run_accounts_for_every_row_witness :
  exists m self',
    IngestionPipeline.run (RT := Simple.runtime) (WH := Simple.warehouse)
      (HOST := SimpleHost.all_files)
      (IngestionPipeline.make "/app/data" Samples.fresh 0)
    = (inr m, self')
    /\ IngestionPipeline.errors m = []
    /\ IngestionPipeline.tables_processed m = 3%nat
    /\ (IngestionPipeline.rows_loaded m
        + IngestionPipeline.rows_rejected m)%nat = 4%nat.
Proof.
  eexists _, _. split; [reflexivity|]. split; [reflexivity|].
  apply (clean_run_accounts_for_every_row (RT := Simple.runtime)
           (WH := Simple.warehouse) (HOST := SimpleHost.all_files)
           "/app/data" Samples.fresh 0 _ _ eq_refl eq_refl).
Defined.

(** X20: [main] exits with status 0 exactly when the pipeline could be
    constructed, the connection test passed and all three jobs
    completed; in every other case the status is 1. *)
Theorem main_exit_status
    {RT : PyRuntime} {WH : Warehouse} {HOST : Host}
    (w : PostgresLoader.World) (ticks : nat) :
  (IngestionPipeline.main w ticks = 0%Z
   \/ IngestionPipeline.main w ticks = 1%Z)
  /\ (IngestionPipeline.main w ticks = 0%Z
      <-> exists pipeline m self',
            IngestionPipeline.__init__ "/app/data" w ticks = inr pipeline
            /\ IngestionPipeline.run pipeline = (inr m, self')
            /\ IngestionPipeline.tables_processed m = 3%nat).
Proof.
  unfold IngestionPipeline.main, IngestionPipeline.__init__.
  destruct (PostgresLoaderConfig.__init__ None None None None None)
    as [e|config].
  { split; [now right|]. split; [discriminate|].
    intros (p & m & s & [=] & _). }
  destruct (fst (PostgresLoaderOps.test_connection w)) eqn:Hp.
  - destruct (run_with_connection "/app/data" w ticks Hp)
      as (m & self' & start & Hrun & _ & _ & Ht & _ & _ & He
          & Htm & _ & _ & Hem).
    destruct (run_jobs_accounts IngestionPipeline.jobs start)
      as (Hsum & _ & _).
    rewrite <- Htm, <- Hem, Ht, He in Hsum. simpl in Hsum.
    rewrite Hrun. simpl.
    destruct (IngestionPipeline.errors m) as [|e es] eqn:Herrs; simpl in *.
    + split; [now left|]. split; [|reflexivity].
      intros _. exists (IngestionPipeline.make "/app/data" w ticks), m, self'.
      split; [reflexivity|]. split; [exact Hrun|lia].
    + split; [now right|]. split; [discriminate|].
      intros (p & m' & s' & Hp' & Heq & Hthree).
      injection Hp' as <-.
      assert (m' = m) by congruence. subst m'. lia.
  - destruct (run_stops_without_connection_lemma "/app/data" w ticks Hp)
      as [s Hs].
    rewrite Hs. simpl. split; [now right|]. split; [discriminate|].
    intros (p & m' & s' & Hp' & Heq & _).
    injection Hp' as <-. congruence.
Qed.

Lemma main_exit_status_witness :
  (IngestionPipeline.main (RT := Simple.runtime) (WH := Simple.warehouse)
     (HOST := SimpleHost.all_files) Samples.fresh 0 = 0%Z
   \/ IngestionPipeline.main (RT := Simple.runtime)
        (WH := Simple.warehouse) (HOST := SimpleHost.all_files)
        Samples.fresh 0 = 1%Z)
  /\ IngestionPipeline.main (RT := Simple.runtime) (WH := Simple.warehouse)
       (HOST := SimpleHost.all_files) Samples.fresh 0 = 0%Z.
Proof.
  split.
  - apply (proj1 (main_exit_status (RT := Simple.runtime)
                    (WH := Simple.warehouse) (HOST := SimpleHost.all_files)
                    Samples.fresh 0)).
  - apply (proj2 (main_exit_status (RT := Simple.runtime)
                    (WH := Simple.warehouse) (HOST := SimpleHost.all_files)
                    Samples.fresh 0)).
    eexists _, _, _. split; [reflexivity|]. split; reflexivity.
Defined.

(** * Traffic of the loader *)

Section TrafficFacts.
Context {WH : Warehouse}.

Lemma execute_rows_trace_applied (sql : string) (rows : list (Z * Series))
    (db db' : DB) (tr : list Event) :
  applied sql rows db db' ->
  execute_rows sql rows db tr
  = (inr db', tr ++ map (fun r => Execute sql (to_dict (snd r))) rows).
Proof.
  intros H. revert tr.
  induction H as [db|idx row rest db db1 db2 Hexec _ IH]; intros tr; simpl.
  - now rewrite app_nil_r.
  - rewrite Hexec, IH, <- app_assoc. reflexivity.
Qed.

Lemma execute_rows_trace_failure (sql : string)
    (pre post : list (Z * Series)) (idx : Z) (row : Series) (db db1 : DB)
    (msg : string) (tr : list Event) :
  applied sql pre db db1 ->
  execute sql (to_dict row) db1 = inl msg ->
  execute_rows sql (pre ++ (idx, row) :: post) db tr
  = (inl msg,
     tr ++ map (fun r => Execute sql (to_dict (snd r))) (pre ++ [(idx, row)])).
Proof.
  intros H. revert tr.
  induction H as [db|i r rest db db1 db2 Hexec _ IH]; intros tr Hfail; simpl.
  - now rewrite Hfail.
  - rewrite Hexec, IH, <- app_assoc by assumption. reflexivity.
Qed.

End TrafficFacts.

(** X21: when every statement goes through, [upsert] returns the number
    of rows, and what it sent is: one connection, then one statement per
    row in input order, each with the same text and the row's values as
    parameters, then the commit; the warehouse is in the state the last
    statement left. *)
Theorem upsert_sends_one_statement_per_row {WH : Warehouse}
    (df : DataFrame) (table_name schema : string) (key_columns : list string)
    (update_columns : option (list string)) (w : World) (db' : DB) :
  empty df = false ->
  connect (database w) = None ->
  applied (statement_text df table_name schema key_columns update_columns)
    (iterrows df) (database w) db' ->
  upsert df table_name schema key_columns update_columns w
  = (inr (len df),
     mkWorld true db'
       (trace w ++ [Connect]
        ++ map (fun r =>
                  Execute (statement_text df table_name schema key_columns
                             update_columns) (to_dict (snd r)))
             (iterrows df)
        ++ [Commit])).
Proof.
  intros Hne Hc Happ. unfold upsert. rewrite Hne, Hc.
  rewrite (execute_rows_trace_applied _ _ _ _ _ Happ).
  now rewrite <- !app_assoc.
Qed.

Lemma upsert_sends_one_statement_per_row_witness :
  exists sql,
    upsert Samples.one_product "products" "raw" ["product_id"] None
      Samples.fresh
    = (inr 1%nat,
       mkWorld (WH := Simple.warehouse) true
         (@cons (list value) (Samples.product "P1" (1999 # 100) (5 # 1))
            (@nil (list value)))
         [Connect;
          Execute sql
            (combine Samples.product_columns
               (Samples.product "P1" (1999 # 100) (5 # 1)));
          Commit]).
Proof.
  eexists.
  apply (upsert_sends_one_statement_per_row (WH := Simple.warehouse)
           Samples.one_product "products" "raw" ["product_id"] None
           Samples.fresh
           (@cons (list value) (Samples.product "P1" (1999 # 100) (5 # 1))
              (@nil (list value)))).
  - reflexivity.
  - reflexivity.
  - eapply applied_cons; [reflexivity|apply applied_nil].
Defined.

(** X22: when the statement of a row fails, the rows after it are never
    sent: the traffic of the call is the connection, the statements of
    the rows up to and including the failing one, and the rollback. *)
Theorem upsert_stops_at_the_failing_row {WH : Warehouse}
    (df : DataFrame) (table_name schema : string) (key_columns : list string)
    (update_columns : option (list string)) (w : World)
    (pre post : list (Z * Series)) (idx : Z) (row : Series) (db1 : DB)
    (msg : string) :
  empty df = false ->
  connect (database w) = None ->
  iterrows df = pre ++ (idx, row) :: post ->
  applied (statement_text df table_name schema key_columns update_columns)
    pre (database w) db1 ->
  execute (statement_text df table_name schema key_columns update_columns)
    (to_dict row) db1 = inl msg ->
  upsert df table_name schema key_columns update_columns w
  = (inl (DBAPIError msg),
     mkWorld true (database w)
       (trace w ++ [Connect]
        ++ map (fun r =>
                  Execute (statement_text df table_name schema key_columns
                             update_columns) (to_dict (snd r)))
             (pre ++ [(idx, row)])
        ++ [Rollback])).
Proof.
  intros Hne Hc Hrows Hpre Hfail. unfold upsert. rewrite Hne, Hc, Hrows.
  rewrite (execute_rows_trace_failure _ _ _ _ _ _ _ _ _ Hpre Hfail).
  now rewrite <- !app_assoc.
Qed.

Lemma upsert_stops_at_the_failing_row_witness :
  exists sql,
    upsert Samples.bad_then_good "customers" "raw" ["customer_id"] None
      Samples.fresh
    = (inl (DBAPIError "null value violates not-null constraint"),
       mkWorld true (database Samples.fresh)
         [Connect;
          Execute sql
            (combine Samples.customer_columns (Samples.stateless "C1"));
          Rollback]).
Proof.
  eexists.
  apply (upsert_stops_at_the_failing_row (WH := Simple.warehouse)
           Samples.bad_then_good "customers" "raw" ["customer_id"] None
           Samples.fresh []
           [(1%Z, combine Samples.customer_columns
                    (Samples.customer "C2" "a@b.com"))]
           0%Z (combine Samples.customer_columns (Samples.stateless "C1"))
           (database Samples.fresh)).
  - reflexivity.
  - reflexivity.
  - reflexivity.
  - apply applied_nil.
  - reflexivity.
Defined.

(** * The API extractor *)

Section ApiFacts.
Context {HTTP : Http}.
Import APIExtractor.

(** Following the pages needs one unit of fuel per request. *)
Lemma fetch_pages (self : APIExtractor.t) (u last : json)
    (items : list json) (n : nat) :
  pages self u items last n ->
  forall fuel all_data,
    fetch (n + fuel) self u all_data
    = fetch fuel self last (all_data ++ items).
Proof.
  induction 1 as [u|u response data u' last items rest n Ht Hget Hdata Hitems
                    Hnext _ IH]; intros fuel all_data.
  - now rewrite app_nil_r.
  - simpl. rewrite Ht. unfold _make_request. rewrite Hget, Hdata, Hitems, Hnext.
    rewrite IH. now rewrite app_assoc.
Qed.

Lemma fetch_stops (self : APIExtractor.t) (u : json) (fuel : nat)
    (all_data : list json) :
  truthy u = false -> fetch fuel self u all_data = Some (inr all_data).
Proof.
  intros H. destruct fuel; simpl; now rewrite H.
Qed.

End ApiFacts.

(** X23: the pagination loop collects the records of the pages in the
    order of the pages: when [n] requests lead from the first URL to a
    falsy next URL (a missing key, [null], an empty string), any fuel of
    at least [n] gives the records of the first page followed by those of
    the second, and so on. *)
Theorem fetch_concatenates_the_pages {HTTP : Http}
    (self : APIExtractor.t) (u last : json) (items : list json)
    (n fuel : nat) (all_data : list json) :
  APIExtractor.pages self u items last n ->
  truthy last = false ->
  (n <= fuel)%nat ->
  APIExtractor.fetch fuel self u all_data = Some (inr (all_data ++ items)).
Proof.
  intros Hpages Hlast Hfuel.
  replace fuel with (n + (fuel - n))%nat by lia.
  rewrite (fetch_pages self u last items n Hpages).
  now apply fetch_stops.
Qed.

Lemma fetch_concatenates_the_pages_witness :
  APIExtractor.fetch (HTTP := SimpleHttp.http) 5
    (APIExtractor.__init__ "http://api/" "/items" "api_items" (Some "next")
       (Some "data"))
    (JString "http://api/items") []
  = Some (inr ([] ++ [SimpleHttp.record "a"; SimpleHttp.record "b"]
                  ++ [SimpleHttp.record "c"] ++ [])).
Proof.
  apply (fetch_concatenates_the_pages (HTTP := SimpleHttp.http)
           (APIExtractor.__init__ "http://api/" "/items" "api_items"
              (Some "next") (Some "data"))
           (JString "http://api/items") JNull
           ([SimpleHttp.record "a"; SimpleHttp.record "b"]
              ++ [SimpleHttp.record "c"] ++ [])
           2 5 []).
  - eapply APIExtractor.pages_step; try reflexivity.
    eapply APIExtractor.pages_step; try reflexivity.
    apply APIExtractor.pages_here.
  - reflexivity.
  - lia.
Defined.

(** X24: a request that fails on any page aborts the extraction: the
    records of the pages before it are dropped and the call raises
    [ExtractionError("API request failed: ...")] with the message of the
    request. *)
Theorem failed_request_aborts_the_extraction {HTTP : Http}
    (self : APIExtractor.t) (last : json) (items : list json)
    (n fuel : nat) (now : Z) (msg : string) :
  APIExtractor.pages self (JString (APIExtractor.url self)) items last n ->
  truthy last = true ->
  http_get last = inl msg ->
  (n < fuel)%nat ->
  APIExtractor.extract fuel self now
  = Some (inl (Failed (mkExtractionError ("API request failed: " ++ msg)))).
Proof.
  intros Hpages Hlast Hget Hfuel. unfold APIExtractor.extract.
  replace fuel with (n + S (fuel - S n))%nat by lia.
  rewrite (fetch_pages self _ last items n Hpages).
  simpl. rewrite Hlast. unfold APIExtractor._make_request.
  now rewrite Hget.
Qed.

Lemma failed_request_aborts_the_extraction_witness :
  APIExtractor.extract (HTTP := SimpleHttp.http) 3
    (APIExtractor.__init__ "http://api/" "/orders" "api_orders" (Some "next")
       (Some "data")) 7
  = Some (inl (Failed (mkExtractionError
                         "API request failed: 404 Client Error"))).
Proof.
  apply (failed_request_aborts_the_extraction (HTTP := SimpleHttp.http)
           (APIExtractor.__init__ "http://api/" "/orders" "api_orders"
              (Some "next") (Some "data"))
           (JString "http://api/orders") [] 0 3 7 "404 Client Error").
  - apply APIExtractor.pages_here.
  - reflexivity.
  - reflexivity.
  - lia.
Defined.

(** X25: what [extract] returns once the pages are read: with no record
    at all, a frame without any column, so without the metadata columns
    every other extraction carries; with records, the frame pandas builds
    from them, stamped by [add_metadata]. *)
Theorem api_extract_stamps_unless_empty {HTTP : Http}
    (self : APIExtractor.t) (last : json) (items : list json)
    (n fuel : nat) (now : Z) :
  APIExtractor.pages self (JString (APIExtractor.url self)) items last n ->
  truthy last = false ->
  (n <= fuel)%nat ->
  (items = [] ->
   APIExtractor.extract fuel self now = Some (inr (mkDataFrame [] [])))
  /\ (forall df,
         items <> [] ->
         frame_of_records items = inr df ->
         APIExtractor.extract fuel self now
         = Some (inr (BaseExtractor.add_metadata (APIExtractor.base self)
                        now df))).
Proof.
  intros Hpages Hlast Hfuel. unfold APIExtractor.extract.
  replace fuel with (n + (fuel - n))%nat by lia.
  rewrite (fetch_pages self _ last items n Hpages).
  rewrite fetch_stops by assumption. simpl. split.
  - now intros ->.
  - intros df Hne Hframe. destruct items as [|x xs]; [contradiction|].
    now rewrite Hframe.
Qed.

Lemma api_extract_stamps_unless_empty_witness :
  exists df,
    frame_of_records (Http := SimpleHttp.http)
      ([SimpleHttp.record "a"; SimpleHttp.record "b"]
         ++ [SimpleHttp.record "c"] ++ []) = inr df
    /\ APIExtractor.extract (HTTP := SimpleHttp.http) 5
         (APIExtractor.__init__ "http://api/" "/items" "api_items"
            (Some "next") (Some "data")) 7
       = Some (inr (BaseExtractor.add_metadata
                      (BaseExtractor.mk "api_items") 7 df)).
Proof.
  eexists. split; [reflexivity|].
  assert (Hpages :
    APIExtractor.pages (HTTP := SimpleHttp.http)
      (APIExtractor.__init__ "http://api/" "/items" "api_items"
         (Some "next") (Some "data"))
      (JString "http://api/items")
      ([SimpleHttp.record "a"; SimpleHttp.record "b"]
         ++ [SimpleHttp.record "c"] ++ [])
      JNull 2).
  { eapply APIExtractor.pages_step; try reflexivity.
    eapply APIExtractor.pages_step; try reflexivity.
    apply APIExtractor.pages_here. }
  apply (proj2 (api_extract_stamps_unless_empty (HTTP := SimpleHttp.http)
                  (APIExtractor.__init__ "http://api/" "/items" "api_items"
                     (Some "next") (Some "data"))
                  JNull _ 2 5 7 Hpages eq_refl
                  (le_S _ _ (le_S _ _ (le_S _ _ (le_n 2)))))).
  - discriminate.
  - reflexivity.
Defined.

(** ** The request URL *)

Lemma list_ascii_of_string_app (s1 s2 : string) :
  list_ascii_of_string (s1 ++ s2)
  = list_ascii_of_string s1 ++ list_ascii_of_string s2.
Proof.
  induction s1 as [|c s1 IH]; simpl; [reflexivity|now rewrite IH].
Qed.

Lemma string_rev_snoc (s : string) (c : ascii) :
  string_rev (s ++ String c EmptyString) = String c (string_rev s).
Proof.
  unfold string_rev. rewrite list_ascii_of_string_app, rev_app_distr.
  reflexivity.
Qed.

Lemma string_rev_involutive (s : string) : string_rev (string_rev s) = s.
Proof.
  unfold string_rev.
  now rewrite list_ascii_of_string_of_list_ascii, rev_involutive,
    string_of_list_ascii_of_string.
Qed.

Lemma lstrip_slash_no_slash (s s' : string) :
  lstrip_slash s <> String "/" s'.
Proof.
  induction s as [|c s IH]; simpl; [discriminate|].
  destruct (Ascii.eqb_spec c "/"%char) as [->|Hne]; [exact IH|].
  intros [= Hc _]. contradiction.
Qed.

(** X26: the request URL joins base and endpoint with exactly one slash:
    the stored base URL ends with no slash, the stored endpoint starts
    with none, and slashes written at the joint do not change the URL. *)
Theorem url_has_one_slash_at_the_joint
    (base_url endpoint source_name : string)
    (pagination_key data_key : option string) :
  let self :=
    APIExtractor.__init__ base_url endpoint source_name pagination_key
      data_key in
  (forall s, APIExtractor.base_url self <> (s ++ "/")%string)
  /\ (forall s, APIExtractor.endpoint self <> String "/" s)
  /\ APIExtractor.url
       (APIExtractor.__init__ (base_url ++ "/") (String "/" endpoint)
          source_name pagination_key data_key)
     = APIExtractor.url self.
Proof.
  simpl. repeat split.
  - intros s H. apply (f_equal string_rev) in H.
    unfold rstrip_slash in H.
    rewrite string_rev_involutive, string_rev_snoc in H.
    now apply lstrip_slash_no_slash in H.
  - intros s. apply lstrip_slash_no_slash.
  - unfold APIExtractor.url, APIExtractor.__init__, rstrip_slash. simpl.
    now rewrite string_rev_snoc.
Qed.

(** X27: with a data key configured, a response that is not a JSON object
    has no [get]: the extraction ends with an [AttributeError], which is
    not an [ExtractionError]. *)
Theorem array_response_with_data_key_raises {HTTP : Http}
    (self : APIExtractor.t) (c : ascii) (key : string) (response : json)
    (fuel : nat) (now : Z) :
  APIExtractor.data_key self = Some (String c key) ->
  http_get (JString (APIExtractor.url self)) = inr response ->
  (forall members, response <> JObject members) ->
  APIExtractor.extract (S fuel) self now = Some (inl AttributeError).
Proof.
  intros Hkey Hget Hobj. unfold APIExtractor.extract.
  assert (Ht : truthy (JString (APIExtractor.url self)) = true).
  { unfold APIExtractor.url. simpl.
    destruct (APIExtractor.base_url self); reflexivity. }
  cbn [APIExtractor.fetch]. rewrite Ht.
  unfold APIExtractor._make_request, APIExtractor._extract_data.
  rewrite Hget, Hkey.
  destruct response as [| | | | | |m]; try reflexivity.
  now destruct (Hobj m).
Qed.

Lemma array_response_with_data_key_raises_witness :
  APIExtractor.extract (HTTP := SimpleHttp.listing) 1
    (APIExtractor.__init__ "http://api" "items" "api_items" None
       (Some "data")) 7
  = Some (inl AttributeError).
Proof.
  apply (array_response_with_data_key_raises (HTTP := SimpleHttp.listing)
           (APIExtractor.__init__ "http://api" "items" "api_items" None
              (Some "data"))
           "d"%char "ata"
           (JArray [SimpleHttp.record "a"]) 0 7).
  - reflexivity.
  - reflexivity.
  - discriminate.
Defined.

(** * A file without a valid row, and the loader's configuration *)

Section RejectedFacts.
Context {RT : PyRuntime}.

(** Rows the schema rejects add nothing to the accepted rows of filter
    mode, and one error each. *)
Lemma collect_all_rejected (schema : Model) (rows : list (Z * Series)) :
  forallb (fun r => negb (is_valid schema r)) rows = true ->
  collect (row_output (mk "filter") schema) rows = []
  /\ List.length (collect (row_error schema) rows) = List.length rows.
Proof.
  induction rows as [|r rows IH]; simpl; [now split|].
  intros H. apply andb_prop in H as [Hr Hrest].
  destruct (IH Hrest) as [IH1 IH2].
  unfold is_valid in Hr. unfold row_output at 1, row_error at 1.
  destruct (model_validate schema (row_dict (snd r))); [|discriminate].
  simpl. now rewrite IH1, IH2.
Qed.

(** Stamping does not change the verdict on a row. *)
Lemma is_valid_stamped (schema : Model) (ext : BaseExtractor.t) (now : Z)
    (df : DataFrame) :
  rectangular df = true ->
  map (is_valid schema) (iterrows (BaseExtractor.add_metadata ext now df))
  = map (is_valid schema) (iterrows df).
Proof.
  intros Hrect. unfold BaseExtractor.add_metadata.
  rewrite !iterrows_setitem, !map_map
    by (try apply rectangular_setitem; assumption).
  apply map_ext. intros r. unfold is_valid. simpl.
  now rewrite !row_dict_row_setitem.
Qed.

End RejectedFacts.

(** X28: a job whose file is read to a frame holding no row that the
    schema accepts (a file with its header line and no data line among
    them) completes: every row is counted as rejected, nothing is counted
    as loaded, and the loader is left as it was, no engine created and
    nothing sent to the warehouse. *)
Theorem job_without_valid_row_skips_the_warehouse
    {RT : PyRuntime} {WH : Warehouse} {HOST : Host}
    (self : IngestionPipeline.t) (job : IngestionPipeline.Job)
    (schema : Model) (df : DataFrame) :
  IngestionPipeline.validator self = SchemaValidator.mk "filter" ->
  lookup SCHEMAS (IngestionPipeline.name job) = Some schema ->
  path_exists (joinpath (IngestionPipeline.data_dir self)
                 (IngestionPipeline.file job)) = true ->
  read_csv (joinpath (IngestionPipeline.data_dir self)
              (IngestionPipeline.file job)) "," "utf-8"
    (IngestionPipeline.date_columns job) = inr df ->
  rectangular df = true ->
  forallb (fun r => negb (is_valid schema r)) (iterrows df) = true ->
  exists self',
    IngestionPipeline._process_job self job = (inr tt, self')
    /\ IngestionPipeline.loader self' = IngestionPipeline.loader self
    /\ IngestionPipeline.rows_loaded (IngestionPipeline.metrics self')
       = IngestionPipeline.rows_loaded (IngestionPipeline.metrics self)
    /\ IngestionPipeline.rows_rejected (IngestionPipeline.metrics self')
       = (IngestionPipeline.rows_rejected (IngestionPipeline.metrics self)
          + len df)%nat.
Proof.
  intros Hmode Hs Hexists Hread Hrect Hnone.
  unfold IngestionPipeline._process_job, IngestionPipeline.now,
    CSVExtractor.extract, CSVExtractor.__init__.
  cbn [CSVExtractor.file_path CSVExtractor.delimiter CSVExtractor.encoding
       CSVExtractor.parse_dates CSVExtractor.base snd
       IngestionPipeline.validator IngestionPipeline.metrics
       IngestionPipeline.loader].
  rewrite Hexists, Hread. cbn [negb]. rewrite Hmode.
  unfold validate. rewrite Hs.
  rewrite validate_rows_lenient by discriminate. cbn [app].
  match goal with
  | |- context [iterrows (BaseExtractor.add_metadata ?e ?n df)] =>
      pose proof (is_valid_stamped schema e n df Hrect) as Hsame;
      remember (iterrows (BaseExtractor.add_metadata e n df)) as rows
        eqn:Hrows
  end.
  assert (Hnone' : forallb (fun r => negb (is_valid schema r)) rows = true).
  { rewrite <- (map_id rows), <- (map_id (iterrows df)) in Hsame.
    clear Hrows.
    rewrite forallb_forall in Hnone.
    assert (Hlen : List.length rows = List.length (iterrows df))
      by (rewrite <- (length_map (is_valid schema) rows),
            <- (length_map (is_valid schema) (iterrows df));
          now rewrite !map_id in Hsame; rewrite Hsame).
    revert Hsame Hnone Hlen. generalize (iterrows df) as l.
    induction rows as [|r rows IH]; intros [|x l] Hsame Hn Hlen;
      try discriminate; [reflexivity|].
    rewrite !map_id in Hsame. simpl in Hsame.
    injection Hsame as Hr Hrest. simpl.
    rewrite Hr, (Hn x (or_introl eq_refl)). simpl.
    apply (IH l).
    - now rewrite !map_id.
    - intros y Hy. apply Hn. now right.
    - simpl in Hlen. congruence. }
  destruct (collect_all_rejected schema rows Hnone') as [Hout Herrs].
  rewrite Hout.
  assert (Hcount : List.length (collect (row_error schema) rows) = len df).
  { rewrite Herrs, Hrows, len_iterrows. unfold BaseExtractor.add_metadata.
    now rewrite !len_setitem. }
  unfold PostgresLoader.load, DataFrame_of_dicts. simpl.
  eexists. split; [reflexivity|]. simpl.
  rewrite Hcount. repeat split. apply Nat.add_0_r.
Qed.

Lemma job_without_valid_row_skips_the_warehouse_witness :
  exists self',
    IngestionPipeline._process_job
      (RT := Simple.runtime) (WH := Simple.warehouse)
      (HOST := SimpleHost.host)
      (IngestionPipeline.make (WH := Simple.warehouse) "/app/data"
         Samples.fresh 0)
      (IngestionPipeline.mkJob "customers" "products.csv" "customers" "raw"
         [])
    = (inr tt, self')
    /\ IngestionPipeline.loader self' = Samples.fresh
    /\ IngestionPipeline.rows_loaded (IngestionPipeline.metrics self') = 0%nat
    /\ IngestionPipeline.rows_rejected (IngestionPipeline.metrics self')
       = 1%nat.
Proof.
  apply (job_without_valid_row_skips_the_warehouse
           (RT := Simple.runtime) (WH := Simple.warehouse)
           (HOST := SimpleHost.host)
           (IngestionPipeline.make (WH := Simple.warehouse) "/app/data"
              Samples.fresh 0)
           (IngestionPipeline.mkJob "customers" "products.csv" "customers"
              "raw" [])
           (CustomerRecord (RT := Simple.runtime))
           SimpleHost.products_csv); reflexivity.
Defined.

(** X29: the loader's constructor treats a falsy argument as absent: port
    0 and an empty string are replaced from the environment like [None].
    An argument that is given is used as it is, without a look at the
    environment, and the constructor raises only when no port is given
    and the text of [POSTGRES_PORT] (or the default) is not a number. *)
Theorem loader_config_falls_back_on_falsy {HOST : Host}
    (host database user password : option string) (port : option Z)
    (h d u pw : string) (p : Z) :
  PostgresLoaderConfig.__init__ host (Some 0%Z) database user password
  = PostgresLoaderConfig.__init__ host None database user password
  /\ PostgresLoaderConfig.__init__ (Some EmptyString) port database user
       password
     = PostgresLoaderConfig.__init__ None port database user password
  /\ (h <> EmptyString -> d <> EmptyString -> u <> EmptyString ->
      pw <> EmptyString -> p <> 0%Z ->
      PostgresLoaderConfig.__init__ (Some h) (Some p) (Some d) (Some u)
        (Some pw)
      = inr (PostgresLoaderConfig.mk h p d u pw))
  /\ (forall e,
         PostgresLoaderConfig.__init__ host port database user password
         = inl e ->
         (port = None \/ port = Some 0%Z)
         /\ exists msg,
              int_of_string
                (PostgresLoaderConfig.getenv_or "POSTGRES_PORT" "5432")
              = inl msg
              /\ e = ValueError msg).
Proof.
  repeat split.
  - intros Hh Hd Hu Hpw Hp. unfold PostgresLoaderConfig.__init__.
    apply Z.eqb_neq in Hp. rewrite Hp.
    destruct h, d, u, pw; try contradiction; reflexivity.
  - unfold PostgresLoaderConfig.__init__ in H.
    destruct port as [q|]; [|now left].
    destruct (Z.eqb_spec q 0); [right; congruence|discriminate].
  - unfold PostgresLoaderConfig.__init__ in H.
    destruct port as [q|].
    + destruct (Z.eqb_spec q 0); [|discriminate].
      destruct (int_of_string _) as [msg|n]; [|discriminate].
      exists msg. split; [reflexivity|congruence].
    + destruct (int_of_string _) as [msg|n]; [|discriminate].
      exists msg. split; [reflexivity|congruence].
Qed.

Lemma loader_config_falls_back_on_falsy_witness :
  PostgresLoaderConfig.__init__ (HOST := SimpleHost.host)
    (Some "db.local") (Some 5433%Z) (Some "sales") (Some "etl")
    (Some "secret")
  = inr (PostgresLoaderConfig.mk "db.local" 5433 "sales" "etl" "secret").
Proof.
  apply (loader_config_falls_back_on_falsy (HOST := SimpleHost.host)
           None None None None None "db.local" "sales" "etl" "secret"
           5433%Z); discriminate.
Defined.

(** * Missing values *)

(** The replacement that [row_dict] applies to a cell. *)
Lemma none_if_missing_same (v v' : value) :
  same_or_missing v v' ->
  (if isna v then VNone else v) = (if isna v' then VNone else v').
Proof.
  intros [->|[H H']]; [reflexivity|now rewrite H, H'].
Qed.

Lemma dict_set_map_values (g : value -> value) (k : string) (v : value)
    (d : dict) :
  dict_set k (g v) (map (fun kv => (fst kv, g (snd kv))) d)
  = map (fun kv => (fst kv, g (snd kv))) (dict_set k v d).
Proof.
  induction d as [|[k0 v0] d IH]; simpl; [reflexivity|].
  destruct (String.eqb k0 k); simpl; [reflexivity|now rewrite IH].
Qed.

Lemma dict_update_map_values (g : value -> value) (other d : dict) :
  dict_update (map (fun kv => (fst kv, g (snd kv))) d)
    (map (fun kv => (fst kv, g (snd kv))) other)
  = map (fun kv => (fst kv, g (snd kv))) (dict_update d other).
Proof.
  unfold dict_update. revert d.
  induction other as [|[k v] other IH]; intros d; simpl; [reflexivity|].
  now rewrite dict_set_map_values, IH.
Qed.

Lemma filter_keys_map_values (p : string -> bool) (g : value -> value)
    (d : dict) :
  filter (fun kv => p (fst kv)) (map (fun kv => (fst kv, g (snd kv))) d)
  = map (fun kv => (fst kv, g (snd kv))) (filter (fun kv => p (fst kv)) d).
Proof.
  induction d as [|[k v] d IH]; simpl; [reflexivity|].
  destruct (p k); simpl; now rewrite IH.
Qed.

Lemma combine_map_values (g : value -> value) (cols : list string)
    (cells : list value) :
  combine cols (map g cells)
  = map (fun kv => (fst kv, g (snd kv))) (combine cols cells).
Proof.
  revert cells. induction cols as [|c cols IH]; intros [|v cells]; simpl;
    try reflexivity.
  now rewrite IH.
Qed.

(** What the schema is handed depends on the cells only through their
    replacement. *)
Lemma row_dict_of_cells (cols : list string) (cells : list value) :
  row_dict (combine cols cells)
  = filter (fun kv => negb (startswith_underscore (fst kv)))
      (to_dict
         (combine cols (map (fun v => if isna v then VNone else v) cells))).
Proof.
  unfold row_dict, to_dict, dict_of_pairs.
  rewrite combine_map_values.
  pose proof (dict_update_map_values
                (fun v => if isna v then VNone else v) (combine cols cells) [])
    as H.
  simpl in H. rewrite H. symmetry.
  exact (filter_keys_map_values (fun k => negb (startswith_underscore k))
           (fun v => if isna v then VNone else v) _).
Qed.

Lemma row_dict_same_or_missing (cols : list string)
    (cells cells' : list value) :
  Forall2 same_or_missing cells cells' ->
  row_dict (combine cols cells) = row_dict (combine cols cells').
Proof.
  intros H. rewrite !row_dict_of_cells. do 3 f_equal.
  induction H as [|v v' cells cells' Hv _ IH]; simpl; [reflexivity|].
  now rewrite (none_if_missing_same v v' Hv), IH.
Qed.

Lemma iterrows_same_up_to_missing (df df' : DataFrame) :
  same_up_to_missing df df' ->
  Forall2 (fun r r' => fst r = fst r'
                       /\ row_dict (snd r) = row_dict (snd r'))
    (iterrows df) (iterrows df').
Proof.
  intros [Hcols Hrecs]. unfold iterrows. rewrite <- Hcols.
  induction Hrecs as [|r r' rs rs' [Hidx Hcells] _ IH]; simpl;
    constructor; [|exact IH].
  simpl. split; [exact Hidx|now apply row_dict_same_or_missing].
Qed.

Section MissingFacts.
Context {RT : PyRuntime}.

(** A required field that finds [None] reports the type error of its
    annotation, with [None] as the input. *)
Lemma required_field_on_None (f : FieldInfo) (d : dict) :
  optional f = false ->
  dict_get d (field_name f) = Some VNone ->
  validate_field f d
  = inl (mkErrorDetail (type_error (annotation f)) (field_name f)
           (InputValue VNone)).
Proof.
  intros Hopt Hget. unfold validate_field.
  now rewrite Hget, Hopt, coerce_None.
Qed.

Lemma optional_field_on_None (f : FieldInfo) (d : dict) :
  optional f = true ->
  dict_get d (field_name f) = Some VNone ->
  validate_field f d = inr VNone.
Proof.
  intros Hopt Hget. unfold validate_field. now rewrite Hget, Hopt.
Qed.

End MissingFacts.

(** C6 (amended): before the schema is applied, [validate] replaces every
    cell that holds a missing value ([None], NaN, [NaT], [NA]: what an
    empty cell of a file is read as) by [None] and leaves every other
    cell, the empty string among them, as it is. So [validate] decides
    two datasets that differ in their missing values only in the same
    way; the checks of a field run on [None]: an optional field passes
    with [None], a required field is reported with the type error of its
    annotation on the input [None]. An absent key is not replaced: the
    schema is handed no entry for it, and accepts or rejects the row, with
    the same validated values, as it does for [None]. *)
Theorem missing_values_are_validated_as_None {RT : PyRuntime} :
  (forall (row : Series) (k : string) (v : value),
      startswith_underscore k = false ->
      dict_get (to_dict row) k = Some v ->
      dict_get (row_dict row) k = Some (if isna v then VNone else v))
  /\ (forall (self : t) (df df' : DataFrame) (schema_name : string),
         same_up_to_missing df df' ->
         Forall2 (fun r r' => row_dict (snd r) = row_dict (snd r'))
           (iterrows df) (iterrows df')
         /\ match validate self df schema_name,
                  validate self df' schema_name with
            | inl e, inl e' => e = e'
            | inr (accepted, errs), inr (accepted', errs') =>
                len accepted = len accepted'
                /\ map (fun info => (row_index info, errors info)) errs
                   = map (fun info => (row_index info, errors info)) errs'
            | _, _ => False
            end)
  /\ (forall (self : t) (df : DataFrame) (schema_name : string)
             (schema : Model) (idx : Z) (row : Series) (f : FieldInfo)
             (v : value),
         mode self <> "strict" ->
         lookup SCHEMAS schema_name = Some schema ->
         In (idx, row) (iterrows df) ->
         In f (model_fields schema) ->
         dict_get (to_dict row) (field_name f) = Some v ->
         isna v = true ->
         (optional f = true -> validate_field f (row_dict row) = inr VNone)
         /\ (optional f = false ->
             exists accepted errs info,
               validate self df schema_name = inr (accepted, errs)
               /\ In info errs
               /\ row_index info = idx
               /\ data info = to_dict row
               /\ In (mkErrorDetail (type_error (annotation f))
                        (field_name f) (InputValue VNone))
                     (errors info)))
  /\ (forall (schema : Model) (row : Series) (k : string) (v : value),
         startswith_underscore k = false ->
         isna v = true ->
         dict_get (to_dict row) k = None ->
         dict_get (row_dict row) k = None
         /\ accepted_values
              (model_validate schema (row_dict (row ++ [(k, v)])))
            = accepted_values (model_validate schema (row_dict row))).
Proof.
  split; [|split; [|split]].
  - intros row k v Hk Hv. now rewrite dict_get_row_dict, Hk, Hv.
  - intros self df df' schema_name Hsame.
    pose proof (iterrows_same_up_to_missing df df' Hsame) as Hrows.
    split.
    { induction Hrows as [|r r' rs rs' [_ Hr] _ IH]; constructor;
        assumption. }
    unfold validate.
    destruct (lookup SCHEMAS schema_name) as [schema|]; [|reflexivity].
    pose proof (validate_rows_same_view self schema _ _ Hrows [] [] [] []
                  eq_refl eq_refl) as H.
    destruct (validate_rows self schema (iterrows df) [] [])
      as [e|[out es]],
      (validate_rows self schema (iterrows df') [] []) as [e'|[out' es']];
      try exact H; try contradiction.
    now rewrite !len_DataFrame_of_dicts.
  - intros self df schema_name schema idx row f v Hmode Hs Hrow Hf Hv Hna.
    assert (Hk : startswith_underscore (field_name f) = false).
    { apply (registered_fields_not_metadata _ _ _ Hs). now apply in_map. }
    assert (Hget : dict_get (row_dict row) (field_name f) = Some VNone).
    { rewrite dict_get_row_dict, Hk, Hv. simpl. now rewrite Hna. }
    split; intros Hopt.
    + now apply optional_field_on_None.
    + pose proof (required_field_on_None f _ Hopt Hget) as Herr.
      pose proof (validate_fields_reports _ _ f _ Hf Herr) as Hrep.
      unfold validate. rewrite Hs, validate_rows_lenient by assumption.
      simpl.
      assert (Hinfo :
        row_error schema (idx, row)
        = Some (mkErrorInfo idx
                  (fst (validate_fields (model_fields schema) (row_dict row)))
                  (to_dict row))).
      { unfold row_error, model_validate. simpl.
        destruct (validate_fields (model_fields schema) (row_dict row))
          as [[|e0 errs] out]; [destruct Hrep|reflexivity]. }
      eexists _, _, _. split; [reflexivity|]. split.
      { exact (In_collect _ _ _ _ Hrow Hinfo). }
      simpl. repeat split. exact Hrep.
  - intros schema row k v Hk Hna Habs. split.
    + now rewrite dict_get_row_dict, Hk, Habs.
    + apply (model_validate_absent_or_None schema _ _ k).
      * now rewrite dict_get_row_dict, Hk, Habs.
      * now rewrite dict_get_row_dict, Hk, to_dict_app, dict_get_set,
          String.eqb_refl; simpl; rewrite Hna.
      * intros k' Hne. rewrite !dict_get_row_dict, to_dict_app.
        rewrite dict_get_set_other by congruence. reflexivity.
Qed.

Lemma missing_values_are_validated_as_None_witness :
  match validate (RT := Simple.runtime) (mk "filter")
          Scenarios.undated_order "orders",
        validate (RT := Simple.runtime) (mk "filter")
          (Scenarios.one_order VNone (VStr "pending")) "orders" with
  | inl e, inl e' => e = e'
  | inr (accepted, errs), inr (accepted', errs') =>
      len accepted = len accepted'
      /\ map (fun info => (row_index info, errors info)) errs
         = map (fun info => (row_index info, errors info)) errs'
  | _, _ => False
  end
  /\ exists accepted errs info,
       validate (RT := Simple.runtime) (mk "filter")
         Scenarios.order_of_unknown_status "orders" = inr (accepted, errs)
       /\ In info errs
       /\ row_index info = 0%Z
       /\ data info
          = to_dict (combine Scenarios.order_columns
                       (Scenarios.order (VTimestamp 1650000000)
                          (VFloat FNaN)))
       /\ In (mkErrorDetail "string_type" "status" (InputValue VNone))
             (errors info).
Proof.
  destruct (missing_values_are_validated_as_None (RT := Simple.runtime))
    as (_ & Hsame & Hchecked & _).
  split.
  - refine (proj2 (Hsame (mk "filter") Scenarios.undated_order
                     (Scenarios.one_order VNone (VStr "pending")) "orders"
                     _)).
    split; [reflexivity|].
    apply Forall2_cons; [|apply Forall2_nil].
    split; [reflexivity|].
    repeat (first
      [ apply Forall2_nil
      | apply Forall2_cons;
        [first [left; reflexivity | right; split; reflexivity]|] ]).
  - apply (Hchecked (mk "filter") Scenarios.order_of_unknown_status "orders"
             OrderRecord 0%Z
             (combine Scenarios.order_columns
                (Scenarios.order (VTimestamp 1650000000) (VFloat FNaN)))
             (mkField "status" TStr false
                [pattern "^(pending|completed|shipped|cancelled)$"] None)
             (VFloat FNaN)).
    + discriminate.
    + reflexivity.
    + left. reflexivity.
    + simpl. auto 10.
    + reflexivity.
    + reflexivity.
    + reflexivity.
Defined.

(** C6 (what the code does at the claimed input): an empty string is not
    replaced: an order whose date cell holds the empty string is
    rejected at [order_date], while the order with [None] there is
    accepted. An absent key is not replaced either: without a status
    column the row is reported with a "missing" entry, with a missing
    status cell it is reported with the type error that [None] gets. *)
Lemma empty_string_and_absent_key_are_not_None :
  (exists accepted errs,
      validate (RT := Simple.runtime) (mk "filter")
        (Scenarios.one_order (VStr "") (VStr "pending")) "orders"
      = inr (accepted, errs)
      /\ len accepted = 0%nat
      /\ map (fun info => map err_loc (errors info)) errs = [["order_date"]])
  /\ (exists accepted,
         validate (RT := Simple.runtime) (mk "filter")
           (Scenarios.one_order VNone (VStr "pending")) "orders"
         = inr (accepted, [])
         /\ len accepted = 1%nat)
  /\ (exists accepted errs,
         validate (RT := Simple.runtime) (mk "filter")
           Scenarios.order_without_status "orders" = inr (accepted, errs)
         /\ map (fun info => map err_type (errors info)) errs
            = [["missing"]])
  /\ (exists accepted errs,
         validate (RT := Simple.runtime) (mk "filter")
           Scenarios.order_of_unknown_status "orders" = inr (accepted, errs)
         /\ map (fun info => map err_type (errors info)) errs
            = [["string_type"]]).
Proof.
  repeat split; eexists; try eexists; repeat split;
    try (vm_compute; reflexivity).
Qed.
